(** * FamBudget: month keys, balance projection, aggregation and carry-over

    A shallow embedding of the budgeting core of the FamBudget dashboard
    ([src/hooks/useBudget.ts], [src/hooks/useBalances.ts],
    [src/components/BalanceTracker.tsx]) together with the properties its
    design document states about it.

    Conventions of the embedding.
    - A monetary amount is held as an integer count of cents ([Z]): the
      schema stores every amount as [DECIMAL(12, 2)].  The main definitions
      add, subtract and multiply these exactly, which is the fixed-point
      arithmetic the design document asks for.  The program itself computes
      on JavaScript numbers; [Binary64] gives the summaries in that
      arithmetic (IEEE 754 binary64), where rounding shows.
    - A month is the [string] the program passes around ("YYYY-MM"); the
      JavaScript string and [Date] operations the program applies to it are
      modelled below.
    - A row identity (UUID) is an opaque [nat]; the store hands them out
      from a counter.  A timestamp is a [nat] tick of the store's clock.

    Part I holds the definitions: the program, the store it talks to, the
    reference definitions taken from the design document and the scenarios.
    Part II holds the properties. *)

From Stdlib Require Import ZArith Lia Ascii String List QArith.Qcanon.
From Stdlib Require Import Floats Uint63.
From stdpp Require Import base gmap sets list strings numbers.

Local Open Scope Z_scope.

(** * Part I: the model *)

(** ** JavaScript strings and numbers, as far as the program uses them *)

Module Js.

(** UTF-16 code unit of a character (the program's strings are ASCII). *)
Definition code (c : ascii) : Z := Z.of_N (N_of_ascii c).

(** Value of a decimal digit character. *)
Definition digit_of_ascii (c : ascii) : option Z :=
  if (48 <=? code c) && (code c <=? 57) then Some (code c - 48) else None.

(** Character of a digit value [0..9]. *)
Definition ascii_of_digit (d : Z) : ascii := ascii_of_N (Z.to_N (48 + d)).

(** [s.split(sep)] for a one-character separator. *)
Fixpoint split (sep : ascii) (s : string) : list string :=
  match s with
  | EmptyString => [EmptyString]
  | String c s' =>
      if Ascii.eqb c sep then EmptyString :: split sep s'
      else match split sep s' with
           | [] => [String c EmptyString]
           | x :: xs => String c x :: xs
           end
  end.

(** Reading a run of decimal digits, most significant first. *)
Fixpoint digits_value (acc : Z) (s : string) : option Z :=
  match s with
  | EmptyString => Some acc
  | String c s' =>
      match digit_of_ascii c with
      | Some d => digits_value (10 * acc + d) s'
      | None => None
      end
  end.

(** [Number(s)] on a string of decimal digits; the empty string is [0].
    [None] stands for every other input: JavaScript answers [NaN] there,
    or reads a literal form (sign, fraction, exponent, radix prefix,
    surrounding blanks) that month keys never contain and that this model
    leaves out. *)
Definition Number (s : string) : option Z :=
  match s with
  | EmptyString => Some 0
  | _ => digits_value 0 s
  end.

(** [parseInt(s)]: the leading run of decimal digits, [NaN] ([None]) when
    there is none.  Leading blanks, signs and radix prefixes are left out
    as for [Number]. *)
Fixpoint parseInt_from (acc : option Z) (s : string) : option Z :=
  match s with
  | EmptyString => acc
  | String c s' =>
      match digit_of_ascii c with
      | Some d => parseInt_from (Some (10 * default 0 acc + d)) s'
      | None => acc
      end
  end.

Definition parseInt (s : string) : option Z := parseInt_from None s.

(** Decimal digits of a non-negative integer, least significant digit
    produced first and pushed in front of [acc]. *)
Fixpoint digits_of (fuel : nat) (n : Z) (acc : string) : string :=
  let acc' := String (ascii_of_digit (n mod 10)) acc in
  match fuel with
  | O => acc'
  | S fuel' => if n / 10 =? 0 then acc' else digits_of fuel' (n / 10) acc'
  end.

(** [String(n)] for an integer [n]: a number has no more decimal digits
    than binary ones, which bounds the recursion. *)
Definition toString (n : Z) : string :=
  if n <? 0 then String "-"%char (digits_of (Z.to_nat (Z.log2 (- n))) (- n) EmptyString)
  else digits_of (Z.to_nat (Z.log2 n)) n EmptyString.

(** [s.padStart(2, '0')]. *)
Definition padStart2 (s : string) : string :=
  match s with
  | EmptyString => "00"
  | String c EmptyString => String "0"%char s
  | _ => s
  end.

(** [a < b] on strings: lexicographic on code units, a proper prefix
    being smaller. *)
Fixpoint string_lt (a b : string) : bool :=
  match a, b with
  | _, EmptyString => false
  | EmptyString, String _ _ => true
  | String c a', String d b' =>
      if code c <? code d then true
      else if code d <? code c then false
      else string_lt a' b'
  end.

(** [a <= b] on strings is [!(b < a)]. *)
Definition string_le (a b : string) : bool := negb (string_lt b a).

(** A [Date] built by the program: always the first day of a month at
    local midnight, so the year and the zero-based month determine it.
    (The model leaves out the limits of the time value, about 270000
    years either side of 1970.) *)
Record Date := { getFullYear : Z; getMonth : Z }.

(** Normalising a month index into [0..11], carrying into the year. *)
Definition makeDate (year monthIndex : Z) : Date :=
  {| getFullYear := year + monthIndex / 12; getMonth := monthIndex mod 12 |}.

(** [new Date(year, monthIndex, 1)]; a year [0..99] means [1900 + year]. *)
Definition newDate (year monthIndex : Z) : Date :=
  makeDate (if (0 <=? year) && (year <=? 99) then 1900 + year else year) monthIndex.

(** [date.setMonth(monthIndex)] on the first day of a month. *)
Definition setMonth (d : Date) (monthIndex : Z) : Date :=
  makeDate (getFullYear d) monthIndex.

(** [Math.max(a, b)] on integers. *)
Definition max (a b : Z) : Z := Z.max a b.

End Js.

(** ** Month keys as the design document describes them (section 4.1) *)

Module Spec.

(** [parse(s) -> (year, month)]: [s] must match [YYYY-MM] with the month
    in [1..12]. *)
Definition parse (s : string) : option (Z * Z) :=
  match s with
  | String y1 (String y2 (String y3 (String y4 (String dash
      (String m1 (String m2 EmptyString)))))) =>
      match Js.digit_of_ascii y1, Js.digit_of_ascii y2, Js.digit_of_ascii y3,
            Js.digit_of_ascii y4, Js.digit_of_ascii m1, Js.digit_of_ascii m2 with
      | Some a, Some b, Some c, Some d, Some e, Some f =>
          let month := 10 * e + f in
          if Ascii.eqb dash "-"%char && (1 <=? month) && (month <=? 12)
          then Some (1000 * a + 100 * b + 10 * c + d, month)
          else None
      | _, _, _, _, _, _ => None
      end
  | _ => None
  end.

(** Total order by (year, month). *)
Definition leb (a b : Z * Z) : bool :=
  (fst a <? fst b) || ((fst a =? fst b) && (snd a <=? snd b)).

Definition ltb (a b : Z * Z) : bool :=
  (fst a <? fst b) || ((fst a =? fst b) && (snd a <? snd b)).

(** [monthsElapsed(from, to)]. *)
Definition monthsElapsed (from to : Z * Z) : Z :=
  (fst to - fst from) * 12 + (snd to - snd from).

(** [predecessor(k)]: subtract one month, rolling the year at January. *)
Definition predecessor (k : Z * Z) : Z * Z :=
  if snd k =? 1 then (fst k - 1, 12) else (fst k, snd k - 1).

(** [scheduleBalance(account, m)] on parsed month keys. *)
Definition scheduleBalance (initialBalance monthlyDeduction : Z) (startMonth m : Z * Z) : Z :=
  if monthsElapsed startMonth m <? 0 then initialBalance
  else Z.max 0 (initialBalance - monthlyDeduction * (monthsElapsed startMonth m + 1)).

End Spec.

(** ** Month arithmetic of the program *)

(** The template the program uses for every month key it builds:
    [`${date.getFullYear()}-${String(date.getMonth() + 1).padStart(2, '0')}`]. *)
Definition formatMonthKey (date : Js.Date) : string :=
  Js.toString (Js.getFullYear date) +:+ "-" +:+ Js.padStart2 (Js.toString (Js.getMonth date + 1)).

(** [getPreviousMonth] of [useBudget.ts].  When a part of the key does not
    read as a number the date is invalid and prints as "NaN-NaN". *)
Definition getPreviousMonth (month : string) : string :=
  match Js.split "-" month with
  | year :: monthNum :: _ =>
      match Js.parseInt year, Js.parseInt monthNum with
      | Some y, Some m =>
          let date := Js.newDate y (m - 1) in
          let date := Js.setMonth date (Js.getMonth date - 1) in
          formatMonthKey date
      | _, _ => "NaN-NaN"
      end
  | _ => "NaN-NaN"
  end.

(** The two dates [calculateCurrentBalance] builds from its month keys. *)
Definition monthDate (key : string) : option Js.Date :=
  match map Js.Number (Js.split "-" key) with
  | Some year :: Some monthNum :: _ => Some (Js.newDate year (monthNum - 1))
  | _ => None
  end.

(** The [monthsElapsed] local of [calculateCurrentBalance]. *)
Definition monthsElapsed (startMonth currentMonth : string) : option Z :=
  match monthDate startMonth, monthDate currentMonth with
  | Some startDate, Some currentDate =>
      Some ((Js.getFullYear currentDate - Js.getFullYear startDate) * 12
            + (Js.getMonth currentDate - Js.getMonth startDate))
  | _, _ => None
  end.

(** [calculateCurrentBalance] of [useBalances.ts]. *)
Definition calculateCurrentBalance
    (initialBalance monthlyDeduction : Z) (startMonth currentMonth : string) : option Z :=
  match monthsElapsed startMonth currentMonth with
  | Some elapsed =>
      if elapsed <? 0 then Some initialBalance
      else
        let totalDeductions := monthlyDeduction * (elapsed + 1) in
        let currentBalance := initialBalance - totalDeductions in
        Some (Js.max 0 currentBalance)
  | None => None
  end.

(** ** Data model ([src/types/budget.ts], [supabase-schema.sql]) *)

Inductive FamilyMember := Nikkie | Hein.

Inductive IncomeType := Salary | Other.

Inductive ExpenseCategory :=
  | Housing | Utilities | Groceries | Transportation | Healthcare
  | Entertainment | Dining | Shopping | Education | Insurance | Savings
  | OtherCategory.

#[global] Instance FamilyMember_eq_dec : EqDecision FamilyMember.
Proof. solve_decision. Defined.

#[global] Instance IncomeType_eq_dec : EqDecision IncomeType.
Proof. solve_decision. Defined.

#[global] Instance ExpenseCategory_eq_dec : EqDecision ExpenseCategory.
Proof. solve_decision. Defined.

Definition Uuid := nat.
Definition Timestamp := nat.

Module Income.
Record t := {
  id : Uuid;
  member : FamilyMember;
  income_type : IncomeType;
  description : string;
  amount : Z;
  month : string;
  created_at : Timestamp;
}.
End Income.

Module Tax.
Record t := {
  id : Uuid;
  member : FamilyMember;
  description : string;
  amount : Z;
  month : string;
  created_at : Timestamp;
}.
End Tax.

Module Expense.
Record t := {
  id : Uuid;
  member : FamilyMember;
  category : ExpenseCategory;
  description : string;
  amount : Z;
  month : string;
  is_shared : bool;
  is_recurring : bool;
  is_paid : bool;
  include_vat : bool;
  note : option string;
  balance_account_id : option Uuid;
  created_at : Timestamp;
}.
End Expense.

Module UnnecessaryExpense.
Record t := {
  id : Uuid;
  member : FamilyMember;
  description : string;
  amount : Z;
  month : string;
  note : option string;
  created_at : Timestamp;
}.
End UnnecessaryExpense.

Module MemberSummary.
Record t := {
  member : FamilyMember;
  grossIncome : Z;
  otherIncome : Z;
  totalIncome : Z;
  totalTaxes : Z;
  netIncome : Z;
  totalExpenses : Z;
  totalUnnecessaryExpenses : Z;
  remainingBalance : Z;
}.
End MemberSummary.

Module HouseholdSummary.
Record t := {
  grossIncome : Z;
  otherIncome : Z;
  totalIncome : Z;
  totalTaxes : Z;
  netIncome : Z;
  totalExpenses : Z;
  totalUnnecessaryExpenses : Z;
  remainingBalance : Z;
  nikkieSummary : MemberSummary.t;
  heinSummary : MemberSummary.t;
}.
End HouseholdSummary.

Module BalanceAccount.
Record t := {
  id : Uuid;
  name : string;
  description : string;
  initial_balance : Z;
  current_balance : Z;
  monthly_deduction : Z;
  start_month : string;
  created_at : Timestamp;
}.
End BalanceAccount.

(** ** Budget aggregation ([useBudget.ts]) *)

(** [rows.reduce((sum, r) => sum + Number(r.amount), 0)]. *)
Definition sumAmounts {A} (amount : A → Z) (rows : list A) : Z :=
  foldl (λ sum r, sum + amount r) 0 rows.

Definition calculateMemberSummary
    (member : FamilyMember)
    (incomes : list Income.t) (taxes : list Tax.t)
    (expenses : list Expense.t) (unnecessaryExpenses : list UnnecessaryExpense.t)
  : MemberSummary.t :=
  let memberIncomes := List.filter (λ i, bool_decide (Income.member i = member)) incomes in
  let memberTaxes := List.filter (λ t, bool_decide (Tax.member t = member)) taxes in
  let memberExpenses := List.filter (λ e, bool_decide (Expense.member e = member)) expenses in
  let memberUnnecessaryExpenses :=
    List.filter (λ u, bool_decide (UnnecessaryExpense.member u = member)) unnecessaryExpenses in
  let grossIncome :=
    sumAmounts Income.amount
      (List.filter (λ i, bool_decide (Income.income_type i = Salary)) memberIncomes) in
  let otherIncome :=
    sumAmounts Income.amount
      (List.filter (λ i, bool_decide (Income.income_type i = Other)) memberIncomes) in
  let totalIncome := grossIncome + otherIncome in
  let totalTaxes := sumAmounts Tax.amount memberTaxes in
  let totalExpenses := sumAmounts Expense.amount memberExpenses in
  let totalUnnecessaryExpenses :=
    sumAmounts UnnecessaryExpense.amount memberUnnecessaryExpenses in
  let netIncome := grossIncome - totalTaxes + otherIncome in
  let remainingBalance := netIncome - totalExpenses - totalUnnecessaryExpenses in
  {| MemberSummary.member := member;
     MemberSummary.grossIncome := grossIncome;
     MemberSummary.otherIncome := otherIncome;
     MemberSummary.totalIncome := totalIncome;
     MemberSummary.totalTaxes := totalTaxes;
     MemberSummary.netIncome := netIncome;
     MemberSummary.totalExpenses := totalExpenses;
     MemberSummary.totalUnnecessaryExpenses := totalUnnecessaryExpenses;
     MemberSummary.remainingBalance := remainingBalance |}.

Definition calculateHouseholdSummary
    (incomes : list Income.t) (taxes : list Tax.t)
    (expenses : list Expense.t) (unnecessaryExpenses : list UnnecessaryExpense.t)
  : HouseholdSummary.t :=
  let nikkieSummary := calculateMemberSummary Nikkie incomes taxes expenses unnecessaryExpenses in
  let heinSummary := calculateMemberSummary Hein incomes taxes expenses unnecessaryExpenses in
  let grossIncome := MemberSummary.grossIncome nikkieSummary + MemberSummary.grossIncome heinSummary in
  let otherIncome := MemberSummary.otherIncome nikkieSummary + MemberSummary.otherIncome heinSummary in
  let totalIncome := MemberSummary.totalIncome nikkieSummary + MemberSummary.totalIncome heinSummary in
  let totalTaxes := MemberSummary.totalTaxes nikkieSummary + MemberSummary.totalTaxes heinSummary in
  let totalExpenses :=
    MemberSummary.totalExpenses nikkieSummary + MemberSummary.totalExpenses heinSummary in
  let totalUnnecessaryExpenses :=
    MemberSummary.totalUnnecessaryExpenses nikkieSummary
    + MemberSummary.totalUnnecessaryExpenses heinSummary in
  let netIncome := grossIncome - totalTaxes + otherIncome in
  let remainingBalance := netIncome - totalExpenses - totalUnnecessaryExpenses in
  {| HouseholdSummary.grossIncome := grossIncome;
     HouseholdSummary.otherIncome := otherIncome;
     HouseholdSummary.totalIncome := totalIncome;
     HouseholdSummary.totalTaxes := totalTaxes;
     HouseholdSummary.netIncome := netIncome;
     HouseholdSummary.totalExpenses := totalExpenses;
     HouseholdSummary.totalUnnecessaryExpenses := totalUnnecessaryExpenses;
     HouseholdSummary.remainingBalance := remainingBalance;
     HouseholdSummary.nikkieSummary := nikkieSummary;
     HouseholdSummary.heinSummary := heinSummary |}.

(** ** The summaries in the program's own arithmetic

    [calculateMemberSummary] and [calculateHouseholdSummary] once more, on
    JavaScript numbers: every amount is read as the double nearest to it and
    every [+] and [-] rounds to the nearest double. *)

Module Binary64.

(** [Number(row.amount)]: the double nearest to an amount of the store,
    given in cents.  (The count of cents is an integer below 2^53 and so is
    100; their quotient rounds once, to the double nearest to the decimal
    amount, which is what reading the decimal gives.) *)
Definition toNumber (cents : Z) : float :=
  if cents <? 0
  then (- (of_uint63 (Uint63.of_Z (- cents)) / 100))%float
  else (of_uint63 (Uint63.of_Z cents) / 100)%float.

(** [rows.reduce((sum, r) => sum + Number(r.amount), 0)]. *)
Definition sumAmounts {A} (amount : A → Z) (rows : list A) : float :=
  foldl (λ sum r, (sum + toNumber (amount r))%float) 0%float rows.

Module MemberSummary.
Record t := {
  member : FamilyMember;
  grossIncome : float;
  otherIncome : float;
  totalIncome : float;
  totalTaxes : float;
  netIncome : float;
  totalExpenses : float;
  totalUnnecessaryExpenses : float;
  remainingBalance : float;
}.
End MemberSummary.

Module HouseholdSummary.
Record t := {
  grossIncome : float;
  otherIncome : float;
  totalIncome : float;
  totalTaxes : float;
  netIncome : float;
  totalExpenses : float;
  totalUnnecessaryExpenses : float;
  remainingBalance : float;
  nikkieSummary : MemberSummary.t;
  heinSummary : MemberSummary.t;
}.
End HouseholdSummary.

Definition calculateMemberSummary
    (member : FamilyMember)
    (incomes : list Income.t) (taxes : list Tax.t)
    (expenses : list Expense.t) (unnecessaryExpenses : list UnnecessaryExpense.t)
  : MemberSummary.t :=
  let memberIncomes := List.filter (λ i, bool_decide (Income.member i = member)) incomes in
  let memberTaxes := List.filter (λ t, bool_decide (Tax.member t = member)) taxes in
  let memberExpenses := List.filter (λ e, bool_decide (Expense.member e = member)) expenses in
  let memberUnnecessaryExpenses :=
    List.filter (λ u, bool_decide (UnnecessaryExpense.member u = member)) unnecessaryExpenses in
  let grossIncome :=
    sumAmounts Income.amount
      (List.filter (λ i, bool_decide (Income.income_type i = Salary)) memberIncomes) in
  let otherIncome :=
    sumAmounts Income.amount
      (List.filter (λ i, bool_decide (Income.income_type i = Other)) memberIncomes) in
  let totalIncome := (grossIncome + otherIncome)%float in
  let totalTaxes := sumAmounts Tax.amount memberTaxes in
  let totalExpenses := sumAmounts Expense.amount memberExpenses in
  let totalUnnecessaryExpenses :=
    sumAmounts UnnecessaryExpense.amount memberUnnecessaryExpenses in
  let netIncome := (grossIncome - totalTaxes + otherIncome)%float in
  let remainingBalance := (netIncome - totalExpenses - totalUnnecessaryExpenses)%float in
  {| MemberSummary.member := member;
     MemberSummary.grossIncome := grossIncome;
     MemberSummary.otherIncome := otherIncome;
     MemberSummary.totalIncome := totalIncome;
     MemberSummary.totalTaxes := totalTaxes;
     MemberSummary.netIncome := netIncome;
     MemberSummary.totalExpenses := totalExpenses;
     MemberSummary.totalUnnecessaryExpenses := totalUnnecessaryExpenses;
     MemberSummary.remainingBalance := remainingBalance |}.

Definition calculateHouseholdSummary
    (incomes : list Income.t) (taxes : list Tax.t)
    (expenses : list Expense.t) (unnecessaryExpenses : list UnnecessaryExpense.t)
  : HouseholdSummary.t :=
  let nikkieSummary := calculateMemberSummary Nikkie incomes taxes expenses unnecessaryExpenses in
  let heinSummary := calculateMemberSummary Hein incomes taxes expenses unnecessaryExpenses in
  let grossIncome :=
    (MemberSummary.grossIncome nikkieSummary + MemberSummary.grossIncome heinSummary)%float in
  let otherIncome :=
    (MemberSummary.otherIncome nikkieSummary + MemberSummary.otherIncome heinSummary)%float in
  let totalIncome :=
    (MemberSummary.totalIncome nikkieSummary + MemberSummary.totalIncome heinSummary)%float in
  let totalTaxes :=
    (MemberSummary.totalTaxes nikkieSummary + MemberSummary.totalTaxes heinSummary)%float in
  let totalExpenses :=
    (MemberSummary.totalExpenses nikkieSummary
     + MemberSummary.totalExpenses heinSummary)%float in
  let totalUnnecessaryExpenses :=
    (MemberSummary.totalUnnecessaryExpenses nikkieSummary
     + MemberSummary.totalUnnecessaryExpenses heinSummary)%float in
  let netIncome := (grossIncome - totalTaxes + otherIncome)%float in
  let remainingBalance := (netIncome - totalExpenses - totalUnnecessaryExpenses)%float in
  {| HouseholdSummary.grossIncome := grossIncome;
     HouseholdSummary.otherIncome := otherIncome;
     HouseholdSummary.totalIncome := totalIncome;
     HouseholdSummary.totalTaxes := totalTaxes;
     HouseholdSummary.netIncome := netIncome;
     HouseholdSummary.totalExpenses := totalExpenses;
     HouseholdSummary.totalUnnecessaryExpenses := totalUnnecessaryExpenses;
     HouseholdSummary.remainingBalance := remainingBalance;
     HouseholdSummary.nikkieSummary := nikkieSummary;
     HouseholdSummary.heinSummary := heinSummary |}.

End Binary64.



(** ** Balance tracker ([src/components/BalanceTracker.tsx]) *)

Module JsNumber.

(** The value of a division: a finite quotient, an infinity or NaN.
    Finite values are exact rationals. *)
Inductive t :=
  | Finite (q : Qc)
  | Infinity (negative : bool)
  | NaN.

(** [a / b] for integers [a] and [b] (a zero divisor is [+0]). *)
Definition divide (a b : Z) : t :=
  if b =? 0 then
    if a =? 0 then NaN else Infinity (a <? 0)
  else Finite (Qc_of_Z a / Qc_of_Z b)%Qc.

(** [x * k] for an integer [k]. *)
Definition times (x : t) (k : Z) : t :=
  match x with
  | Finite q => Finite (q * Qc_of_Z k)%Qc
  | Infinity negative =>
      if k =? 0 then NaN else Infinity (xorb negative (k <? 0))
  | NaN => NaN
  end.

End JsNumber.

(** [a === b] where [a] may be [null]. *)
Definition strictEqualsId (a : option Uuid) (b : Uuid) : bool :=
  match a with
  | Some a => bool_decide (a = b)
  | None => false
  end.

(** The label (CSS class) and arrow of a non-zero difference. *)
Inductive DiffLabel := behind | ahead.

#[global] Instance DiffLabel_eq_dec : EqDecision DiffLabel.
Proof. solve_decision. Defined.

(** One cell of the monthly projection table: the actual balance, and for a
    non-zero difference its label and absolute value. *)
Record ProjectionCell := {
  cell_actualBalance : Z;
  cell_diff : Z;
  cell_label : option (DiffLabel * Z);
}.

Section BalanceTracker.

(** The component's [paidExpenses] prop. *)
Variable paidExpenses : list Expense.t.

Definition getTotalPaidUpToMonth (accountId : Uuid) (upToMonth : string) : Z :=
  sumAmounts Expense.amount
    (List.filter
       (λ e, strictEqualsId (Expense.balance_account_id e) accountId
             && Expense.is_paid e
             && Js.string_le (Expense.month e) upToMonth)
       paidExpenses).

Definition getActualBalanceForMonth (account : BalanceAccount.t) (month : string) : Z :=
  let totalPaid := getTotalPaidUpToMonth (BalanceAccount.id account) month in
  Js.max 0 (BalanceAccount.initial_balance account - totalPaid).

Definition getBalanceForMonth (account : BalanceAccount.t) (month : string) : option Z :=
  calculateCurrentBalance
    (BalanceAccount.initial_balance account)
    (BalanceAccount.monthly_deduction account)
    (BalanceAccount.start_month account)
    month.

(** [progressPercentage] of an account card, for the month being viewed. *)
Definition progressPercentage (account : BalanceAccount.t) (selectedViewMonth : string)
  : JsNumber.t :=
  let actualBalance := getActualBalanceForMonth account selectedViewMonth in
  JsNumber.times
    (JsNumber.divide (BalanceAccount.initial_balance account - actualBalance)
                     (BalanceAccount.initial_balance account))
    100.

(** The [diff] of a projection cell and the [<span>] shown for it:
    nothing when [diff === 0], else the class
    [diff > 0 ? 'behind' : 'ahead'] and [Math.abs(diff)]. *)
Definition projectionDiff (diff : Z) : option (DiffLabel * Z) :=
  if diff =? 0 then None
  else Some (if diff >? 0 then behind else ahead, Z.abs diff).

Definition projectionCell (account : BalanceAccount.t) (month : string)
  : option ProjectionCell :=
  let actualBalance := getActualBalanceForMonth account month in
  match getBalanceForMonth account month with
  | Some projectedBalance =>
      let diff := projectedBalance - actualBalance in
      Some {| cell_actualBalance := actualBalance;
              cell_diff := diff;
              cell_label := projectionDiff diff |}
  | None => None
  end.

End BalanceTracker.

(** ** The remote store ([supabase-schema.sql]) *)

(** The object literals the program sends to [insert].  A column the
    literal does not mention ([None] below) takes the default of the
    schema. *)
Module IncomeInsert.
Record t := {
  member : FamilyMember;
  income_type : IncomeType;
  description : string;
  amount : Z;
  month : string;
}.
End IncomeInsert.

Module TaxInsert.
Record t := {
  member : FamilyMember;
  description : string;
  amount : Z;
  month : string;
}.
End TaxInsert.

Module ExpenseInsert.
Record t := {
  member : FamilyMember;
  category : ExpenseCategory;
  description : string;
  amount : Z;
  month : string;
  is_shared : option bool;
  is_recurring : option bool;
  is_paid : option bool;
  include_vat : option bool;
  note : option (option string);
  balance_account_id : option (option Uuid);
}.
End ExpenseInsert.

Module Store.

(** The tables of the month-keyed ledgers, each in the order its rows
    were created, with the sources of fresh identities
    ([uuid_generate_v4()]) and of creation times ([NOW()]). *)
Record t := {
  incomes : list Income.t;
  taxes : list Tax.t;
  expenses : list Expense.t;
  unnecessary_expenses : list UnnecessaryExpense.t;
  next_id : Uuid;
  clock : Timestamp;
}.

(** [.order('created_at', { ascending })] on rows in creation order. *)
Definition order {A} (ascending : bool) (rows : list A) : list A :=
  if ascending then rows else rev rows.

(** [.select('*').eq('month', month).order('created_at', { ascending })]. *)
Definition select_incomes (month : string) (ascending : bool) (db : t) : list Income.t :=
  order ascending (List.filter (λ r, bool_decide (Income.month r = month)) (incomes db)).

Definition select_taxes (month : string) (ascending : bool) (db : t) : list Tax.t :=
  order ascending (List.filter (λ r, bool_decide (Tax.month r = month)) (taxes db)).

Definition select_expenses (month : string) (ascending : bool) (db : t) : list Expense.t :=
  order ascending (List.filter (λ r, bool_decide (Expense.month r = month)) (expenses db)).

Definition select_unnecessary_expenses (month : string) (ascending : bool) (db : t)
  : list UnnecessaryExpense.t :=
  order ascending
    (List.filter (λ r, bool_decide (UnnecessaryExpense.month r = month))
       (unnecessary_expenses db)).

(** The row the store creates for an inserted object. *)
Definition new_income (id : Uuid) (stamp : Timestamp) (r : IncomeInsert.t) : Income.t :=
  {| Income.id := id;
     Income.member := IncomeInsert.member r;
     Income.income_type := IncomeInsert.income_type r;
     Income.description := IncomeInsert.description r;
     Income.amount := IncomeInsert.amount r;
     Income.month := IncomeInsert.month r;
     Income.created_at := stamp |}.

Definition new_tax (id : Uuid) (stamp : Timestamp) (r : TaxInsert.t) : Tax.t :=
  {| Tax.id := id;
     Tax.member := TaxInsert.member r;
     Tax.description := TaxInsert.description r;
     Tax.amount := TaxInsert.amount r;
     Tax.month := TaxInsert.month r;
     Tax.created_at := stamp |}.

(** [is_shared], [is_recurring], [is_paid] and [include_vat] default to
    FALSE, [note] and [balance_account_id] to NULL. *)
Definition new_expense (id : Uuid) (stamp : Timestamp) (r : ExpenseInsert.t) : Expense.t :=
  {| Expense.id := id;
     Expense.member := ExpenseInsert.member r;
     Expense.category := ExpenseInsert.category r;
     Expense.description := ExpenseInsert.description r;
     Expense.amount := ExpenseInsert.amount r;
     Expense.month := ExpenseInsert.month r;
     Expense.is_shared := default false (ExpenseInsert.is_shared r);
     Expense.is_recurring := default false (ExpenseInsert.is_recurring r);
     Expense.is_paid := default false (ExpenseInsert.is_paid r);
     Expense.include_vat := default false (ExpenseInsert.include_vat r);
     Expense.note := default None (ExpenseInsert.note r);
     Expense.balance_account_id := default None (ExpenseInsert.balance_account_id r);
     Expense.created_at := stamp |}.

(** [.insert(rows)]: one statement; every row gets a fresh identity and
    the time of the statement. *)
Definition insert_incomes (rows : list IncomeInsert.t) (db : t) : t :=
  {| incomes := incomes db ++ imap (λ i, new_income (next_id db + i)%nat (clock db)) rows;
     taxes := taxes db;
     expenses := expenses db;
     unnecessary_expenses := unnecessary_expenses db;
     next_id := (next_id db + length rows)%nat;
     clock := S (clock db) |}.

Definition insert_taxes (rows : list TaxInsert.t) (db : t) : t :=
  {| incomes := incomes db;
     taxes := taxes db ++ imap (λ i, new_tax (next_id db + i)%nat (clock db)) rows;
     expenses := expenses db;
     unnecessary_expenses := unnecessary_expenses db;
     next_id := (next_id db + length rows)%nat;
     clock := S (clock db) |}.

Definition insert_expenses (rows : list ExpenseInsert.t) (db : t) : t :=
  {| incomes := incomes db;
     taxes := taxes db;
     expenses := expenses db ++ imap (λ i, new_expense (next_id db + i)%nat (clock db)) rows;
     unnecessary_expenses := unnecessary_expenses db;
     next_id := (next_id db + length rows)%nat;
     clock := S (clock db) |}.

End Store.

(** ** The [useBudget] hook *)

(** What a request to the store resolves to: [{ data, error }]. *)
Record Response (A : Type) := { data : option A; error : option string }.
Arguments data {A} _.
Arguments error {A} _.

(** The state the hook keeps between renders ([useState]). *)
Module HookState.
Record t := {
  incomes : list Income.t;
  taxes : list Tax.t;
  expenses : list Expense.t;
  unnecessaryExpenses : list UnnecessaryExpense.t;
  loading : bool;
  error : option string;
  isCarryingOver : bool;
}.

Definition initial : t :=
  {| incomes := []; taxes := []; expenses := []; unnecessaryExpenses := [];
     loading := true; error := None; isCarryingOver := false |}.
End HookState.

(** The world an operation of the hook runs in: the store, the number of
    requests sent to it so far, the hook's state and the session's guard set
    ([carriedOverMonths], a [useRef] holding a [Set]). *)
Record World := {
  store : Store.t;
  calls : nat;
  state : HookState.t;
  carriedOverMonths : gset string;
}.

(** How a piece of code completes: normally, or by throwing. *)
Inductive Completion (A : Type) :=
  | Returned (a : A)
  | Thrown (message : string).
Arguments Returned {A} _.
Arguments Thrown {A} _.

Definition M (A : Type) : Type := World → Completion A * World.

#[global] Instance M_ret : MRet M := λ A a w, (Returned a, w).

#[global] Instance M_bind : MBind M := λ A B k m w,
  match m w with
  | (Returned a, w') => k a w'
  | (Thrown message, w') => (Thrown message, w')
  end.

Definition throw {A} (message : string) : M A := λ w, (Thrown message, w).

(** [try { body } catch (err) { handler }]. *)
Definition tryCatch {A} (body : M A) (handler : string → M A) : M A := λ w,
  match body w with
  | (Returned a, w') => (Returned a, w')
  | (Thrown message, w') => handler message w'
  end.

(** [... finally { final }], for a [final] that completes normally. *)
Definition tryFinally {A} (body : M A) (final : World → World) : M A := λ w,
  match body w with
  | (completion, w') => (completion, final w')
  end.

Definition modify (f : World → World) : M unit := λ w, (Returned tt, f w).

Definition gets {A} (f : World → A) : M A := λ w, (Returned (f w), w).

Definition withState (f : HookState.t → HookState.t) (w : World) : World :=
  {| store := store w; calls := calls w; state := f (state w);
     carriedOverMonths := carriedOverMonths w |}.

Definition withGuard (f : gset string → gset string) (w : World) : World :=
  {| store := store w; calls := calls w; state := state w;
     carriedOverMonths := f (carriedOverMonths w) |}.

Definition setIncomes v := withState (λ s,
  {| HookState.incomes := v; HookState.taxes := HookState.taxes s;
     HookState.expenses := HookState.expenses s;
     HookState.unnecessaryExpenses := HookState.unnecessaryExpenses s;
     HookState.loading := HookState.loading s; HookState.error := HookState.error s;
     HookState.isCarryingOver := HookState.isCarryingOver s |}).

Definition setTaxes v := withState (λ s,
  {| HookState.incomes := HookState.incomes s; HookState.taxes := v;
     HookState.expenses := HookState.expenses s;
     HookState.unnecessaryExpenses := HookState.unnecessaryExpenses s;
     HookState.loading := HookState.loading s; HookState.error := HookState.error s;
     HookState.isCarryingOver := HookState.isCarryingOver s |}).

Definition setExpenses v := withState (λ s,
  {| HookState.incomes := HookState.incomes s; HookState.taxes := HookState.taxes s;
     HookState.expenses := v;
     HookState.unnecessaryExpenses := HookState.unnecessaryExpenses s;
     HookState.loading := HookState.loading s; HookState.error := HookState.error s;
     HookState.isCarryingOver := HookState.isCarryingOver s |}).

Definition setUnnecessaryExpenses v := withState (λ s,
  {| HookState.incomes := HookState.incomes s; HookState.taxes := HookState.taxes s;
     HookState.expenses := HookState.expenses s;
     HookState.unnecessaryExpenses := v;
     HookState.loading := HookState.loading s; HookState.error := HookState.error s;
     HookState.isCarryingOver := HookState.isCarryingOver s |}).

Definition setLoading v := withState (λ s,
  {| HookState.incomes := HookState.incomes s; HookState.taxes := HookState.taxes s;
     HookState.expenses := HookState.expenses s;
     HookState.unnecessaryExpenses := HookState.unnecessaryExpenses s;
     HookState.loading := v; HookState.error := HookState.error s;
     HookState.isCarryingOver := HookState.isCarryingOver s |}).

Definition setError v := withState (λ s,
  {| HookState.incomes := HookState.incomes s; HookState.taxes := HookState.taxes s;
     HookState.expenses := HookState.expenses s;
     HookState.unnecessaryExpenses := HookState.unnecessaryExpenses s;
     HookState.loading := HookState.loading s; HookState.error := v;
     HookState.isCarryingOver := HookState.isCarryingOver s |}).

Definition setIsCarryingOver v := withState (λ s,
  {| HookState.incomes := HookState.incomes s; HookState.taxes := HookState.taxes s;
     HookState.expenses := HookState.expenses s;
     HookState.unnecessaryExpenses := HookState.unnecessaryExpenses s;
     HookState.loading := HookState.loading s; HookState.error := HookState.error s;
     HookState.isCarryingOver := v |}).

(** [s.includes(sub)]. *)
Fixpoint includes (s sub : string) : bool :=
  String.prefix sub s
  || match s with
     | EmptyString => false
     | String _ s' => includes s' sub
     end.

Section UseBudget.

(** Which requests to the store fail, and with what message: the [n]-th
    request of the session fails when [faults n] is an error. *)
Variable faults : nat → option string.

(** The hook's argument. *)
Variable selectedMonth : string.

(** One awaited request: it resolves to an error, or is applied to the
    store and resolves to its data.  The requests of a [Promise.all] are
    counted in the order the array lists them. *)
Definition request {A} (run : Store.t → A * Store.t) : M (Response A) := λ w,
  match faults (calls w) with
  | Some message =>
      (Returned {| data := None; error := Some message |},
       {| store := store w; calls := S (calls w); state := state w;
          carriedOverMonths := carriedOverMonths w |})
  | None =>
      let '(a, db) := run (store w) in
      (Returned {| data := Some a; error := None |},
       {| store := db; calls := S (calls w); state := state w;
          carriedOverMonths := carriedOverMonths w |})
  end.

Definition selectIncomes (month : string) (ascending : bool) :=
  request (λ db, (Store.select_incomes month ascending db, db)).
Definition selectTaxes (month : string) (ascending : bool) :=
  request (λ db, (Store.select_taxes month ascending db, db)).
Definition selectExpenses (month : string) (ascending : bool) :=
  request (λ db, (Store.select_expenses month ascending db, db)).
Definition selectUnnecessaryExpenses (month : string) (ascending : bool) :=
  request (λ db, (Store.select_unnecessary_expenses month ascending db, db)).

Definition insertIncomes (rows : list IncomeInsert.t) :=
  request (λ db, (tt, Store.insert_incomes rows db)).
Definition insertTaxes (rows : list TaxInsert.t) :=
  request (λ db, (tt, Store.insert_taxes rows db)).
Definition insertExpenses (rows : list ExpenseInsert.t) :=
  request (λ db, (tt, Store.insert_expenses rows db)).

(** [if (result.error) throw result.error]. *)
Definition throwIfError {A} (result : Response A) : M unit :=
  match error result with
  | Some message => throw message
  | None => mret tt
  end.

(** [result.data || []]. *)
Definition dataOrEmpty {A} (result : Response (list A)) : list A :=
  default [] (data result).

(** Fetch data without triggering auto carry-forward. *)
Definition fetchDataWithoutAutoCarry : M unit :=
  tryCatch
    (incomesResult ← selectIncomes selectedMonth false;
     taxesResult ← selectTaxes selectedMonth false;
     expensesResult ← selectExpenses selectedMonth false;
     unnecessaryExpensesResult ← selectUnnecessaryExpenses selectedMonth false;
     throwIfError incomesResult;;
     throwIfError taxesResult;;
     throwIfError expensesResult;;
     modify (setIncomes (dataOrEmpty incomesResult));;
     modify (setTaxes (dataOrEmpty taxesResult));;
     modify (setExpenses (dataOrEmpty expensesResult));;
     modify (setUnnecessaryExpenses (dataOrEmpty unnecessaryExpensesResult)))
    (λ _, mret tt).

(** The copies the automatic carry-forward makes of the previous month's
    rows. *)
Definition copyIncome (income : Income.t) : IncomeInsert.t :=
  {| IncomeInsert.member := Income.member income;
     IncomeInsert.income_type := Income.income_type income;
     IncomeInsert.description := Income.description income;
     IncomeInsert.amount := Income.amount income;
     IncomeInsert.month := selectedMonth |}.

Definition copyTax (tax : Tax.t) : TaxInsert.t :=
  {| TaxInsert.member := Tax.member tax;
     TaxInsert.description := Tax.description tax;
     TaxInsert.amount := Tax.amount tax;
     TaxInsert.month := selectedMonth |}.

Definition copyExpense (expense : Expense.t) : ExpenseInsert.t :=
  {| ExpenseInsert.member := Expense.member expense;
     ExpenseInsert.category := Expense.category expense;
     ExpenseInsert.description := Expense.description expense;
     ExpenseInsert.amount := Expense.amount expense;
     ExpenseInsert.is_shared := Some (Expense.is_shared expense);
     ExpenseInsert.is_recurring := Some (Expense.is_recurring expense);
     ExpenseInsert.is_paid := Some (Expense.is_paid expense);
     ExpenseInsert.include_vat := Some (Expense.include_vat expense);
     ExpenseInsert.note := Some (Expense.note expense);
     ExpenseInsert.balance_account_id := Some (Expense.balance_account_id expense);
     ExpenseInsert.month := selectedMonth |}.

(** Auto carry forward all data from previous month. *)
Definition autoCarryForwardFromPreviousMonth : M bool :=
  modify (setIsCarryingOver true);;
  tryFinally
    (tryCatch
       (let previousMonth := getPreviousMonth selectedMonth in
        incomesResult ← selectIncomes previousMonth true;
        taxesResult ← selectTaxes previousMonth true;
        expensesResult ← selectExpenses previousMonth true;
        throwIfError incomesResult;;
        throwIfError taxesResult;;
        throwIfError expensesResult;;
        let prevIncomes := dataOrEmpty incomesResult in
        let prevTaxes := dataOrEmpty taxesResult in
        let prevExpenses := dataOrEmpty expensesResult in
        if bool_decide (prevIncomes = []) && bool_decide (prevTaxes = [])
           && bool_decide (prevExpenses = [])
        then mret true
        else
          let newIncomes := map copyIncome prevIncomes in
          let newTaxes := map copyTax prevTaxes in
          let newExpenses := map copyExpense prevExpenses in
          (if bool_decide (newIncomes = []) then mret tt
           else incomeResult ← insertIncomes newIncomes; throwIfError incomeResult);;
          (if bool_decide (newTaxes = []) then mret tt
           else taxResult ← insertTaxes newTaxes; throwIfError taxResult);;
          (if bool_decide (newExpenses = []) then mret tt
           else expenseResult ← insertExpenses newExpenses; throwIfError expenseResult);;
          fetchDataWithoutAutoCarry;;
          mret true)
       (λ _,
          modify (withGuard (λ months, months ∖ {[selectedMonth]}));;
          mret false))
    (setIsCarryingOver false).

(** Fetch all data for the selected month.  [fetchDataWith] is the body of
    [fetchData] with the carry-forward it awaits as a parameter [carry], so
    that the world in which the carry-forward starts can be stated;
    [fetchData] itself awaits [autoCarryForwardFromPreviousMonth]. *)
Definition fetchDataWith (carry : M bool) : M unit :=
  modify (setLoading true);;
  modify (setError None);;
  tryFinally
    (tryCatch
       (incomesResult ← selectIncomes selectedMonth false;
        taxesResult ← selectTaxes selectedMonth false;
        expensesResult ← selectExpenses selectedMonth false;
        unnecessaryExpensesResult ← selectUnnecessaryExpenses selectedMonth false;
        throwIfError incomesResult;;
        throwIfError taxesResult;;
        throwIfError expensesResult;;
        (match error unnecessaryExpensesResult with
         | Some message =>
             if negb (includes message "does not exist") then throw message else mret tt
         | None => mret tt
         end);;
        let fetchedIncomes := dataOrEmpty incomesResult in
        let fetchedTaxes := dataOrEmpty taxesResult in
        let fetchedExpenses := dataOrEmpty expensesResult in
        let fetchedUnnecessaryExpenses := dataOrEmpty unnecessaryExpensesResult in
        modify (setIncomes fetchedIncomes);;
        modify (setTaxes fetchedTaxes);;
        modify (setExpenses fetchedExpenses);;
        modify (setUnnecessaryExpenses fetchedUnnecessaryExpenses);;
        carried ← gets carriedOverMonths;
        if bool_decide (fetchedIncomes = []) && bool_decide (fetchedTaxes = [])
           && bool_decide (fetchedExpenses = [])
           && negb (bool_decide (selectedMonth ∈ carried))
        then
          modify (withGuard (λ months, {[selectedMonth]} ∪ months));;
          carry;;
          mret tt
        else mret tt)
       (λ message, modify (setError (Some message))))
    (setLoading false).

Definition fetchData : M unit := fetchDataWith autoCarryForwardFromPreviousMonth.

(** The object [carryOverExpenses] builds for an expense to carry. *)
Definition carriedExpense (expense : Expense.t) : ExpenseInsert.t :=
  {| ExpenseInsert.member := Expense.member expense;
     ExpenseInsert.category := Expense.category expense;
     ExpenseInsert.description := Expense.description expense;
     ExpenseInsert.amount := Expense.amount expense;
     ExpenseInsert.month := selectedMonth;
     ExpenseInsert.is_shared := None;
     ExpenseInsert.is_recurring := None;
     ExpenseInsert.is_paid := None;
     ExpenseInsert.include_vat := None;
     ExpenseInsert.note := None;
     ExpenseInsert.balance_account_id := None |}.

(** Carry over expenses from previous month. *)
Definition carryOverExpenses (expensesToCarry : list Expense.t) : M bool :=
  tryCatch
    (let newExpenses := map carriedExpense expensesToCarry in
     result ← insertExpenses newExpenses;
     throwIfError result;;
     fetchDataWithoutAutoCarry;;
     mret true)
    (λ _, mret false).

End UseBudget.

(** ** Reference definitions

    Canonical month keys, the aggregates and the actual balance as the design
    document words them, and the plan of one copy attempt. *)

(** The four decimal digits of a year. *)
Definition year_digits (y : Z) : string :=
  String (Js.ascii_of_digit (y / 1000))
    (String (Js.ascii_of_digit (y / 100 mod 10))
       (String (Js.ascii_of_digit (y / 10 mod 10))
          (String (Js.ascii_of_digit (y mod 10)) EmptyString))).

(** The two decimal digits of a month number. *)
Definition month_digits (m : Z) : string :=
  String (Js.ascii_of_digit (m / 10)) (String (Js.ascii_of_digit (m mod 10)) EmptyString).

(** The canonical key of a (year, month) pair. *)
Definition month_key (y m : Z) : string :=
  year_digits y +:+ "-" +:+ month_digits m.

(** The last month key whose previous month [getPreviousMonth] prints
    without a padded year: the month before 1000-01 comes out as 999-12.
    (The least month key of the design document is far below it.) *)
Definition last_unpadded_key : Z * Z := (1000, 1).

(** The sum of a column over the rows a predicate selects, as the design
    document words every aggregate ("sum of ... where ..."). *)
Fixpoint sumWhere {A} (select : A → bool) (amount : A → Z) (rows : list A) : Z :=
  match rows with
  | [] => 0
  | r :: rows' => (if select r then amount r else 0) + sumWhere select amount rows'
  end.

(** [a <= b] as a comparison of month keys: both parse, and the pairs are in
    (year, month) order. *)
Definition spec_month_le (a b : string) : bool :=
  match Spec.parse a, Spec.parse b with
  | Some pa, Some pb => Spec.leb pa pb
  | _, _ => false
  end.

(** [actualBalance(account, m, expenses)] as the design document words it:
    the paid amount is summed over the expenses linked to the account, paid,
    and dated (by month-key order) up to and including [m]. *)
Definition spec_actualBalance
    (account : BalanceAccount.t) (m : string) (expenses : list Expense.t) : Z :=
  Z.max 0
    (BalanceAccount.initial_balance account
     - sumWhere
         (λ e, bool_decide (Expense.balance_account_id e = Some (BalanceAccount.id account))
               && bool_decide (Expense.is_paid e = true)
               && spec_month_le (Expense.month e) m)
         Expense.amount expenses).

(** The inserts one copy attempt sends, in order: one per kind of row
    (income, tax, expense) the previous month has. *)
Definition plannedInserts (selectedMonth : string) (db : Store.t) : list (Store.t → Store.t) :=
  let previousMonth := getPreviousMonth selectedMonth in
  let prevIncomes := Store.select_incomes previousMonth true db in
  let prevTaxes := Store.select_taxes previousMonth true db in
  let prevExpenses := Store.select_expenses previousMonth true db in
  (if bool_decide (prevIncomes = []) then []
   else [Store.insert_incomes (map (copyIncome selectedMonth) prevIncomes)])
  ++ (if bool_decide (prevTaxes = []) then []
      else [Store.insert_taxes (map (copyTax selectedMonth) prevTaxes)])
  ++ (if bool_decide (prevExpenses = []) then []
      else [Store.insert_expenses (map (copyExpense selectedMonth) prevExpenses)]).

(** The store after the first [n] inserts of a plan. *)
Definition afterInserts (n : nat) (plan : list (Store.t → Store.t)) (db : Store.t) : Store.t :=
  foldl (λ db insert, insert db) db (take n plan).

(** What [fetchData] makes of the completion of the carry-forward it
    awaited. *)
Definition afterCarryForward (completion : Completion bool * World) : Completion () * World :=
  match completion with
  | (Returned _, w) => (Returned tt, setLoading false w)
  | (Thrown message, w) => (Returned tt, setLoading false (setError (Some message) w))
  end.


(** ** Scenarios *)

(** The scenario of the design document: member A (Nikkie) has a salary of
    20000.00, a tax of 3000.00 and one grocery expense of 1500.00 in
    2025-01. *)
Definition scenario_income : Income.t :=
  {| Income.id := 1%nat; Income.member := Nikkie; Income.income_type := Salary;
     Income.description := "Salary"; Income.amount := 2000000;
     Income.month := "2025-01"; Income.created_at := 1%nat |}.

Definition scenario_tax : Tax.t :=
  {| Tax.id := 2%nat; Tax.member := Nikkie; Tax.description := "PAYE";
     Tax.amount := 300000; Tax.month := "2025-01"; Tax.created_at := 2%nat |}.

Definition scenario_expense : Expense.t :=
  {| Expense.id := 3%nat; Expense.member := Nikkie; Expense.category := Groceries;
     Expense.description := "Groceries"; Expense.amount := 150000;
     Expense.month := "2025-01"; Expense.is_shared := false;
     Expense.is_recurring := false; Expense.is_paid := false;
     Expense.include_vat := false; Expense.note := None;
     Expense.balance_account_id := None; Expense.created_at := 3%nat |}.

(** A salary of the other member, used to vary the other member's rows. *)
Definition hein_income : Income.t :=
  {| Income.id := 4%nat; Income.member := Hein; Income.income_type := Salary;
     Income.description := "Salary"; Income.amount := 2500000;
     Income.month := "2025-01"; Income.created_at := 4%nat |}.

(** The account and the expense of the design document's balance scenario:
    initial balance 12000.00, monthly deduction 1000.00 from 2025-01, one
    paid expense of 500.00 against the account in 2025-02. *)
Definition scenario_account : BalanceAccount.t :=
  {| BalanceAccount.id := 7%nat; BalanceAccount.name := "Car Loan";
     BalanceAccount.description := ""; BalanceAccount.initial_balance := 1200000;
     BalanceAccount.current_balance := 1200000;
     BalanceAccount.monthly_deduction := 100000;
     BalanceAccount.start_month := "2025-01"; BalanceAccount.created_at := 0%nat |}.

Definition scenario_payment : Expense.t :=
  {| Expense.id := 8%nat; Expense.member := Hein; Expense.category := Transportation;
     Expense.description := "Car payment"; Expense.amount := 50000;
     Expense.month := "2025-02"; Expense.is_shared := false;
     Expense.is_recurring := false; Expense.is_paid := true;
     Expense.include_vat := false; Expense.note := None;
     Expense.balance_account_id := Some 7%nat; Expense.created_at := 5%nat |}.

(** An account whose initial balance is zero. *)
Definition zero_balance_account : BalanceAccount.t :=
  {| BalanceAccount.id := 9%nat; BalanceAccount.name := "Store card";
     BalanceAccount.description := ""; BalanceAccount.initial_balance := 0;
     BalanceAccount.current_balance := 0; BalanceAccount.monthly_deduction := 0;
     BalanceAccount.start_month := "2025-12"; BalanceAccount.created_at := 0%nat |}.

(** An account of 500.00 that the payment of the balance scenario
    settles. *)
Definition settled_account : BalanceAccount.t :=
  {| BalanceAccount.id := 7%nat; BalanceAccount.name := "Overdraft";
     BalanceAccount.description := ""; BalanceAccount.initial_balance := 50000;
     BalanceAccount.current_balance := 50000; BalanceAccount.monthly_deduction := 50000;
     BalanceAccount.start_month := "2025-02"; BalanceAccount.created_at := 0%nat |}.

(** A session in which every request succeeds. *)
Definition no_faults : nat → option string := λ _, None.

(** A recurring, shared and paid rent of January, linked to an account. *)
Definition rent : Expense.t :=
  {| Expense.id := 10%nat; Expense.member := Hein; Expense.category := Housing;
     Expense.description := "Rent"; Expense.amount := 850000;
     Expense.month := "2025-01"; Expense.is_shared := true;
     Expense.is_recurring := true; Expense.is_paid := true;
     Expense.include_vat := false; Expense.note := Some "due on the 1st";
     Expense.balance_account_id := Some 7%nat; Expense.created_at := 1%nat |}.

Definition january_store : Store.t :=
  {| Store.incomes := []; Store.taxes := []; Store.expenses := [rent];
     Store.unnecessary_expenses := []; Store.next_id := 11%nat; Store.clock := 2%nat |}.

Definition january_world : World :=
  {| store := january_store; calls := 0%nat; state := HookState.initial;
     carriedOverMonths := ∅ |}.

(** The row the manual carry-over of [rent] into 2025-02 leaves in the
    store. *)
Definition carried_rent : Expense.t :=
  {| Expense.id := 11%nat; Expense.member := Hein; Expense.category := Housing;
     Expense.description := "Rent"; Expense.amount := 850000;
     Expense.month := "2025-02"; Expense.is_shared := false;
     Expense.is_recurring := false; Expense.is_paid := false;
     Expense.include_vat := false; Expense.note := None;
     Expense.balance_account_id := None; Expense.created_at := 2%nat |}.

(** A household month with amounts that are not whole: Nikkie earns
    20000.00, pays 3000.00 tax and 1500.10 for groceries; Hein earns
    25000.00, pays 4500.20 tax and 8500.00 rent. *)
Definition groceries_with_cents : Expense.t :=
  {| Expense.id := 5%nat; Expense.member := Nikkie; Expense.category := Groceries;
     Expense.description := "Groceries"; Expense.amount := 150010;
     Expense.month := "2025-01"; Expense.is_shared := false;
     Expense.is_recurring := false; Expense.is_paid := false;
     Expense.include_vat := false; Expense.note := None;
     Expense.balance_account_id := None; Expense.created_at := 3%nat |}.

Definition hein_tax : Tax.t :=
  {| Tax.id := 6%nat; Tax.member := Hein; Tax.description := "PAYE";
     Tax.amount := 450020; Tax.month := "2025-01"; Tax.created_at := 4%nat |}.

(** A store holding January's income, tax and rent, a session that has
    carried nothing yet, and a run in which the ninth request (the insert of
    the tax copies) fails. *)
Definition january_ledgers : Store.t :=
  {| Store.incomes := [scenario_income]; Store.taxes := [scenario_tax];
     Store.expenses := [rent]; Store.unnecessary_expenses := [];
     Store.next_id := 11%nat; Store.clock := 6%nat |}.

Definition new_session : World :=
  {| store := january_ledgers; calls := 0%nat; state := HookState.initial;
     carriedOverMonths := ∅ |}.

Definition tax_insert_fails : nat → option string :=
  λ n, if (n =? 8)%nat then Some "connection lost" else None.

(** ** More of the program: current month and month options *)

(** [getCurrentMonth] of [useBudget.ts]; [now] stands for [new Date()], of
    which the function reads the year and the month. *)
Definition getCurrentMonth (now : Js.Date) : string :=
  Js.toString (Js.getFullYear now) +:+ "-" +:+ Js.padStart2 (Js.toString (Js.getMonth now + 1)).

(** [getCurrentBalanceMonth] of [useBalances.ts]. *)
Definition getCurrentBalanceMonth (now : Js.Date) : string :=
  Js.toString (Js.getFullYear now) +:+ "-" +:+ Js.padStart2 (Js.toString (Js.getMonth now + 1)).

(** A string of decimal digits only. *)
Fixpoint digits_only (s : string) : bool :=
  match s with
  | EmptyString => true
  | String c s' => bool_decide (is_Some (Js.digit_of_ascii c)) && digits_only s'
  end.

(** The month [i] months after the month of [date]. *)
Definition addMonths (date : Js.Date) (i : Z) : Js.Date :=
  Js.makeDate (Js.getFullYear date) (Js.getMonth date + i).

(** A date whose month index is in [0..11], as every [Date] is. *)
Definition normalDate (date : Js.Date) : Prop := 0 <= Js.getMonth date <= 11.

Module MonthOption.
Record t := { value : string; label : string }.
End MonthOption.

(** The long English month names of [toLocaleDateString('en-US', ...)]. *)
Definition monthLongName (monthIndex : Z) : string :=
  match monthIndex with
  | 0 => "January" | 1 => "February" | 2 => "March" | 3 => "April"
  | 4 => "May" | 5 => "June" | 6 => "July" | 7 => "August"
  | 8 => "September" | 9 => "October" | 10 => "November" | 11 => "December"
  | _ => ""
  end.

(** [date.toLocaleDateString('en-US', { month: 'long', year: 'numeric' })]. *)
Definition toLocaleMonthYear (date : Js.Date) : string :=
  monthLongName (Js.getMonth date) +:+ " " +:+ Js.toString (Js.getFullYear date).

(** [a <= b] on two dates compares their time values; for first days of
    months that is the order of (year, month). *)
Definition dateLe (a b : Js.Date) : bool :=
  Spec.leb (Js.getFullYear a, Js.getMonth a) (Js.getFullYear b, Js.getMonth b).

(** The loop shared by [getBalanceMonthOptions] ([useBalances.ts]) and
    [getMonthOptions] ([MonthSelector.tsx]):
    [while (current <= endDate) { options.push({ value, label });
    current.setMonth(current.getMonth() + 1); }], run for at most [fuel]
    rounds. *)
Fixpoint monthOptionsLoop (fuel : nat) (current endDate : Js.Date) : list MonthOption.t :=
  match fuel with
  | O => []
  | S fuel' =>
      if dateLe current endDate then
        {| MonthOption.value := formatMonthKey current;
           MonthOption.label := toLocaleMonthYear current |}
        :: monthOptionsLoop fuel' (Js.setMonth current (Js.getMonth current + 1)) endDate
      else []
  end.

(** The number of rounds after which the loop has stopped. *)
Definition monthOptionsRounds (startDate endDate : Js.Date) : nat :=
  Z.to_nat ((Js.getFullYear endDate - Js.getFullYear startDate) * 12
            + (Js.getMonth endDate - Js.getMonth startDate) + 2).

Definition monthOptionsBetween (startDate endDate : Js.Date) : list MonthOption.t :=
  monthOptionsLoop (monthOptionsRounds startDate endDate) startDate endDate.

(** Generate list of months from December 2025 through December 2026. *)
Definition getBalanceMonthOptions : list MonthOption.t :=
  monthOptionsBetween (Js.newDate 2025 11) (Js.newDate 2026 11).

(** Generate list of months from October 2025 through December 2026. *)
Definition getMonthOptions : list MonthOption.t :=
  monthOptionsBetween (Js.newDate 2025 9) (Js.newDate 2026 11).

(** Format month string to display format ([useBudget.ts]); a key that
    does not read as two numbers gives an invalid date. *)
Definition formatMonth (month : string) : string :=
  match Js.split "-" month with
  | year :: monthNum :: _ =>
      match Js.parseInt year, Js.parseInt monthNum with
      | Some y, Some m => toLocaleMonthYear (Js.newDate y (m - 1))
      | _, _ => "Invalid Date"
      end
  | _ => "Invalid Date"
  end.

(** The option the loop pushes for a date, and the number of months from a
    start date to an end date. *)
Definition monthOptionAt (date : Js.Date) : MonthOption.t :=
  {| MonthOption.value := formatMonthKey date; MonthOption.label := toLocaleMonthYear date |}.

Definition monthSpan (startDate endDate : Js.Date) : Z :=
  (Js.getFullYear endDate - Js.getFullYear startDate) * 12
  + (Js.getMonth endDate - Js.getMonth startDate).

(** ** More of the balance tracker and the financial overview *)

Section BalanceTrackerTotals.

(** The component's [paidExpenses] prop. *)
Variable paidExpenses : list Expense.t.

(** Calculate total paid for an account from expenses
    ([BalanceTracker.tsx]). *)
Definition getTotalPaidForAccount (accountId : Uuid) : Z :=
  sumAmounts Expense.amount
    (List.filter
       (λ e, strictEqualsId (Expense.balance_account_id e) accountId && Expense.is_paid e)
       paidExpenses).

End BalanceTrackerTotals.

Module SummaryOverview.

Section Component.

(** The props [accounts] and [paidExpenses], and the value of
    [getCurrentBalanceMonth()] at render time. *)
Variable accounts : list BalanceAccount.t.
Variable paidExpenses : list Expense.t.
Variable currentBalanceMonth : string.

(** Calculate actual balance based on paid expenses up to a specific
    month. *)
Definition getActualBalanceForMonth (account : BalanceAccount.t) (month : string) : Z :=
  let totalPaid :=
    sumAmounts Expense.amount
      (List.filter
         (λ e, strictEqualsId (Expense.balance_account_id e) (BalanceAccount.id account)
               && Expense.is_paid e
               && Js.string_le (Expense.month e) month)
         paidExpenses) in
  Js.max 0 (BalanceAccount.initial_balance account - totalPaid).

Definition totalInitialBalance : Z :=
  foldl (λ sum acc, sum + BalanceAccount.initial_balance acc) 0 accounts.

Definition totalCurrentBalance : Z :=
  foldl (λ sum acc, sum + getActualBalanceForMonth acc currentBalanceMonth) 0 accounts.

Definition totalPaidOff : Z := totalInitialBalance - totalCurrentBalance.

(** [totalInitialBalance > 0 ? ((totalPaidOff / totalInitialBalance) * 100) : 0]. *)
Definition overallProgress : JsNumber.t :=
  if totalInitialBalance >? 0
  then JsNumber.times (JsNumber.divide totalPaidOff totalInitialBalance) 100
  else JsNumber.Finite (Qc_of_Z 0).

(** The "Accounts Paid Off" quick stat, on exact amounts.  (In the program's
    doubles an account whose payments add up to its balance can keep a
    positive rounding residue and is then not counted.) *)
Definition accountsPaidOff : nat :=
  length (List.filter (λ a, getActualBalanceForMonth a currentBalanceMonth <=? 0) accounts).

End Component.

End SummaryOverview.

(** ** Expenses by category ([src/hooks/useBudget.ts]) *)

(** A JavaScript object used as a record from category to number: the
    keys in insertion order, each once. *)
Module CategoryRecord.

Definition t := list (ExpenseCategory * Z).

(** [{}]. *)
Definition empty : t := [].

(** [o[k]]: the value, or [undefined] ([None]) for a missing key. *)
Fixpoint get (k : ExpenseCategory) (o : t) : option Z :=
  match o with
  | [] => None
  | (k', v) :: o' => if bool_decide (k' = k) then Some v else get k o'
  end.

(** [o[k] = v]: an existing key keeps its place, a new key goes last. *)
Fixpoint set (k : ExpenseCategory) (v : Z) (o : t) : t :=
  match o with
  | [] => [(k, v)]
  | (k', v') :: o' =>
      if bool_decide (k' = k) then (k', v) :: o' else (k', v') :: set k v o'
  end.

(** [Object.keys(o)] and [Object.values(o)]. *)
Definition keys (o : t) : list ExpenseCategory := map fst o.
Definition values (o : t) : list Z := map snd o.

End CategoryRecord.

(** [v || 0] for a number or [undefined]. *)
Definition orZero (v : option Z) : Z :=
  match v with
  | Some x => if x =? 0 then 0 else x
  | None => 0
  end.

(** Get expense summary by category; [expenses] is the hook's state and
    [member] the optional argument. *)
Definition getExpensesByCategory (expenses : list Expense.t) (member : option FamilyMember)
  : CategoryRecord.t :=
  let filtered :=
    match member with
    | Some m => List.filter (λ e, bool_decide (Expense.member e = m)) expenses
    | None => expenses
    end in
  foldl
    (λ byCategory expense,
       CategoryRecord.set (Expense.category expense)
         (orZero (CategoryRecord.get (Expense.category expense) byCategory)
          + Expense.amount expense)
         byCategory)
    CategoryRecord.empty filtered.

(** The rows [getExpensesByCategory] reads for a member argument. *)
Definition expensesOf (member : option FamilyMember) (expenses : list Expense.t)
  : list Expense.t :=
  match member with
  | Some m => List.filter (λ e, bool_decide (Expense.member e = m)) expenses
  | None => expenses
  end.

(** The categories of a list of expenses in order of first occurrence. *)
Fixpoint firstOccurrences (seen : list ExpenseCategory) (rows : list Expense.t)
  : list ExpenseCategory :=
  match rows with
  | [] => []
  | e :: rows' =>
      if bool_decide (Expense.category e ∈ seen) then firstOccurrences seen rows'
      else Expense.category e :: firstOccurrences (Expense.category e :: seen) rows'
  end.

(** The record after the loop of [getExpensesByCategory], from any record
    to start with. *)
Definition byCategoryLoop (start : CategoryRecord.t) (rows : list Expense.t)
  : CategoryRecord.t :=
  foldl
    (λ byCategory expense,
       CategoryRecord.set (Expense.category expense)
         (orZero (CategoryRecord.get (Expense.category expense) byCategory)
          + Expense.amount expense)
         byCategory)
    start rows.

(** ** More operations of the [useBudget] hook *)

(** Form data for creating or editing an income. *)
Module IncomeFormData.
Record t := {
  member : FamilyMember;
  income_type : IncomeType;
  description : string;
  amount : Z;
}.
End IncomeFormData.

(** Statements on the store that create no row; they use neither the
    source of identities nor the clock. *)
Module StoreWrite.

(** [.delete().eq('id', id)]. *)
Definition delete_expense (id : Uuid) (db : Store.t) : Store.t :=
  {| Store.incomes := Store.incomes db;
     Store.taxes := Store.taxes db;
     Store.expenses :=
       List.filter (λ r, negb (bool_decide (Expense.id r = id))) (Store.expenses db);
     Store.unnecessary_expenses := Store.unnecessary_expenses db;
     Store.next_id := Store.next_id db;
     Store.clock := Store.clock db |}.

End StoreWrite.

Section UseBudgetOperations.

Variable faults : nat → option string.
Variable selectedMonth : string.

(** [{ ...data, month: selectedMonth }]. *)
Definition incomeOfForm (data : IncomeFormData.t) : IncomeInsert.t :=
  {| IncomeInsert.member := IncomeFormData.member data;
     IncomeInsert.income_type := IncomeFormData.income_type data;
     IncomeInsert.description := IncomeFormData.description data;
     IncomeInsert.amount := IncomeFormData.amount data;
     IncomeInsert.month := selectedMonth |}.

(** Add income. *)
Definition addIncome (data : IncomeFormData.t) : M bool :=
  tryCatch
    (result ← insertIncomes faults [incomeOfForm data];
     throwIfError result;;
     fetchData faults selectedMonth;;
     mret true)
    (λ _, mret false).

(** Delete expense. *)
Definition deleteExpense (id : Uuid) : M bool :=
  tryCatch
    (result ← request faults (λ db, (tt, StoreWrite.delete_expense id db));
     throwIfError result;;
     fetchData faults selectedMonth;;
     mret true)
    (λ _, mret false).

(** Fetch expenses, incomes and taxes from the previous month. *)
Definition fetchPreviousMonthExpenses : M (list Expense.t) :=
  tryCatch
    (let previousMonth := getPreviousMonth selectedMonth in
     result ← selectExpenses faults previousMonth true;
     throwIfError result;;
     mret (dataOrEmpty result))
    (λ _, mret []).

Definition fetchPreviousMonthIncomes : M (list Income.t) :=
  tryCatch
    (let previousMonth := getPreviousMonth selectedMonth in
     result ← selectIncomes faults previousMonth true;
     throwIfError result;;
     mret (dataOrEmpty result))
    (λ _, mret []).

Definition fetchPreviousMonthTaxes : M (list Tax.t) :=
  tryCatch
    (let previousMonth := getPreviousMonth selectedMonth in
     result ← selectTaxes faults previousMonth true;
     throwIfError result;;
     mret (dataOrEmpty result))
    (λ _, mret []).

(** Carry over incomes from previous month. *)
Definition carryOverIncomes (incomesToCarry : list Income.t) : M bool :=
  tryCatch
    (let newIncomes :=
       map (λ income,
              {| IncomeInsert.member := Income.member income;
                 IncomeInsert.income_type := Income.income_type income;
                 IncomeInsert.description := Income.description income;
                 IncomeInsert.amount := Income.amount income;
                 IncomeInsert.month := selectedMonth |})
         incomesToCarry in
     result ← insertIncomes faults newIncomes;
     throwIfError result;;
     fetchDataWithoutAutoCarry faults selectedMonth;;
     mret true)
    (λ _, mret false).

(** Carry over taxes from previous month. *)
Definition carryOverTaxes (taxesToCarry : list Tax.t) : M bool :=
  tryCatch
    (let newTaxes :=
       map (λ tax,
              {| TaxInsert.member := Tax.member tax;
                 TaxInsert.description := Tax.description tax;
                 TaxInsert.amount := Tax.amount tax;
                 TaxInsert.month := selectedMonth |})
         taxesToCarry in
     result ← insertTaxes faults newTaxes;
     throwIfError result;;
     fetchDataWithoutAutoCarry faults selectedMonth;;
     mret true)
    (λ _, mret false).

End UseBudgetOperations.

(** One more request counted. *)
Definition afterRequest (w : World) : World :=
  {| store := store w; calls := S (calls w); state := state w;
     carriedOverMonths := carriedOverMonths w |}.

(** A copy of an income, tax or expense row for a month: every column but
    [id], [month] and [created_at] is that of the original. *)
Definition incomeCopyOf (month : string) (original copy : Income.t) : Prop :=
  copy = {| Income.id := Income.id copy;
            Income.member := Income.member original;
            Income.income_type := Income.income_type original;
            Income.description := Income.description original;
            Income.amount := Income.amount original;
            Income.month := month;
            Income.created_at := Income.created_at copy |}.

Definition taxCopyOf (month : string) (original copy : Tax.t) : Prop :=
  copy = {| Tax.id := Tax.id copy;
            Tax.member := Tax.member original;
            Tax.description := Tax.description original;
            Tax.amount := Tax.amount original;
            Tax.month := month;
            Tax.created_at := Tax.created_at copy |}.

Definition expenseCopyOf (month : string) (original copy : Expense.t) : Prop :=
  copy = {| Expense.id := Expense.id copy;
            Expense.member := Expense.member original;
            Expense.category := Expense.category original;
            Expense.description := Expense.description original;
            Expense.amount := Expense.amount original;
            Expense.month := month;
            Expense.is_shared := Expense.is_shared original;
            Expense.is_recurring := Expense.is_recurring original;
            Expense.is_paid := Expense.is_paid original;
            Expense.include_vat := Expense.include_vat original;
            Expense.note := Expense.note original;
            Expense.balance_account_id := Expense.balance_account_id original;
            Expense.created_at := Expense.created_at copy |}.

(** * Part II: properties *)

(** ** Month arithmetic on sample keys *)

Example getPreviousMonth_march : getPreviousMonth "2025-03" = "2025-02".
Proof. reflexivity. Qed.

Example getPreviousMonth_january : getPreviousMonth "2026-01" = "2025-12".
Proof. reflexivity. Qed.

Example getPreviousMonth_year_1000 : getPreviousMonth "1000-01" = "999-12".
Proof. reflexivity. Qed.

Example calculateCurrentBalance_scenario :
  calculateCurrentBalance 1200000 100000 "2025-01" "2025-03" = Some 900000.
Proof. reflexivity. Qed.

(** [new Date] reads the year 0099 as 1999, so a schedule that starts in
    0099-12 has not started in 0100-01. *)
Example calculateCurrentBalance_two_digit_year :
  calculateCurrentBalance 1200000 100000 "0099-12" "0100-01" = Some 1200000.
Proof. reflexivity. Qed.

(** ** Digits and month-key strings *)

(** Linear arithmetic with division and remainder by constants. *)
Ltac div_lia := Z.to_euclidean_division_equations; lia.

Lemma digit_of_ascii_Some c d :
  Js.digit_of_ascii c = Some d → 0 <= d <= 9 ∧ Js.code c = d + 48.
Proof.
  unfold Js.digit_of_ascii.
  destruct (48 <=? Js.code c) eqn:Hlo; destruct (Js.code c <=? 57) eqn:Hhi;
    simpl; intros [= <-]; lia.
Qed.

Lemma digit_is_not_dash c d :
  Js.digit_of_ascii c = Some d → Ascii.eqb c "-" = false.
Proof.
  intros Hd. apply digit_of_ascii_Some in Hd as [Hrange Hc].
  destruct (Ascii.eqb_spec c "-") as [->|]; [|reflexivity].
  change (Js.code "-") with 45 in Hc. lia.
Qed.

Lemma digit_of_ascii_of_digit d :
  0 <= d <= 9 → Js.digit_of_ascii (Js.ascii_of_digit d) = Some d.
Proof.
  intros Hd.
  assert (d = 0 ∨ d = 1 ∨ d = 2 ∨ d = 3 ∨ d = 4 ∨ d = 5 ∨ d = 6 ∨ d = 7
          ∨ d = 8 ∨ d = 9) as Hcases by lia.
  repeat destruct Hcases as [->|Hcases]; try subst d; reflexivity.
Qed.

Lemma digits_of_small fuel n acc :
  0 <= n < 10 → Js.digits_of fuel n acc = String (Js.ascii_of_digit n) acc.
Proof.
  intros Hn. rewrite <- (Z.mod_small n 10) at 2 by lia.
  destruct fuel; cbn [Js.digits_of]; [reflexivity|].
  rewrite (Z.div_small n 10) by lia. reflexivity.
Qed.

Lemma digits_of_step fuel n acc :
  10 <= n →
  Js.digits_of (S fuel) n acc
  = Js.digits_of fuel (n / 10) (String (Js.ascii_of_digit (n mod 10)) acc).
Proof.
  intros Hn. cbn [Js.digits_of].
  destruct (Z.eqb_spec (n / 10) 0) as [Hz|]; [|reflexivity].
  exfalso. div_lia.
Qed.

(** Reading back the digits [digits_of] prints. *)
Lemma digits_value_digits_of (fuel : nat) :
  ∀ n acc a, 0 <= n < 10 ^ (Z.of_nat fuel + 1) →
    ∃ k, 0 < k ∧ Js.digits_value a (Js.digits_of fuel n acc)
                 = Js.digits_value (a * 10 ^ k + n) acc.
Proof.
  induction fuel as [|fuel IH]; intros n acc a Hn.
  - exists 1. split; [lia|]. cbn [Js.digits_of Js.digits_value].
    change (10 ^ (Z.of_nat 0 + 1)) with 10 in Hn.
    rewrite Z.mod_small by lia. rewrite digit_of_ascii_of_digit by lia.
    f_equal. lia.
  - cbn [Js.digits_of]. destruct (Z.eqb_spec (n / 10) 0) as [Hsmall|Hbig].
    + exists 1. split; [lia|]. cbn [Js.digits_value].
      assert (0 <= n < 10) by div_lia.
      rewrite Z.mod_small by lia. rewrite digit_of_ascii_of_digit by lia.
      f_equal. lia.
    + destruct (IH (n / 10) (String (Js.ascii_of_digit (n mod 10)) acc) a) as (k & Hk & Heq).
      { replace (Z.of_nat (S fuel) + 1) with (Z.succ (Z.of_nat fuel + 1)) in Hn by lia.
        rewrite Z.pow_succ_r in Hn by lia. div_lia. }
      exists (k + 1). split; [lia|]. rewrite Heq. cbn [Js.digits_value].
      rewrite digit_of_ascii_of_digit by div_lia.
      f_equal. rewrite Z.pow_add_r by lia. change (10 ^ 1) with 10. div_lia.
Qed.

Lemma enough_fuel n : 0 <= n → n < 10 ^ (Z.of_nat (Z.to_nat (Z.log2 n)) + 1).
Proof.
  intros Hn. rewrite Z2Nat.id by apply Z.log2_nonneg.
  destruct (Z.eq_dec n 0) as [->|Hpos]; [reflexivity|].
  pose proof (Z.log2_spec n ltac:(lia)) as [_ Hlt].
  pose proof (Z.log2_nonneg n).
  eapply Z.lt_le_trans; [exact Hlt|].
  replace (Z.succ (Z.log2 n)) with (Z.log2 n + 1) by lia.
  apply Z.pow_le_mono_l. lia.
Qed.

Lemma digits_of_nonempty (fuel : nat) :
  ∀ n acc, Js.digits_of fuel n acc ≠ EmptyString.
Proof.
  induction fuel as [|fuel IH]; intros n acc; cbn [Js.digits_of]; [discriminate|].
  destruct (n / 10 =? 0); [discriminate|apply IH].
Qed.

(** [Number(String(n))] is [n] for a non-negative integer [n]. *)
Lemma Number_toString n : 0 <= n → Js.Number (Js.toString n) = Some n.
Proof.
  intros Hn. unfold Js.toString. destruct (Z.ltb_spec n 0); [lia|].
  destruct (digits_value_digits_of (Z.to_nat (Z.log2 n)) n EmptyString 0) as (k & _ & Heq).
  { split; [lia|apply enough_fuel; lia]. }
  unfold Js.Number.
  destruct (Js.digits_of (Z.to_nat (Z.log2 n)) n "") eqn:Hd.
  - exfalso. exact (digits_of_nonempty _ _ _ Hd).
  - rewrite Heq. reflexivity.
Qed.

Lemma toString_year y : 1000 <= y <= 9999 → Js.toString y = year_digits y.
Proof.
  intros Hy. unfold Js.toString.
  destruct (Z.ltb_spec y 0) as [|_]; [lia|].
  assert (9 <= Z.log2 y) as Hlog.
  { change 9 with (Z.log2 512). apply Z.log2_le_mono. lia. }
  destruct (Z.to_nat (Z.log2 y)) as [|[|[|fuel]]] eqn:Hfuel; try lia.
  assert (y / 10 / 10 = y / 100) as H100 by div_lia.
  assert (y / 100 / 10 = y / 1000) as H1000 by div_lia.
  rewrite digits_of_step by lia.
  rewrite digits_of_step by div_lia.
  rewrite H100, digits_of_step by div_lia.
  rewrite H1000, digits_of_small by div_lia.
  reflexivity.
Qed.

Lemma padded_month m : 1 <= m <= 12 → Js.padStart2 (Js.toString m) = month_digits m.
Proof.
  intros Hm.
  assert (m = 1 ∨ m = 2 ∨ m = 3 ∨ m = 4 ∨ m = 5 ∨ m = 6 ∨ m = 7 ∨ m = 8
          ∨ m = 9 ∨ m = 10 ∨ m = 11 ∨ m = 12) as Hcases by lia.
  repeat destruct Hcases as [->|Hcases]; try subst m; reflexivity.
Qed.

Lemma parse_month_key y m :
  0 <= y <= 9999 → 1 <= m <= 12 → Spec.parse (month_key y m) = Some (y, m).
Proof.
  intros Hy Hm. unfold month_key, year_digits, month_digits.
  cbv [String.append]. unfold Spec.parse.
  rewrite !digit_of_ascii_of_digit by div_lia.
  cbn [Ascii.eqb Bool.eqb andb].
  replace (10 * (m / 10) + m mod 10) with m by div_lia.
  destruct (Z.leb_spec 1 m); [|lia]. destruct (Z.leb_spec m 12); [|lia].
  cbn [andb]. f_equal. f_equal. div_lia.
Qed.

(** What a successful [Spec.parse] says about the characters of a key. *)
Lemma parse_inv k y m :
  Spec.parse k = Some (y, m) →
  ∃ c1 c2 c3 c4 c5 c6 a b c d e f,
    k = String c1 (String c2 (String c3 (String c4 (String "-"
          (String c5 (String c6 EmptyString))))))
    ∧ Js.digit_of_ascii c1 = Some a ∧ Js.digit_of_ascii c2 = Some b
    ∧ Js.digit_of_ascii c3 = Some c ∧ Js.digit_of_ascii c4 = Some d
    ∧ Js.digit_of_ascii c5 = Some e ∧ Js.digit_of_ascii c6 = Some f
    ∧ y = 1000 * a + 100 * b + 10 * c + d ∧ m = 10 * e + f
    ∧ 1 <= m <= 12.
Proof.
  unfold Spec.parse.
  destruct k as [|c1 [|c2 [|c3 [|c4 [|dash [|c5 [|c6 [|? ?]]]]]]]]; try discriminate.
  destruct (Js.digit_of_ascii c1) as [a|] eqn:H1; [|discriminate].
  destruct (Js.digit_of_ascii c2) as [b|] eqn:H2; [|discriminate].
  destruct (Js.digit_of_ascii c3) as [c|] eqn:H3; [|discriminate].
  destruct (Js.digit_of_ascii c4) as [d|] eqn:H4; [|discriminate].
  destruct (Js.digit_of_ascii c5) as [e|] eqn:H5; [|discriminate].
  destruct (Js.digit_of_ascii c6) as [f|] eqn:H6; [|discriminate].
  destruct (Ascii.eqb_spec dash "-") as [->|]; [|discriminate].
  destruct (Z.leb_spec 1 (10 * e + f)); [|discriminate].
  destruct (Z.leb_spec (10 * e + f) 12); [|discriminate].
  cbn [andb]. intros [= <- <-].
  exists c1, c2, c3, c4, c5, c6, a, b, c, d, e, f. repeat split; auto; lia.
Qed.

(** The ranges of a parsed year and month. *)
Lemma parse_range k y m : Spec.parse k = Some (y, m) → 0 <= y <= 9999 ∧ 1 <= m <= 12.
Proof.
  intros (c1&c2&c3&c4&c5&c6&a&b&c&d&e&f&_&H1&H2&H3&H4&H5&H6&->&->&Hm)%parse_inv.
  apply digit_of_ascii_Some in H1, H2, H3, H4. lia.
Qed.

(** The program's own reading of a parsed key: split at the dash, then
    [parseInt] or [Number] on both parts. *)
Lemma split_parsed_key k y m :
  Spec.parse k = Some (y, m) →
  ∃ ys ms, Js.split "-" k = [ys; ms]
    ∧ Js.parseInt ys = Some y ∧ Js.parseInt ms = Some m
    ∧ Js.Number ys = Some y ∧ Js.Number ms = Some m.
Proof.
  intros (c1&c2&c3&c4&c5&c6&a&b&c&d&e&f&->&H1&H2&H3&H4&H5&H6&->&->&Hm)%parse_inv.
  exists (String c1 (String c2 (String c3 (String c4 EmptyString)))),
         (String c5 (String c6 EmptyString)).
  cbn [Js.split].
  rewrite (digit_is_not_dash _ _ H1), (digit_is_not_dash _ _ H2),
    (digit_is_not_dash _ _ H3), (digit_is_not_dash _ _ H4),
    (digit_is_not_dash _ _ H5), (digit_is_not_dash _ _ H6).
  cbn [Ascii.eqb Bool.eqb].
  unfold Js.parseInt, Js.Number. cbn [Js.parseInt_from Js.digits_value].
  rewrite H1, H2, H3, H4, H5, H6. cbn [default]. unfold id.
  repeat split; try reflexivity; f_equal; lia.
Qed.

(** On parsed keys the JavaScript string order is the (year, month) order. *)
Lemma string_le_parsed k1 k2 p1 p2 :
  Spec.parse k1 = Some p1 → Spec.parse k2 = Some p2 →
  Js.string_le k1 k2 = Spec.leb p1 p2.
Proof.
  destruct p1 as [y1 m1], p2 as [y2 m2].
  intros (c1&c2&c3&c4&c5&c6&a&b&c&d&e&f&->&H1&H2&H3&H4&H5&H6&->&->&Hm)%parse_inv.
  intros (c1'&c2'&c3'&c4'&c5'&c6'&a'&b'&c'&d'&e'&f'&->&H1'&H2'&H3'&H4'&H5'&H6'&->&->&Hm')%parse_inv.
  apply digit_of_ascii_Some in H1 as [? E1], H2 as [? E2], H3 as [? E3],
    H4 as [? E4], H5 as [? E5], H6 as [? E6].
  apply digit_of_ascii_Some in H1' as [? E1'], H2' as [? E2'], H3' as [? E3'],
    H4' as [? E4'], H5' as [? E5'], H6' as [? E6'].
  unfold Js.string_le, Spec.leb. cbn [Js.string_lt fst snd].
  rewrite E1, E2, E3, E4, E5, E6, E1', E2', E3', E4', E5', E6'.
  change (Js.code "-" <? Js.code "-") with false. cbv iota.
  repeat match goal with
         | |- context [?x <? ?y] => destruct (Z.ltb_spec x y)
         | |- context [?x =? ?y] => destruct (Z.eqb_spec x y)
         | |- context [?x <=? ?y] => destruct (Z.leb_spec x y)
         end; cbn; try reflexivity; lia.
Qed.

(** ** The program's month arithmetic on parsed keys *)

Lemma newDate_month y m :
  100 <= y → 1 <= m <= 12 →
  Js.newDate y (m - 1) = {| Js.getFullYear := y; Js.getMonth := m - 1 |}.
Proof.
  intros Hy Hm. unfold Js.newDate, Js.makeDate.
  destruct (Z.leb_spec y 99); [lia|]. rewrite andb_false_r.
  f_equal; div_lia.
Qed.

Lemma monthDate_parsed k y m :
  Spec.parse k = Some (y, m) → 100 <= y →
  monthDate k = Some {| Js.getFullYear := y; Js.getMonth := m - 1 |}.
Proof.
  intros Hk Hy. pose proof (parse_range _ _ _ Hk) as [_ Hm].
  destruct (split_parsed_key _ _ _ Hk) as (ys & ms & Hsplit & _ & _ & Hys & Hms).
  unfold monthDate. rewrite Hsplit. cbn [map]. rewrite Hys, Hms.
  f_equal. apply newDate_month; assumption.
Qed.

Lemma monthsElapsed_parsed a b pa pb :
  Spec.parse a = Some pa → Spec.parse b = Some pb →
  100 <= fst pa → 100 <= fst pb →
  monthsElapsed a b = Some (Spec.monthsElapsed pa pb).
Proof.
  destruct pa as [ya ma], pb as [yb mb]. cbn [fst]. intros Ha Hb Hya Hyb.
  unfold monthsElapsed.
  rewrite (monthDate_parsed _ _ _ Ha Hya), (monthDate_parsed _ _ _ Hb Hyb).
  unfold Spec.monthsElapsed. cbn. f_equal. lia.
Qed.

Lemma formatMonthKey_canonical y m :
  1000 <= y <= 9999 → 1 <= m <= 12 →
  formatMonthKey {| Js.getFullYear := y; Js.getMonth := m - 1 |} = month_key y m.
Proof.
  intros Hy Hm. unfold formatMonthKey, month_key. cbn [Js.getFullYear Js.getMonth].
  replace (m - 1 + 1) with m by lia.
  rewrite toString_year, padded_month by assumption. reflexivity.
Qed.

Lemma getPreviousMonth_parsed k y m :
  Spec.parse k = Some (y, m) → 100 <= y →
  getPreviousMonth k
  = formatMonthKey {| Js.getFullYear := fst (Spec.predecessor (y, m));
                      Js.getMonth := snd (Spec.predecessor (y, m)) - 1 |}.
Proof.
  intros Hk Hy. pose proof (parse_range _ _ _ Hk) as [_ Hm].
  destruct (split_parsed_key _ _ _ Hk) as (ys & ms & Hsplit & Hys & Hms & _).
  unfold getPreviousMonth. rewrite Hsplit, Hys, Hms.
  rewrite newDate_month by assumption.
  unfold Js.setMonth, Js.makeDate, Spec.predecessor. cbn [Js.getFullYear Js.getMonth fst snd].
  destruct (Z.eqb_spec m 1) as [->|Hne]; cbn [fst snd].
  - reflexivity.
  - do 2 f_equal; div_lia.
Qed.

(** Where [getPreviousMonth] does what its comment says.  For a month key
    [k] that parses as (y, m) and is later than 1000-01: [getPreviousMonth k]
    is again a key in the zero-padded YYYY-MM format, it parses as the month
    before ((y - 1, 12) when m is January, (y, m - 1) otherwise), and the
    program's month difference from it to [k] is 1.  The month difference
    from [k] to a key of the year 100 or later is
    (to.year - from.year) * 12 + (to.month - from.month), and it is negative
    exactly when [to] precedes [from]. *)
Theorem getPreviousMonth_is_predecessor k y m :
  Spec.parse k = Some (y, m) →
  Spec.ltb last_unpadded_key (y, m) = true →
  Spec.parse (getPreviousMonth k) = Some (if m =? 1 then (y - 1, 12) else (y, m - 1))
  ∧ monthsElapsed (getPreviousMonth k) k = Some 1
  ∧ (∀ b yb mb, Spec.parse b = Some (yb, mb) → 100 <= yb →
       monthsElapsed k b = Some ((yb - y) * 12 + (mb - m))
       ∧ ((yb - y) * 12 + (mb - m) < 0 ↔ Spec.ltb (yb, mb) (y, m) = true)).
Proof.
  intros Hk Hmin. pose proof (parse_range _ _ _ Hk) as [Hy Hm].
  assert (1000 < y ∨ (y = 1000 ∧ 1 < m)) as Habove.
  { unfold Spec.ltb, last_unpadded_key in Hmin. cbn [fst snd] in Hmin.
    apply orb_true_iff in Hmin as [H|H]; [left; lia|].
    apply andb_true_iff in H as [H1 H2]. right. lia. }
  assert (100 <= y) as Hy100 by lia.
  assert (Spec.predecessor (y, m) = (if m =? 1 then (y - 1, 12) else (y, m - 1))) as Hpred
    by reflexivity.
  assert (1000 <= fst (Spec.predecessor (y, m)) <= 9999
          ∧ 1 <= snd (Spec.predecessor (y, m)) <= 12) as [Hpy Hpm].
  { rewrite Hpred. destruct (Z.eqb_spec m 1); cbn [fst snd]; lia. }
  assert (Spec.parse (getPreviousMonth k) = Some (Spec.predecessor (y, m))) as Hparse.
  { rewrite (getPreviousMonth_parsed _ _ _ Hk Hy100).
    rewrite formatMonthKey_canonical by assumption.
    rewrite parse_month_key by lia. destruct (Spec.predecessor (y, m)); reflexivity. }
  split; [|split].
  - rewrite Hparse, Hpred. reflexivity.
  - rewrite (monthsElapsed_parsed _ _ _ _ Hparse Hk) by (cbn [fst]; lia).
    rewrite Hpred. unfold Spec.monthsElapsed.
    destruct (Z.eqb_spec m 1); cbn [fst snd]; f_equal; lia.
  - intros b yb mb Hb Hyb. split.
    + rewrite (monthsElapsed_parsed _ _ _ _ Hk Hb) by (cbn [fst]; lia). reflexivity.
    + pose proof (parse_range _ _ _ Hb) as [_ Hmb].
      unfold Spec.ltb. cbn [fst snd].
      rewrite orb_true_iff, andb_true_iff, Z.ltb_lt, Z.eqb_eq, Z.ltb_lt. lia.
Qed.

Lemma getPreviousMonth_is_predecessor_witness :
  Spec.parse (getPreviousMonth "2026-01") = Some (2025, 12)
  ∧ monthsElapsed (getPreviousMonth "2026-01") "2026-01" = Some 1
  ∧ (∀ b yb mb, Spec.parse b = Some (yb, mb) → 100 <= yb →
       monthsElapsed "2026-01" b = Some ((yb - 2026) * 12 + (mb - 1))
       ∧ ((yb - 2026) * 12 + (mb - 1) < 0 ↔ Spec.ltb (yb, mb) (2026, 1) = true)).
Proof.
  apply (getPreviousMonth_is_predecessor "2026-01" 2026 1); reflexivity.
Defined.


(** The carry-forward asks the store for the rows of [getPreviousMonth] of
    the selected month.  For 1000-01 that key is 999-12, under which no row
    is stored: a rent of 0999-12 is not found. *)
Example previous_month_of_1000_01_not_found :
  let december_999 :=
    {| Expense.id := 1%nat; Expense.member := Hein; Expense.category := Housing;
       Expense.description := "Rent"; Expense.amount := 850000;
       Expense.month := "0999-12"; Expense.is_shared := false;
       Expense.is_recurring := true; Expense.is_paid := false;
       Expense.include_vat := false; Expense.note := None;
       Expense.balance_account_id := None; Expense.created_at := 1%nat |} in
  let db :=
    {| Store.incomes := []; Store.taxes := []; Store.expenses := [december_999];
       Store.unnecessary_expenses := []; Store.next_id := 2%nat; Store.clock := 2%nat |} in
  Store.select_expenses "0999-12" true db = [december_999]
  ∧ Store.select_expenses (getPreviousMonth "1000-01") true db = [].
Proof. split; reflexivity. Qed.

(** Where the schedule is the one of the design document.  For month keys
    that parse, with years from 100 on (which [Date] takes as they are),
    [calculateCurrentBalance] is the schedule projection: the initial
    balance while the target month is before the start month, and otherwise
    max(0, initialBalance - monthlyDeduction * (monthsElapsed + 1)); at the
    start month itself one deduction has been taken. *)
Theorem calculateCurrentBalance_schedule
    (initialBalance monthlyDeduction : Z) (startMonth m : string) (sy sm cy cm : Z) :
  Spec.parse startMonth = Some (sy, sm) →
  Spec.parse m = Some (cy, cm) →
  100 <= sy → 100 <= cy →
  let elapsed := (cy - sy) * 12 + (cm - sm) in
  calculateCurrentBalance initialBalance monthlyDeduction startMonth m
  = Some (Spec.scheduleBalance initialBalance monthlyDeduction (sy, sm) (cy, cm))
  ∧ (elapsed < 0 →
     calculateCurrentBalance initialBalance monthlyDeduction startMonth m
     = Some initialBalance)
  ∧ (0 <= elapsed →
     calculateCurrentBalance initialBalance monthlyDeduction startMonth m
     = Some (Z.max 0 (initialBalance - monthlyDeduction * (elapsed + 1))))
  ∧ calculateCurrentBalance initialBalance monthlyDeduction startMonth startMonth
    = Some (Z.max 0 (initialBalance - monthlyDeduction)).
Proof.
  intros Hs Hm Hsy Hcy elapsed.
  assert (∀ b yb mb, Spec.parse b = Some (yb, mb) → 100 <= yb →
          calculateCurrentBalance initialBalance monthlyDeduction startMonth b
          = Some (Spec.scheduleBalance initialBalance monthlyDeduction (sy, sm) (yb, mb)))
    as Hgen.
  { intros b yb mb Hb Hyb. unfold calculateCurrentBalance.
    rewrite (monthsElapsed_parsed _ _ _ _ Hs Hb) by assumption.
    unfold Spec.scheduleBalance, Js.max.
    destruct (Spec.monthsElapsed (sy, sm) (yb, mb) <? 0); reflexivity. }
  assert (Spec.monthsElapsed (sy, sm) (cy, cm) = elapsed) as He by reflexivity.
  repeat split.
  - apply Hgen; assumption.
  - intros Hneg. rewrite (Hgen _ _ _ Hm Hcy). unfold Spec.scheduleBalance.
    rewrite He. destruct (Z.ltb_spec elapsed 0); [reflexivity|lia].
  - intros Hpos. rewrite (Hgen _ _ _ Hm Hcy). unfold Spec.scheduleBalance.
    rewrite He. destruct (Z.ltb_spec elapsed 0); [lia|reflexivity].
  - rewrite (Hgen _ _ _ Hs Hsy). unfold Spec.scheduleBalance, Spec.monthsElapsed.
    cbn [fst snd]. replace ((sy - sy) * 12 + (sm - sm)) with 0 by lia.
    cbn. do 2 f_equal. lia.
Qed.

Lemma calculateCurrentBalance_schedule_witness :
  calculateCurrentBalance 1200000 100000 "2025-01" "2025-03"
  = Some (Spec.scheduleBalance 1200000 100000 (2025, 1) (2025, 3))
  ∧ ((2025 - 2025) * 12 + (3 - 1) < 0 →
     calculateCurrentBalance 1200000 100000 "2025-01" "2025-03" = Some 1200000)
  ∧ (0 <= (2025 - 2025) * 12 + (3 - 1) →
     calculateCurrentBalance 1200000 100000 "2025-01" "2025-03"
     = Some (Z.max 0 (1200000 - 100000 * ((2025 - 2025) * 12 + (3 - 1) + 1))))
  ∧ calculateCurrentBalance 1200000 100000 "2025-01" "2025-01"
    = Some (Z.max 0 (1200000 - 100000)).
Proof.
  apply (calculateCurrentBalance_schedule 1200000 100000 "2025-01" "2025-03" 2025 1 2025 3);
    [reflexivity | reflexivity | lia | lia].
Defined.


(** ** Budget aggregation *)

Section Sums.
Context {A : Type} (amount : A → Z).

Lemma foldl_amount_shift (rows : list A) (start : Z) :
  foldl (λ sum r, sum + amount r) start rows
  = start + foldl (λ sum r, sum + amount r) 0 rows.
Proof.
  revert start. induction rows as [|r rows IH]; intros start; cbn [foldl].
  - lia.
  - rewrite IH, (IH (0 + amount r)). lia.
Qed.

Lemma sumAmounts_cons r rows :
  sumAmounts amount (r :: rows) = amount r + sumAmounts amount rows.
Proof. unfold sumAmounts. cbn [foldl]. rewrite foldl_amount_shift. lia. Qed.

Lemma sumAmounts_filter (select : A → bool) rows :
  sumAmounts amount (List.filter select rows) = sumWhere select amount rows.
Proof.
  induction rows as [|r rows IH]; [reflexivity|].
  cbn [List.filter sumWhere]. destruct (select r).
  - rewrite sumAmounts_cons, IH. reflexivity.
  - rewrite IH. lia.
Qed.

Lemma sumAmounts_filter_filter (p q : A → bool) rows :
  sumAmounts amount (List.filter q (List.filter p rows))
  = sumWhere (λ r, p r && q r) amount rows.
Proof.
  induction rows as [|r rows IH]; [reflexivity|].
  cbn [List.filter sumWhere]. destruct (p r); cbn [List.filter andb].
  - destruct (q r).
    + rewrite sumAmounts_cons, IH. reflexivity.
    + rewrite IH. lia.
  - rewrite IH. lia.
Qed.

Lemma sumAmounts_app rows rows' :
  sumAmounts amount (rows ++ rows') = sumAmounts amount rows + sumAmounts amount rows'.
Proof.
  induction rows as [|r rows IH]; [reflexivity|].
  cbn [app]. rewrite !sumAmounts_cons, IH. lia.
Qed.

End Sums.

(** C5.  For every member and every list of records, the member summary has
    grossIncome = the sum of that member's Salary incomes, otherIncome = the
    sum of that member's Other incomes, totalTaxes and totalExpenses = the
    sums of that member's tax and (pre-VAT) expense amounts,
    netIncome = grossIncome - totalTaxes + otherIncome and
    remainingBalance = netIncome - totalExpenses - totalUnnecessaryExpenses;
    the scenario yields 20000.00, 17000.00, 1500.00 and 15500.00. *)
Theorem calculateMemberSummary_fields
    (member : FamilyMember) (incomes : list Income.t) (taxes : list Tax.t)
    (expenses : list Expense.t) (unnecessaryExpenses : list UnnecessaryExpense.t) :
  let s := calculateMemberSummary member incomes taxes expenses unnecessaryExpenses in
  let scenario :=
    calculateMemberSummary Nikkie [scenario_income] [scenario_tax] [scenario_expense] [] in
  MemberSummary.grossIncome s
  = sumWhere (λ i, bool_decide (Income.member i = member)
                   && bool_decide (Income.income_type i = Salary)) Income.amount incomes
  ∧ MemberSummary.otherIncome s
    = sumWhere (λ i, bool_decide (Income.member i = member)
                     && bool_decide (Income.income_type i = Other)) Income.amount incomes
  ∧ MemberSummary.totalTaxes s
    = sumWhere (λ t, bool_decide (Tax.member t = member)) Tax.amount taxes
  ∧ MemberSummary.netIncome s
    = MemberSummary.grossIncome s - MemberSummary.totalTaxes s + MemberSummary.otherIncome s
  ∧ MemberSummary.totalExpenses s
    = sumWhere (λ e, bool_decide (Expense.member e = member)) Expense.amount expenses
  ∧ MemberSummary.totalUnnecessaryExpenses s
    = sumWhere (λ u, bool_decide (UnnecessaryExpense.member u = member))
        UnnecessaryExpense.amount unnecessaryExpenses
  ∧ MemberSummary.remainingBalance s
    = MemberSummary.netIncome s - MemberSummary.totalExpenses s
      - MemberSummary.totalUnnecessaryExpenses s
  ∧ MemberSummary.grossIncome scenario = 2000000
  ∧ MemberSummary.netIncome scenario = 1700000
  ∧ MemberSummary.totalExpenses scenario = 150000
  ∧ MemberSummary.remainingBalance scenario = 1550000.
Proof.
  cbn zeta.
  repeat split; try reflexivity; unfold calculateMemberSummary;
    cbn [MemberSummary.grossIncome MemberSummary.otherIncome MemberSummary.totalTaxes
         MemberSummary.totalExpenses MemberSummary.totalUnnecessaryExpenses];
    rewrite ?sumAmounts_filter_filter, ?sumAmounts_filter; reflexivity.
Qed.

(** On exact amounts, the fixed-point arithmetic the design document asks
    for, every numeric field of the household summary is the sum of the same
    field of the two member summaries it contains, which are the summaries
    of Nikkie and of Hein over the same records. *)
Theorem calculateHouseholdSummary_sums
    (incomes : list Income.t) (taxes : list Tax.t)
    (expenses : list Expense.t) (unnecessaryExpenses : list UnnecessaryExpense.t) :
  let h := calculateHouseholdSummary incomes taxes expenses unnecessaryExpenses in
  let n := HouseholdSummary.nikkieSummary h in
  let e := HouseholdSummary.heinSummary h in
  n = calculateMemberSummary Nikkie incomes taxes expenses unnecessaryExpenses
  ∧ e = calculateMemberSummary Hein incomes taxes expenses unnecessaryExpenses
  ∧ HouseholdSummary.grossIncome h = MemberSummary.grossIncome n + MemberSummary.grossIncome e
  ∧ HouseholdSummary.otherIncome h = MemberSummary.otherIncome n + MemberSummary.otherIncome e
  ∧ HouseholdSummary.totalIncome h = MemberSummary.totalIncome n + MemberSummary.totalIncome e
  ∧ HouseholdSummary.totalTaxes h = MemberSummary.totalTaxes n + MemberSummary.totalTaxes e
  ∧ HouseholdSummary.netIncome h = MemberSummary.netIncome n + MemberSummary.netIncome e
  ∧ HouseholdSummary.totalExpenses h
    = MemberSummary.totalExpenses n + MemberSummary.totalExpenses e
  ∧ HouseholdSummary.totalUnnecessaryExpenses h
    = MemberSummary.totalUnnecessaryExpenses n + MemberSummary.totalUnnecessaryExpenses e
  ∧ HouseholdSummary.remainingBalance h
    = MemberSummary.remainingBalance n + MemberSummary.remainingBalance e.
Proof.
  cbn zeta. unfold calculateHouseholdSummary.
  cbn [HouseholdSummary.nikkieSummary HouseholdSummary.heinSummary
       HouseholdSummary.grossIncome HouseholdSummary.otherIncome
       HouseholdSummary.totalIncome HouseholdSummary.totalTaxes
       HouseholdSummary.netIncome HouseholdSummary.totalExpenses
       HouseholdSummary.totalUnnecessaryExpenses HouseholdSummary.remainingBalance].
  repeat split; try reflexivity.
  - unfold calculateMemberSummary.
    cbn [MemberSummary.grossIncome MemberSummary.otherIncome MemberSummary.totalTaxes
         MemberSummary.netIncome]. lia.
  - unfold calculateMemberSummary.
    cbn [MemberSummary.grossIncome MemberSummary.otherIncome MemberSummary.totalTaxes
         MemberSummary.netIncome MemberSummary.totalExpenses
         MemberSummary.totalUnnecessaryExpenses MemberSummary.remainingBalance]. lia.
Qed.

(** C6, at a household month with amounts that are not whole: Nikkie earns
    20000.00, pays 3000.00 tax and 1500.10 for groceries; Hein earns
    25000.00, pays 4500.20 tax and 8500.00 rent.  In the program's
    arithmetic the household's remainingBalance, which the program
    recomputes from the household sums, is not the sum of the two members'
    remainingBalance: the first is above the double nearest to 27499.70, the
    second below it.  On exact amounts both are 27499.70. *)
Theorem calculateHouseholdSummary_rounding :
  let incomes := [scenario_income; hein_income] in
  let taxes := [scenario_tax; hein_tax] in
  let expenses := [groceries_with_cents; rent] in
  let h := Binary64.calculateHouseholdSummary incomes taxes expenses [] in
  let members :=
    (Binary64.MemberSummary.remainingBalance (Binary64.HouseholdSummary.nikkieSummary h)
     + Binary64.MemberSummary.remainingBalance (Binary64.HouseholdSummary.heinSummary h))%float
  in
  let exact := calculateHouseholdSummary incomes taxes expenses [] in
  (Binary64.HouseholdSummary.remainingBalance h =? members)%float = false
  ∧ (members <? Binary64.toNumber 2749970)%float = true
  ∧ (Binary64.toNumber 2749970 <? Binary64.HouseholdSummary.remainingBalance h)%float = true
  ∧ HouseholdSummary.remainingBalance exact = 2749970
  ∧ MemberSummary.remainingBalance (HouseholdSummary.nikkieSummary exact)
    + MemberSummary.remainingBalance (HouseholdSummary.heinSummary exact) = 2749970.
Proof. vm_compute. repeat split. Qed.

(** C10.  The summary of a member depends only on the rows whose member
    field is that member: two inputs that agree on those rows give the
    same summary, whatever the rows of the other member are. *)
Theorem calculateMemberSummary_own_rows_only
    (member : FamilyMember)
    (incomes incomes' : list Income.t) (taxes taxes' : list Tax.t)
    (expenses expenses' : list Expense.t)
    (unnecessaryExpenses unnecessaryExpenses' : list UnnecessaryExpense.t) :
  List.filter (λ i, bool_decide (Income.member i = member)) incomes
  = List.filter (λ i, bool_decide (Income.member i = member)) incomes' →
  List.filter (λ t, bool_decide (Tax.member t = member)) taxes
  = List.filter (λ t, bool_decide (Tax.member t = member)) taxes' →
  List.filter (λ e, bool_decide (Expense.member e = member)) expenses
  = List.filter (λ e, bool_decide (Expense.member e = member)) expenses' →
  List.filter (λ u, bool_decide (UnnecessaryExpense.member u = member)) unnecessaryExpenses
  = List.filter (λ u, bool_decide (UnnecessaryExpense.member u = member)) unnecessaryExpenses' →
  calculateMemberSummary member incomes taxes expenses unnecessaryExpenses
  = calculateMemberSummary member incomes' taxes' expenses' unnecessaryExpenses'.
Proof.
  intros Hi Ht He Hu. unfold calculateMemberSummary.
  rewrite Hi, Ht, He, Hu. reflexivity.
Qed.

Lemma calculateMemberSummary_own_rows_only_witness :
  calculateMemberSummary Nikkie [scenario_income] [scenario_tax] [scenario_expense] []
  = calculateMemberSummary Nikkie [hein_income; scenario_income; hein_income]
      [scenario_tax] [scenario_expense] [].
Proof.
  apply (calculateMemberSummary_own_rows_only Nikkie
           [scenario_income] [hein_income; scenario_income; hein_income]);
    reflexivity.
Defined.

(** ** Balance tracker *)

Lemma sumWhere_ext {A} (p q : A → bool) (amount : A → Z) (rows : list A) :
  Forall (λ r, p r = q r) rows → sumWhere p amount rows = sumWhere q amount rows.
Proof.
  induction 1 as [|r rows Hr _ IH]; [reflexivity|].
  cbn [sumWhere]. rewrite Hr, IH. reflexivity.
Qed.

Lemma strictEqualsId_spec (a : option Uuid) (b : Uuid) :
  strictEqualsId a b = bool_decide (a = Some b).
Proof.
  destruct a as [a|]; cbn.
  - destruct (decide (a = b)) as [->|Hne].
    + rewrite !bool_decide_eq_true_2; reflexivity.
    + rewrite !bool_decide_eq_false_2; congruence.
  - reflexivity.
Qed.

(** C2.  When the target month and the months of the expenses are month
    keys, the actual balance is max(0, initialBalance - S), S being the sum
    of the amounts of exactly the expenses linked to the account, paid, and
    of a month up to and including the target month in month-key order;
    with no expenses it is the initial balance (which is not negative). *)
Theorem getActualBalanceForMonth_spec
    (account : BalanceAccount.t) (m : string) (expenses : list Expense.t) :
  is_Some (Spec.parse m) →
  Forall (λ e, is_Some (Spec.parse (Expense.month e))) expenses →
  getActualBalanceForMonth expenses account m = spec_actualBalance account m expenses
  ∧ (0 <= BalanceAccount.initial_balance account →
     getActualBalanceForMonth [] account m = BalanceAccount.initial_balance account).
Proof.
  intros [pm Hm] Hkeys. split.
  - unfold getActualBalanceForMonth, getTotalPaidUpToMonth, spec_actualBalance, Js.max.
    rewrite sumAmounts_filter. do 2 f_equal.
    apply sumWhere_ext. eapply Forall_impl; [|exact Hkeys].
    intros e [pe He]. cbn beta.
    rewrite strictEqualsId_spec. unfold spec_month_le. rewrite He, Hm.
    rewrite (string_le_parsed _ _ _ _ He Hm).
    destruct (Expense.is_paid e); reflexivity.
  - intros Hinit. unfold getActualBalanceForMonth, getTotalPaidUpToMonth, Js.max.
    cbn. lia.
Qed.

Lemma getActualBalanceForMonth_spec_witness :
  getActualBalanceForMonth [scenario_payment] scenario_account "2025-03"
  = spec_actualBalance scenario_account "2025-03" [scenario_payment]
  ∧ (0 <= BalanceAccount.initial_balance scenario_account →
     getActualBalanceForMonth [] scenario_account "2025-03"
     = BalanceAccount.initial_balance scenario_account).
Proof.
  apply (getActualBalanceForMonth_spec scenario_account "2025-03" [scenario_payment]).
  - exists (2025, 3). reflexivity.
  - repeat constructor. exists (2025, 2). reflexivity.
Defined.

Lemma projectionDiff_cases (diff : Z) :
  (0 < diff ↔ projectionDiff diff = Some (behind, Z.abs diff))
  ∧ (diff < 0 ↔ projectionDiff diff = Some (ahead, Z.abs diff))
  ∧ (diff = 0 ↔ projectionDiff diff = None).
Proof.
  unfold projectionDiff.
  destruct (Z.eqb_spec diff 0) as [->|Hne].
  - repeat split; first [lia | discriminate | reflexivity].
  - destruct (Z.gtb_spec diff 0) as [Hgt|Hle].
    + repeat split; first [lia | discriminate | reflexivity].
    + repeat split; first [lia | discriminate | reflexivity].
Qed.

(** C7, as the program has it.  A cell of the projection table reports the
    difference scheduleBalance - actualBalance; a positive difference is
    labelled "behind", a negative one "ahead", and a zero one gets no label.
    In the worked example (schedule 9000.00, actual 11500.00) the difference
    is -2500.00 and the label is "ahead". *)
Theorem projectionCell_labels
    (paidExpenses : list Expense.t) (account : BalanceAccount.t) (month : string)
    (scheduleBalance : Z) :
  getBalanceForMonth account month = Some scheduleBalance →
  (∃ cell, projectionCell paidExpenses account month = Some cell
     ∧ cell_actualBalance cell = getActualBalanceForMonth paidExpenses account month
     ∧ cell_diff cell = scheduleBalance - getActualBalanceForMonth paidExpenses account month
     ∧ (0 < cell_diff cell ↔ cell_label cell = Some (behind, Z.abs (cell_diff cell)))
     ∧ (cell_diff cell < 0 ↔ cell_label cell = Some (ahead, Z.abs (cell_diff cell)))
     ∧ (cell_diff cell = 0 ↔ cell_label cell = None))
  ∧ getBalanceForMonth scenario_account "2025-03" = Some 900000
  ∧ projectionCell [scenario_payment] scenario_account "2025-03"
    = Some {| cell_actualBalance := 1150000; cell_diff := -250000;
              cell_label := Some (ahead, 250000) |}.
Proof.
  intros Hschedule. split; [|split; reflexivity].
  unfold projectionCell. rewrite Hschedule.
  eexists. split; [reflexivity|]. cbn [cell_actualBalance cell_diff cell_label].
  split; [reflexivity|]. split; [reflexivity|].
  apply projectionDiff_cases.
Qed.

Lemma projectionCell_labels_witness :
  (∃ cell, projectionCell [scenario_payment] scenario_account "2025-03" = Some cell
     ∧ cell_actualBalance cell
       = getActualBalanceForMonth [scenario_payment] scenario_account "2025-03"
     ∧ cell_diff cell
       = 900000 - getActualBalanceForMonth [scenario_payment] scenario_account "2025-03"
     ∧ (0 < cell_diff cell ↔ cell_label cell = Some (behind, Z.abs (cell_diff cell)))
     ∧ (cell_diff cell < 0 ↔ cell_label cell = Some (ahead, Z.abs (cell_diff cell)))
     ∧ (cell_diff cell = 0 ↔ cell_label cell = None))
  ∧ getBalanceForMonth scenario_account "2025-03" = Some 900000
  ∧ projectionCell [scenario_payment] scenario_account "2025-03"
    = Some {| cell_actualBalance := 1150000; cell_diff := -250000;
              cell_label := Some (ahead, 250000) |}.
Proof.
  apply (projectionCell_labels [scenario_payment] scenario_account "2025-03" 900000).
  reflexivity.
Defined.

(** C7, the worked example as stated: the cell with schedule 9000.00 and
    actual 11500.00 does not carry the label "behind". *)
Lemma projectionCell_scenario_not_behind :
  ¬ (∃ cell, projectionCell [scenario_payment] scenario_account "2025-03" = Some cell
       ∧ cell_diff cell = -250000
       ∧ ∃ shown, cell_label cell = Some (behind, shown)).
Proof.
  intros (cell & Hcell & _ & shown & Hlabel).
  vm_compute in Hcell. injection Hcell as <-.
  cbn in Hlabel. discriminate.
Qed.

(** What [progressPercentage] is when the initial balance is positive. *)
Lemma progressPercentage_positive
    (paidExpenses : list Expense.t) (account : BalanceAccount.t) (month : string) :
  0 < BalanceAccount.initial_balance account →
  progressPercentage paidExpenses account month
  = JsNumber.Finite
      (Qc_of_Z (BalanceAccount.initial_balance account
                - getActualBalanceForMonth paidExpenses account month)
       / Qc_of_Z (BalanceAccount.initial_balance account) * Qc_of_Z 100)%Qc.
Proof.
  intros Hpos. unfold progressPercentage, JsNumber.divide.
  destruct (Z.eqb_spec (BalanceAccount.initial_balance account) 0); [lia|].
  reflexivity.
Qed.

(** With an initial balance of zero and payments that are not negative the
    quotient is 0 / 0. *)
Lemma progressPercentage_zero_initial_balance
    (paidExpenses : list Expense.t) (account : BalanceAccount.t) (month : string) :
  BalanceAccount.initial_balance account = 0 →
  0 <= getTotalPaidUpToMonth paidExpenses (BalanceAccount.id account) month →
  progressPercentage paidExpenses account month = JsNumber.NaN.
Proof.
  intros Hzero Hpaid.
  unfold progressPercentage, getActualBalanceForMonth, Js.max.
  rewrite Hzero. rewrite Z.max_l by lia. reflexivity.
Qed.

(** C8, at an initial balance of zero: the account card computes
    (0 - 0) / 0 * 100, which is NaN and not the number 0. *)
Theorem progressPercentage_zero_account_is_NaN :
  progressPercentage [] zero_balance_account "2025-12" = JsNumber.NaN
  ∧ progressPercentage [] zero_balance_account "2025-12"
    ≠ JsNumber.Finite (Qc_of_Z 0).
Proof. split; [reflexivity | discriminate]. Qed.

(** ** Running the hook's operations *)

Lemma run_bind {A B} (m : M A) (k : A → M B) (w : World) :
  (m ≫= k) w
  = match m w with
    | (Returned a, w') => k a w'
    | (Thrown message, w') => (Thrown message, w')
    end.
Proof. reflexivity. Qed.

Section Running.

Variable faults : nat → option string.
Variable selectedMonth : string.

Lemma request_resolves {A} (run : Store.t → A * Store.t) (w : World) :
  faults (calls w) = None →
  request faults run w
  = (Returned {| data := Some (fst (run (store w))); error := None |},
     {| store := snd (run (store w)); calls := S (calls w); state := state w;
        carriedOverMonths := carriedOverMonths w |}).
Proof. intros Hok. unfold request. rewrite Hok. destruct (run (store w)); reflexivity. Qed.

Lemma request_fails {A} (run : Store.t → A * Store.t) (w : World) message :
  faults (calls w) = Some message →
  request faults run w
  = (Returned {| data := None; error := Some message |},
     {| store := store w; calls := S (calls w); state := state w;
        carriedOverMonths := carriedOverMonths w |}).
Proof. intros Hfail. unfold request. rewrite Hfail. reflexivity. Qed.

(** The refresh never throws, and leaves the store and the guard set as
    they are. *)
Lemma fetchDataWithoutAutoCarry_frame (w : World) :
  ∃ w', fetchDataWithoutAutoCarry faults selectedMonth w = (Returned tt, w')
        ∧ store w' = store w
        ∧ carriedOverMonths w' = carriedOverMonths w.
Proof.
  unfold fetchDataWithoutAutoCarry, tryCatch, selectIncomes, selectTaxes,
    selectExpenses, selectUnnecessaryExpenses, request, throwIfError, throw, modify.
  unfold mbind, M_bind, mret, M_ret. cbn.
  destruct (faults (calls w)); cbn;
    destruct (faults (S (calls w))); cbn;
    destruct (faults (S (S (calls w)))); cbn;
    destruct (faults (S (S (S (calls w))))); cbn;
    eexists; repeat split; reflexivity.
Qed.

End Running.

(** ** Manual carry-over of chosen expenses *)

(** What a successful manual carry-over does to the store: one new expense
    row per carried expense, appended to the table; the other tables stay
    as they are. *)
Lemma carryOverExpenses_inserts faults selectedMonth (expensesToCarry : list Expense.t) w :
  faults (calls w) = None →
  ∃ w', carryOverExpenses faults selectedMonth expensesToCarry w = (Returned true, w')
        ∧ store w'
          = Store.insert_expenses (map (carriedExpense selectedMonth) expensesToCarry) (store w)
        ∧ length (Store.expenses (store w'))
          = (length (Store.expenses (store w)) + length expensesToCarry)%nat.
Proof.
  intros Hok. unfold carryOverExpenses, tryCatch, insertExpenses.
  rewrite run_bind, (request_resolves _ _ _ Hok).
  cbn [fst snd throwIfError error]. rewrite run_bind. cbn [mret M_ret].
  rewrite run_bind.
  match goal with
  | |- context [fetchDataWithoutAutoCarry faults selectedMonth ?w1] =>
      destruct (fetchDataWithoutAutoCarry_frame faults selectedMonth w1)
        as (w' & Hrun & Hstore & _)
  end.
  rewrite Hrun. exists w'. split; [reflexivity|]. rewrite Hstore. cbn [store].
  split; [reflexivity|].
  cbn [Store.insert_expenses Store.expenses].
  rewrite length_app, length_imap, length_map. reflexivity.
Qed.

(** The fields a manually carried row keeps, and the ones it does not. *)
Lemma carriedExpense_row selectedMonth (id : Uuid) (stamp : Timestamp) (expense : Expense.t) :
  let row := Store.new_expense id stamp (carriedExpense selectedMonth expense) in
  Expense.id row = id
  ∧ Expense.created_at row = stamp
  ∧ Expense.month row = selectedMonth
  ∧ Expense.member row = Expense.member expense
  ∧ Expense.category row = Expense.category expense
  ∧ Expense.description row = Expense.description expense
  ∧ Expense.amount row = Expense.amount expense
  ∧ Expense.is_shared row = false
  ∧ Expense.is_recurring row = false
  ∧ Expense.is_paid row = false
  ∧ Expense.include_vat row = false
  ∧ Expense.note row = None
  ∧ Expense.balance_account_id row = None.
Proof. cbn. repeat split. Qed.

(** The automatic carry-forward, by contrast, copies every one of them. *)
Lemma copyExpense_row selectedMonth (id : Uuid) (stamp : Timestamp) (expense : Expense.t) :
  let row := Store.new_expense id stamp (copyExpense selectedMonth expense) in
  Expense.id row = id
  ∧ Expense.created_at row = stamp
  ∧ Expense.month row = selectedMonth
  ∧ Expense.member row = Expense.member expense
  ∧ Expense.category row = Expense.category expense
  ∧ Expense.description row = Expense.description expense
  ∧ Expense.amount row = Expense.amount expense
  ∧ Expense.is_shared row = Expense.is_shared expense
  ∧ Expense.is_recurring row = Expense.is_recurring expense
  ∧ Expense.is_paid row = Expense.is_paid expense
  ∧ Expense.include_vat row = Expense.include_vat expense
  ∧ Expense.note row = Expense.note expense
  ∧ Expense.balance_account_id row = Expense.balance_account_id expense.
Proof. cbn. repeat split. Qed.

(** C3, at one recurring expense.  Manual carry-over of [rent] into 2025-02
    succeeds and inserts one row; the row has the member, category,
    description and amount of [rent], but is_shared, is_recurring and is_paid
    are false and note and balance_account_id are null, unlike in [rent]. *)
Theorem carryOverExpenses_resets_flags :
  ∃ w', carryOverExpenses no_faults "2025-02" [rent] january_world = (Returned true, w')
        ∧ Store.expenses (store w') = [rent; carried_rent]
        ∧ Expense.is_shared carried_rent ≠ Expense.is_shared rent
        ∧ Expense.is_recurring carried_rent ≠ Expense.is_recurring rent
        ∧ Expense.is_paid carried_rent ≠ Expense.is_paid rent
        ∧ Expense.note carried_rent ≠ Expense.note rent
        ∧ Expense.balance_account_id carried_rent ≠ Expense.balance_account_id rent.
Proof.
  destruct (carryOverExpenses_inserts no_faults "2025-02" [rent] january_world eq_refl)
    as (w' & Hrun & Hstore & _).
  exists w'. split; [exact Hrun|]. rewrite Hstore.
  repeat split; discriminate.
Qed.

(** ** Automatic carry-forward of a whole month *)


Lemma guard_added (month : string) (months : gset string) :
  month ∈ {[month]} ∪ months.
Proof. apply elem_of_union_l, elem_of_singleton. reflexivity. Qed.

(** From "no request before the [n]-th fails" to one fact per request. *)
Ltac first_failure_facts w :=
  repeat match goal with
    | H : ∀ j, (j < ?n)%nat → _ |- _ =>
        lazymatch n with
        | S ?n' =>
            let F := fresh "F" in
            pose proof (H n' ltac:(lia)) as F;
            let H' := fresh "Hfirst" in
            assert (∀ j, (j < n')%nat → _ (calls w + j)%nat = None) as H'
              by (intros; apply H; lia);
            clear H
        | O => clear H
        end
    end;
  rewrite ?Nat.add_succ_r, ?Nat.add_0_r in *.

(** Running a sequence of requests whose outcomes are known. *)
Ltac run_requests :=
  repeat (cbn;
          match goal with
          | H : _ (calls _) = _ |- _ => rewrite H
          | H : _ (S _) = _ |- _ => rewrite H
          | H : _ = Store.select_incomes _ _ _ |- _ => rewrite <- H
          | H : _ = Store.select_taxes _ _ _ |- _ => rewrite <- H
          | H : _ = Store.select_expenses _ _ _ |- _ => rewrite <- H
          end);
  cbn.

Section AutoCarryRuns.

#[local] Arguments Store.select_incomes : simpl never.
#[local] Arguments Store.select_taxes : simpl never.
#[local] Arguments Store.select_expenses : simpl never.
#[local] Arguments Store.insert_incomes : simpl never.
#[local] Arguments Store.insert_taxes : simpl never.
#[local] Arguments Store.insert_expenses : simpl never.
#[local] Arguments getPreviousMonth : simpl never.
#[local] Arguments copyIncome : simpl never.
#[local] Arguments copyTax : simpl never.
#[local] Arguments copyExpense : simpl never.
#[local] Arguments fetchDataWithoutAutoCarry : simpl never.


(** When every request of a copy attempt goes through, the attempt returns
    true, the guard set is as before, and all planned inserts are in the
    store; the refresh that follows changes neither. *)
Lemma autoCarryForward_completes faults selectedMonth (w : World) :
  (∀ j, (j < 3 + length (plannedInserts selectedMonth (store w)))%nat →
        faults (calls w + j)%nat = None) →
  ∃ w', autoCarryForwardFromPreviousMonth faults selectedMonth w = (Returned true, w')
        ∧ carriedOverMonths w' = carriedOverMonths w
        ∧ store w'
          = afterInserts (length (plannedInserts selectedMonth (store w)))
              (plannedInserts selectedMonth (store w)) (store w).
Proof.
  intros Hfirst.
  unfold plannedInserts, afterInserts in *.
  remember (Store.select_incomes (getPreviousMonth selectedMonth) true (store w))
    as prevIncomes eqn:HI.
  remember (Store.select_taxes (getPreviousMonth selectedMonth) true (store w))
    as prevTaxes eqn:HT.
  remember (Store.select_expenses (getPreviousMonth selectedMonth) true (store w))
    as prevExpenses eqn:HE.
  destruct prevIncomes as [|income prevIncomes];
    destruct prevTaxes as [|tax prevTaxes];
    destruct prevExpenses as [|expense prevExpenses];
    cbn in Hfirst |- *;
    first_failure_facts w;
    unfold autoCarryForwardFromPreviousMonth, tryFinally, tryCatch, selectIncomes,
      selectTaxes, selectExpenses, insertIncomes, insertTaxes, insertExpenses,
      request, throwIfError, throw, modify, dataOrEmpty;
    unfold mbind, M_bind, mret, M_ret;
    run_requests;
    first
      [ match goal with
        | |- context [fetchDataWithoutAutoCarry faults selectedMonth ?w1] =>
            destruct (fetchDataWithoutAutoCarry_frame faults selectedMonth w1)
              as (w' & Hrun & Hstore & Hguard);
            rewrite Hrun; cbn;
            eexists; split; [reflexivity|]; cbn;
            split; [exact Hguard | rewrite Hstore; reflexivity]
        end
      | eexists; split; [reflexivity|]; split; reflexivity ].
Qed.

End AutoCarryRuns.

Section FetchDataStartsCarry.

#[local] Arguments Store.select_incomes : simpl never.
#[local] Arguments Store.select_taxes : simpl never.
#[local] Arguments Store.select_expenses : simpl never.
#[local] Arguments bool_decide : simpl never.
#[local] Arguments autoCarryForwardFromPreviousMonth : simpl never.

(** When the fetch of an empty month succeeds and the month is not in the
  guard set, [fetchData] puts it there and only then runs the
  carry-forward. *)
Lemma fetchData_starts_carry faults selectedMonth (w : World) :
faults (calls w) = None →
faults (S (calls w)) = None →
faults (S (S (calls w))) = None →
match faults (S (S (S (calls w)))) with
| Some message => includes message "does not exist" = true
| None => True
end →
Store.select_incomes selectedMonth false (store w) = [] →
Store.select_taxes selectedMonth false (store w) = [] →
Store.select_expenses selectedMonth false (store w) = [] →
selectedMonth ∉ carriedOverMonths w →
∃ w1, selectedMonth ∈ carriedOverMonths w1
      ∧ store w1 = store w
      ∧ calls w1 = (calls w + 4)%nat
      ∧ fetchData faults selectedMonth w
        = afterCarryForward (autoCarryForwardFromPreviousMonth faults selectedMonth w1).
Proof.
intros F0 F1 F2 F3 HI HT HE Hguard.
unfold fetchData, fetchDataWith, tryFinally, tryCatch, selectIncomes, selectTaxes, selectExpenses,
  selectUnnecessaryExpenses, request, throwIfError, throw, modify, gets, dataOrEmpty.
unfold mbind, M_bind, mret, M_ret. cbn.
rewrite F0. cbn. rewrite F1. cbn. rewrite F2. cbn.
rewrite HI, HT, HE.
rewrite !bool_decide_eq_true_2 by reflexivity.
destruct (faults (S (S (S (calls w))))) as [message|] eqn:F3'; cbn;
  rewrite ?F3; cbn;
  rewrite bool_decide_eq_false_2 by assumption; cbn;
  match goal with
  | |- context [autoCarryForwardFromPreviousMonth faults selectedMonth (withGuard ?f ?w0)] =>
      exists (withGuard f w0);
      destruct (autoCarryForwardFromPreviousMonth faults selectedMonth (withGuard f w0))
        as [[b|thrown] w2]
  end;
  cbn; (split; [apply guard_added|]); (split; [reflexivity|]); (split; [lia|reflexivity]).
Qed.

End FetchDataStartsCarry.

Section FetchFails.

#[local] Arguments bool_decide : simpl never.
#[local] Arguments autoCarryForwardFromPreviousMonth : simpl never.
#[local] Arguments Store.select_incomes : simpl never.
#[local] Arguments Store.select_taxes : simpl never.
#[local] Arguments Store.select_expenses : simpl never.
#[local] Arguments Store.select_unnecessary_expenses : simpl never.

(** When the fetch of the selected month fails, nothing is copied and the
    guard set is left as it was. *)
Lemma fetchData_fetch_failure faults selectedMonth (w : World) (i : nat) :
  (i < 3)%nat →
  is_Some (faults (calls w + i)%nat) →
  ∃ w', fetchData faults selectedMonth w = (Returned tt, w')
        ∧ carriedOverMonths w' = carriedOverMonths w
        ∧ store w' = store w
        ∧ is_Some (HookState.error (state w')).
Proof.
  intros Hi [message Hfail].
  destruct i as [|[|[|i]]]; try (exfalso; lia);
    rewrite ?Nat.add_succ_r, ?Nat.add_0_r in Hfail;
    (destruct (faults (calls w)) eqn:G0; try discriminate);
    (destruct (faults (S (calls w))) eqn:G1; try discriminate);
    (destruct (faults (S (S (calls w)))) eqn:G2; try discriminate);
    destruct (faults (S (S (S (calls w))))) eqn:G3;
    unfold fetchData, fetchDataWith, tryFinally, tryCatch, selectIncomes, selectTaxes, selectExpenses,
      selectUnnecessaryExpenses, request, throwIfError, throw, modify, gets, dataOrEmpty;
    unfold mbind, M_bind, mret, M_ret;
    run_requests;
    (eexists; split; [reflexivity|]; cbn; repeat split; eexists; reflexivity).
Qed.

End FetchFails.

(** The inserts of a plan only add rows: every table of the store is a
    prefix of the same table after any number of them. *)
Lemma afterInserts_appends selectedMonth (db : Store.t) (n : nat) :
  let db' := afterInserts n (plannedInserts selectedMonth db) db in
  Store.incomes db `prefix_of` Store.incomes db'
  ∧ Store.taxes db `prefix_of` Store.taxes db'
  ∧ Store.expenses db `prefix_of` Store.expenses db'
  ∧ Store.unnecessary_expenses db' = Store.unnecessary_expenses db.
Proof.
  cbn zeta. unfold afterInserts, plannedInserts.
  destruct (Store.select_incomes (getPreviousMonth selectedMonth) true db);
    destruct (Store.select_taxes (getPreviousMonth selectedMonth) true db);
    destruct (Store.select_expenses (getPreviousMonth selectedMonth) true db);
    destruct n as [|[|[|n]]]; cbn; rewrite ?take_nil; cbn;
    repeat split; try reflexivity;
    repeat first [ apply prefix_app_r | reflexivity ].
Qed.

Section FetchDataNoCarry.

#[local] Arguments bool_decide : simpl never.
#[local] Arguments autoCarryForwardFromPreviousMonth : simpl never.
#[local] Arguments Store.select_incomes : simpl never.
#[local] Arguments Store.select_taxes : simpl never.
#[local] Arguments Store.select_expenses : simpl never.
#[local] Arguments Store.select_unnecessary_expenses : simpl never.
#[local] Arguments includes : simpl never.

Lemma no_carry_condition selectedMonth (w : World) :
  Store.select_incomes selectedMonth false (store w) ≠ []
  ∨ Store.select_taxes selectedMonth false (store w) ≠ []
  ∨ Store.select_expenses selectedMonth false (store w) ≠ []
  ∨ selectedMonth ∈ carriedOverMonths w →
  bool_decide (Store.select_incomes selectedMonth false (store w) = [])
  && bool_decide (Store.select_taxes selectedMonth false (store w) = [])
  && bool_decide (Store.select_expenses selectedMonth false (store w) = [])
  && negb (bool_decide (selectedMonth ∈ carriedOverMonths w)) = false.
Proof.
  intros [H|[H|[H|H]]].
  - rewrite (bool_decide_eq_false_2 _ H). reflexivity.
  - rewrite (bool_decide_eq_false_2 _ H), andb_false_r. reflexivity.
  - rewrite (bool_decide_eq_false_2 _ H), andb_false_r. reflexivity.
  - rewrite (bool_decide_eq_true_2 _ H), andb_false_r. reflexivity.
Qed.

(** [fetchData] always returns, after four requests; for a month that has
    a row or is in the guard set it leaves the store and the guard set as
    they are. *)
Lemma fetchData_no_carry faults selectedMonth (w : World) :
  Store.select_incomes selectedMonth false (store w) ≠ []
  ∨ Store.select_taxes selectedMonth false (store w) ≠ []
  ∨ Store.select_expenses selectedMonth false (store w) ≠ []
  ∨ selectedMonth ∈ carriedOverMonths w →
  ∃ w', fetchData faults selectedMonth w = (Returned tt, w')
        ∧ store w' = store w
        ∧ carriedOverMonths w' = carriedOverMonths w
        ∧ calls w' = (calls w + 4)%nat
        ∧ HookState.loading (state w') = false.
Proof.
  intros Hcond%no_carry_condition.
  unfold fetchData, fetchDataWith, tryFinally, tryCatch, selectIncomes, selectTaxes, selectExpenses,
    selectUnnecessaryExpenses, request, throwIfError, throw, modify, gets, dataOrEmpty.
  unfold mbind, M_bind, mret, M_ret. cbn.
  destruct (faults (calls w)); cbn;
    destruct (faults (S (calls w))); cbn;
    destruct (faults (S (S (calls w)))); cbn;
    destruct (faults (S (S (S (calls w))))) as [message|]; cbn;
    try (destruct (includes message "does not exist"); cbn);
    rewrite ?Hcond; cbn;
    (eexists; split; [reflexivity|]; cbn; repeat split; lia).
Qed.

(** When no request of it fails, [fetchData] of such a month puts the rows
    of the month into the hook's state, newest first. *)
Lemma fetchData_loads faults selectedMonth (w : World) :
  Store.select_incomes selectedMonth false (store w) ≠ []
  ∨ Store.select_taxes selectedMonth false (store w) ≠ []
  ∨ Store.select_expenses selectedMonth false (store w) ≠ []
  ∨ selectedMonth ∈ carriedOverMonths w →
  (∀ j, (j < 4)%nat → faults (calls w + j)%nat = None) →
  ∃ w', fetchData faults selectedMonth w = (Returned tt, w')
        ∧ HookState.incomes (state w') = Store.select_incomes selectedMonth false (store w)
        ∧ HookState.taxes (state w') = Store.select_taxes selectedMonth false (store w)
        ∧ HookState.expenses (state w') = Store.select_expenses selectedMonth false (store w)
        ∧ HookState.unnecessaryExpenses (state w')
          = Store.select_unnecessary_expenses selectedMonth false (store w)
        ∧ HookState.error (state w') = None.
Proof.
  intros Hcond%no_carry_condition Hok.
  pose proof (Hok 0%nat ltac:(lia)) as F0. pose proof (Hok 1%nat ltac:(lia)) as F1.
  pose proof (Hok 2%nat ltac:(lia)) as F2. pose proof (Hok 3%nat ltac:(lia)) as F3.
  rewrite ?Nat.add_succ_r, ?Nat.add_0_r in *.
  unfold fetchData, fetchDataWith, tryFinally, tryCatch, selectIncomes, selectTaxes, selectExpenses,
    selectUnnecessaryExpenses, request, throwIfError, throw, modify, gets, dataOrEmpty.
  unfold mbind, M_bind, mret, M_ret. cbn.
  rewrite F0. cbn. rewrite F1. cbn. rewrite F2. cbn. rewrite F3. cbn.
  rewrite Hcond. cbn.
  eexists. split; [reflexivity|]. cbn. repeat split.
Qed.

End FetchDataNoCarry.

Section FetchDataWithStarts.

#[local] Arguments Store.select_incomes : simpl never.
#[local] Arguments Store.select_taxes : simpl never.
#[local] Arguments Store.select_expenses : simpl never.
#[local] Arguments Store.select_unnecessary_expenses : simpl never.
#[local] Arguments bool_decide : simpl never.


End FetchDataWithStarts.


Section PartialCopy.

#[local] Arguments getPreviousMonth : simpl never.


End PartialCopy.




(** In that run the income copy stays in the store although the attempt
    failed, and no tax or expense was copied. *)
Example carry_failure_keeps_income_copy :
  let db := afterInserts 1 (plannedInserts "2025-02" january_ledgers) january_ledgers in
  Store.incomes db
  = [scenario_income;
     {| Income.id := 11%nat; Income.member := Nikkie; Income.income_type := Salary;
        Income.description := "Salary"; Income.amount := 2000000;
        Income.month := "2025-02"; Income.created_at := 6%nat |}]
  ∧ Store.taxes db = [scenario_tax]
  ∧ Store.expenses db = [rent].
Proof. repeat split. Qed.

(** The automatic carry-forward of the same store without failures copies
    the rent with its flags, note and account link. *)
Example autoCarryForward_copies_flags :
  Store.expenses
    (store (snd (autoCarryForwardFromPreviousMonth no_faults "2025-02" new_session)))
  = [rent;
     {| Expense.id := 13%nat; Expense.member := Hein; Expense.category := Housing;
        Expense.description := "Rent"; Expense.amount := 850000;
        Expense.month := "2025-02"; Expense.is_shared := true;
        Expense.is_recurring := true; Expense.is_paid := true;
        Expense.include_vat := false; Expense.note := Some "due on the 1st";
        Expense.balance_account_id := Some 7%nat; Expense.created_at := 8%nat |}].
Proof. reflexivity. Qed.

(** ** Keys the program formats, read back by the program *)

Lemma dash_append (s : string) : "-" +:+ s = String "-" s.
Proof. reflexivity. Qed.

Lemma append_cons c (s t : string) : String c s +:+ t = String c (s +:+ t).
Proof. reflexivity. Qed.

Lemma digits_of_digits_only (fuel : nat) :
  ∀ n acc, digits_only acc = true → digits_only (Js.digits_of fuel n acc) = true.
Proof.
  assert (∀ n acc, digits_only acc = true →
          digits_only (String (Js.ascii_of_digit (n mod 10)) acc) = true) as Hstep.
  { intros n acc Hacc. cbn [digits_only].
    rewrite digit_of_ascii_of_digit by div_lia. rewrite Hacc.
    rewrite bool_decide_eq_true_2 by (eexists; reflexivity). reflexivity. }
  induction fuel as [|fuel IH]; intros n acc Hacc; cbn [Js.digits_of].
  - apply Hstep, Hacc.
  - destruct (n / 10 =? 0); [apply Hstep, Hacc|]. apply IH, Hstep, Hacc.
Qed.

Lemma toString_digits_only n : 0 <= n → digits_only (Js.toString n) = true.
Proof.
  intros Hn. unfold Js.toString. destruct (Z.ltb_spec n 0); [lia|].
  apply digits_of_digits_only. reflexivity.
Qed.

Lemma digits_only_cons c s :
  digits_only (String c s) = true →
  (∃ d, Js.digit_of_ascii c = Some d) ∧ digits_only s = true.
Proof.
  cbn [digits_only]. intros [Hc Hs]%andb_true_iff.
  apply bool_decide_eq_true_1 in Hc as [d Hd]. eauto.
Qed.

Lemma split_digits_then_dash (s t : string) :
  digits_only s = true → Js.split "-" (s +:+ String "-" t) = s :: Js.split "-" t.
Proof.
  induction s as [|c s IH]; intros Hs.
  - reflexivity.
  - apply digits_only_cons in Hs as [[d Hd] Hs].
    rewrite append_cons. cbn [Js.split].
    rewrite (digit_is_not_dash _ _ Hd), (IH Hs). reflexivity.
Qed.

Lemma split_digits_only (s : string) :
  digits_only s = true → Js.split "-" s = [s].
Proof.
  induction s as [|c s IH]; intros Hs; [reflexivity|].
  apply digits_only_cons in Hs as [[d Hd] Hs].
  cbn [Js.split]. rewrite (digit_is_not_dash _ _ Hd), (IH Hs). reflexivity.
Qed.

Lemma parseInt_from_digits (s : string) :
  ∀ a, digits_only s = true → Js.parseInt_from (Some a) s = Js.digits_value a s.
Proof.
  induction s as [|c s IH]; intros a Hs; [reflexivity|].
  apply digits_only_cons in Hs as [[d Hd] Hs].
  cbn [Js.parseInt_from Js.digits_value]. rewrite Hd. cbn [default]. apply IH, Hs.
Qed.

(** On a non-empty run of digits [parseInt] and [Number] agree. *)
Lemma parseInt_Number_digits (s : string) :
  digits_only s = true → s ≠ EmptyString → Js.parseInt s = Js.Number s.
Proof.
  destruct s as [|c s]; [congruence|]. intros Hs _.
  apply digits_only_cons in Hs as [[d Hd] Hs].
  unfold Js.parseInt, Js.Number. cbn [Js.parseInt_from Js.digits_value].
  rewrite Hd. cbn [default]. apply parseInt_from_digits, Hs.
Qed.

Lemma toString_nonempty n : Js.toString n ≠ EmptyString.
Proof.
  unfold Js.toString. destruct (n <? 0); [discriminate|apply digits_of_nonempty].
Qed.

Lemma parseInt_toString n : 0 <= n → Js.parseInt (Js.toString n) = Some n.
Proof.
  intros Hn. rewrite parseInt_Number_digits.
  - apply Number_toString, Hn.
  - apply toString_digits_only, Hn.
  - apply toString_nonempty.
Qed.

(** The two-digit month part of a key, for the twelve months. *)
Lemma padded_month_reads m :
  1 <= m <= 12 →
  digits_only (Js.padStart2 (Js.toString m)) = true
  ∧ Js.Number (Js.padStart2 (Js.toString m)) = Some m
  ∧ Js.parseInt (Js.padStart2 (Js.toString m)) = Some m.
Proof.
  intros Hm.
  assert (m = 1 ∨ m = 2 ∨ m = 3 ∨ m = 4 ∨ m = 5 ∨ m = 6 ∨ m = 7 ∨ m = 8
          ∨ m = 9 ∨ m = 10 ∨ m = 11 ∨ m = 12) as Hcases by lia.
  repeat destruct Hcases as [->|Hcases]; try subst m; repeat split.
Qed.

(** How the program splits a key it has formatted itself. *)
Lemma split_formatMonthKey (date : Js.Date) :
  0 <= Js.getFullYear date → 0 <= Js.getMonth date <= 11 →
  Js.split "-" (formatMonthKey date)
  = [Js.toString (Js.getFullYear date);
     Js.padStart2 (Js.toString (Js.getMonth date + 1))].
Proof.
  intros Hy Hm. unfold formatMonthKey. rewrite dash_append.
  rewrite split_digits_then_dash by (apply toString_digits_only, Hy).
  rewrite split_digits_only by (apply padded_month_reads; lia).
  reflexivity.
Qed.

Lemma makeDate_normal y m :
  0 <= m <= 11 → Js.makeDate y m = {| Js.getFullYear := y; Js.getMonth := m |}.
Proof. intros Hm. unfold Js.makeDate. f_equal; div_lia. Qed.

Lemma monthDate_formatted (date : Js.Date) :
  100 <= Js.getFullYear date →
  0 <= Js.getMonth date <= 11 →
  monthDate (formatMonthKey date) = Some date.
Proof.
  intros Hy Hm.
  unfold monthDate. rewrite split_formatMonthKey by lia. cbn [map].
  rewrite Number_toString by lia.
  destruct (padded_month_reads (Js.getMonth date + 1) ltac:(lia)) as (_ & -> & _).
  f_equal. unfold Js.newDate.
  destruct (Z.leb_spec (Js.getFullYear date) 99); [lia|]. rewrite andb_false_r.
  replace (Js.getMonth date + 1 - 1) with (Js.getMonth date) by lia.
  rewrite makeDate_normal by lia. destruct date; reflexivity.
Qed.

(** X1.  A key formatted from a date of the year 100 or later is read back
    by [calculateCurrentBalance] as the same year and month, whether or not
    the year has four digits. *)
Theorem monthDate_formatMonthKey (date : Js.Date) :
  100 <= Js.getFullYear date →
  0 <= Js.getMonth date <= 11 →
  monthDate (getCurrentMonth date) = Some date
  ∧ monthDate (getCurrentBalanceMonth date) = Some date
  ∧ monthsElapsed (getCurrentBalanceMonth date) (getCurrentBalanceMonth date) = Some 0.
Proof.
  intros Hy Hm. pose proof (monthDate_formatted date Hy Hm) as Hread.
  change (getCurrentMonth date) with (formatMonthKey date).
  change (getCurrentBalanceMonth date) with (formatMonthKey date).
  repeat split; try exact Hread.
  unfold monthsElapsed. rewrite Hread. f_equal. lia.
Qed.

Lemma monthDate_formatMonthKey_witness :
  monthDate (getCurrentMonth {| Js.getFullYear := 2026; Js.getMonth := 0 |})
  = Some {| Js.getFullYear := 2026; Js.getMonth := 0 |}
  ∧ monthDate (getCurrentBalanceMonth {| Js.getFullYear := 2026; Js.getMonth := 0 |})
    = Some {| Js.getFullYear := 2026; Js.getMonth := 0 |}
  ∧ monthsElapsed (getCurrentBalanceMonth {| Js.getFullYear := 2026; Js.getMonth := 0 |})
      (getCurrentBalanceMonth {| Js.getFullYear := 2026; Js.getMonth := 0 |}) = Some 0.
Proof.
  apply (monthDate_formatMonthKey {| Js.getFullYear := 2026; Js.getMonth := 0 |});
    cbn; lia.
Defined.

Lemma getPreviousMonth_formatted (date : Js.Date) :
  100 <= Js.getFullYear date →
  0 <= Js.getMonth date <= 11 →
  getPreviousMonth (formatMonthKey date) = formatMonthKey (addMonths date (-1)).
Proof.
  intros Hy Hm. unfold getPreviousMonth. rewrite split_formatMonthKey by lia.
  rewrite parseInt_toString by lia.
  destruct (padded_month_reads (Js.getMonth date + 1) ltac:(lia)) as (_ & _ & ->).
  unfold Js.newDate.
  destruct (Z.leb_spec (Js.getFullYear date) 99); [lia|]. rewrite andb_false_r.
  replace (Js.getMonth date + 1 - 1) with (Js.getMonth date) by lia.
  rewrite makeDate_normal by lia. reflexivity.
Qed.

Lemma addMonths_normal (date : Js.Date) (i : Z) : normalDate (addMonths date i).
Proof. unfold normalDate, addMonths, Js.makeDate. cbn. div_lia. Qed.

(** X2.  [getPreviousMonth] of the current month's key is the key of the
    month before, and the month difference between the two is one; the year
    must be 100 or later, and the month before must be too. *)
Theorem getPreviousMonth_getCurrentMonth (now : Js.Date) :
  100 <= Js.getFullYear now →
  0 <= Js.getMonth now <= 11 →
  getPreviousMonth (getCurrentMonth now)
  = getCurrentMonth
      {| Js.getFullYear := if Js.getMonth now =? 0 then Js.getFullYear now - 1
                           else Js.getFullYear now;
         Js.getMonth := if Js.getMonth now =? 0 then 11 else Js.getMonth now - 1 |}
  ∧ (101 <= Js.getFullYear now ∨ 1 <= Js.getMonth now →
     monthsElapsed (getPreviousMonth (getCurrentMonth now)) (getCurrentMonth now) = Some 1).
Proof.
  intros Hy Hm. change (getCurrentMonth now) with (formatMonthKey now).
  rewrite getPreviousMonth_formatted by assumption.
  assert (addMonths now (-1)
          = {| Js.getFullYear := if Js.getMonth now =? 0 then Js.getFullYear now - 1
                                 else Js.getFullYear now;
               Js.getMonth := if Js.getMonth now =? 0 then 11 else Js.getMonth now - 1 |})
    as Hprev.
  { unfold addMonths, Js.makeDate.
    destruct (Z.eqb_spec (Js.getMonth now) 0) as [->|]; [reflexivity|]. f_equal; div_lia. }
  split; [rewrite Hprev; reflexivity|].
  intros Hprevious. unfold monthsElapsed.
  rewrite (monthDate_formatted now Hy Hm).
  assert (monthDate (formatMonthKey (addMonths now (-1))) = Some (addMonths now (-1))) as ->.
  { apply (monthDate_formatted (addMonths now (-1))).
    - rewrite Hprev. cbn. destruct (Z.eqb_spec (Js.getMonth now) 0); lia.
    - apply addMonths_normal. }
  rewrite Hprev. cbn. f_equal. destruct (Z.eqb_spec (Js.getMonth now) 0); lia.
Qed.

Lemma getPreviousMonth_getCurrentMonth_witness :
  getPreviousMonth (getCurrentMonth {| Js.getFullYear := 2026; Js.getMonth := 0 |})
  = getCurrentMonth
      {| Js.getFullYear := if 0 =? 0 then 2026 - 1 else 2026;
         Js.getMonth := if 0 =? 0 then 11 else 0 - 1 |}
  ∧ (101 <= 2026 ∨ 1 <= 0 →
     monthsElapsed (getPreviousMonth (getCurrentMonth {| Js.getFullYear := 2026; Js.getMonth := 0 |}))
       (getCurrentMonth {| Js.getFullYear := 2026; Js.getMonth := 0 |}) = Some 1).
Proof.
  apply (getPreviousMonth_getCurrentMonth {| Js.getFullYear := 2026; Js.getMonth := 0 |});
    cbn; lia.
Defined.

(** ** The month options of the selectors *)

Lemma addMonths_0 (date : Js.Date) : normalDate date → addMonths date 0 = date.
Proof.
  intros Hm. unfold addMonths. rewrite Z.add_0_r, makeDate_normal by exact Hm.
  destruct date; reflexivity.
Qed.

Lemma addMonths_addMonths (date : Js.Date) (i j : Z) :
  addMonths (addMonths date i) j = addMonths date (i + j).
Proof. unfold addMonths, Js.makeDate. cbn. f_equal; div_lia. Qed.

Lemma dateLe_span (a b : Js.Date) :
  normalDate a → normalDate b → dateLe a b = (0 <=? monthSpan a b).
Proof.
  unfold normalDate, dateLe, Spec.leb, monthSpan. cbn [fst snd]. intros Ha Hb.
  destruct (Z.ltb_spec (Js.getFullYear a) (Js.getFullYear b));
    destruct (Z.eqb_spec (Js.getFullYear a) (Js.getFullYear b));
    destruct (Z.leb_spec (Js.getMonth a) (Js.getMonth b));
    destruct (Z.leb_spec 0 ((Js.getFullYear b - Js.getFullYear a) * 12
                            + (Js.getMonth b - Js.getMonth a)));
    cbn; try reflexivity; lia.
Qed.

Lemma monthSpan_addMonths (a b : Js.Date) (i : Z) :
  monthSpan (addMonths a i) b = monthSpan a b - i.
Proof. unfold monthSpan, addMonths, Js.makeDate. cbn. div_lia. Qed.

(** The list the loop builds, once it has rounds enough to stop. *)
Lemma monthOptionsLoop_closed (fuel : nat) :
  ∀ current endDate,
    normalDate current → normalDate endDate →
    monthSpan current endDate + 1 <= Z.of_nat fuel →
    monthOptionsLoop fuel current endDate
    = map (λ i : nat, monthOptionAt (addMonths current (Z.of_nat i)))
        (seq 0 (Z.to_nat (monthSpan current endDate + 1))).
Proof.
  induction fuel as [|fuel IH]; intros current endDate Hc He Hfuel.
  - replace (Z.to_nat (monthSpan current endDate + 1)) with 0%nat by lia. reflexivity.
  - cbn [monthOptionsLoop]. rewrite dateLe_span by assumption.
    destruct (Z.leb_spec 0 (monthSpan current endDate)) as [Hspan|Hspan].
    + replace (Z.to_nat (monthSpan current endDate + 1))
        with (S (Z.to_nat (monthSpan current endDate))) by lia.
      cbn [seq map]. change (Z.of_nat 0) with 0. rewrite addMonths_0 by exact Hc.
      fold (monthOptionAt current). f_equal.
      change (Js.setMonth current (Js.getMonth current + 1)) with (addMonths current 1).
      rewrite IH; [|apply addMonths_normal|exact He|rewrite monthSpan_addMonths; lia].
      rewrite monthSpan_addMonths.
      replace (monthSpan current endDate - 1 + 1) with (monthSpan current endDate) by lia.
      rewrite <- seq_shift, map_map. apply map_ext. intros i.
      rewrite addMonths_addMonths. do 2 f_equal. lia.
    + replace (Z.to_nat (monthSpan current endDate + 1)) with 0%nat by lia. reflexivity.
Qed.

Lemma monthOptionsBetween_closed (startDate endDate : Js.Date) :
  normalDate startDate → normalDate endDate →
  monthOptionsBetween startDate endDate
  = map (λ i : nat, monthOptionAt (addMonths startDate (Z.of_nat i)))
      (seq 0 (Z.to_nat (monthSpan startDate endDate + 1))).
Proof.
  intros Hs He. unfold monthOptionsBetween. apply monthOptionsLoop_closed; try assumption.
  unfold monthOptionsRounds, monthSpan. lia.
Qed.

Lemma monthOptions_lookup (startDate endDate : Js.Date) (i : nat) (option : MonthOption.t) :
  normalDate startDate → normalDate endDate →
  monthOptionsBetween startDate endDate !! i = Some option →
  option = monthOptionAt (addMonths startDate (Z.of_nat i))
  ∧ Z.of_nat i <= monthSpan startDate endDate.
Proof.
  intros Hs He. rewrite monthOptionsBetween_closed by assumption.
  rewrite list_lookup_fmap. intros Hlook.
  destruct (seq 0 (Z.to_nat (monthSpan startDate endDate + 1)) !! i) as [j|] eqn:Hj;
    [|discriminate].
  apply lookup_seq in Hj as [-> Hlt]. cbn in Hlook. injection Hlook as <-.
  split; [reflexivity|lia].
Qed.

(** X3.  The month options of the two selectors.  The loop stops: more
    rounds give the same list.  From a start month of the year 100 or later
    to an end month, the list has one option per month, in order, whose
    value is the key of that month; each option after the first has the
    option before it as its [getPreviousMonth]. *)
Theorem monthOptionsBetween_consecutive (startDate endDate : Js.Date) :
  normalDate startDate → normalDate endDate →
  100 <= Js.getFullYear startDate →
  let options := monthOptionsBetween startDate endDate in
  (∀ more : nat,
     monthOptionsLoop (monthOptionsRounds startDate endDate + more) startDate endDate
     = options)
  ∧ length options = Z.to_nat (monthSpan startDate endDate + 1)
  ∧ (∀ i option, options !! i = Some option →
       MonthOption.value option = formatMonthKey (addMonths startDate (Z.of_nat i))
       ∧ monthsElapsed (formatMonthKey startDate) (MonthOption.value option)
         = Some (Z.of_nat i))
  ∧ (∀ i option next,
       options !! i = Some option → options !! S i = Some next →
       getPreviousMonth (MonthOption.value next) = MonthOption.value option).
Proof.
  intros Hs He Hy options.
  assert (∀ i : nat, 100 <= Js.getFullYear (addMonths startDate (Z.of_nat i))) as Hyear.
  { intros i. unfold addMonths, Js.makeDate. cbn. unfold normalDate in Hs. div_lia. }
  split; [|split; [|split]].
  - intros more. unfold options. rewrite monthOptionsBetween_closed by assumption.
    apply monthOptionsLoop_closed; try assumption.
    unfold monthOptionsRounds, monthSpan. lia.
  - unfold options. rewrite monthOptionsBetween_closed by assumption.
    rewrite length_map, length_seq. reflexivity.
  - intros i option Hi.
    destruct (monthOptions_lookup _ _ _ _ Hs He Hi) as [-> _]. split; [reflexivity|].
    cbn [monthOptionAt MonthOption.value]. unfold monthsElapsed.
    rewrite (monthDate_formatted startDate Hy Hs).
    rewrite (monthDate_formatted _ (Hyear i) (addMonths_normal _ _)).
    f_equal. unfold addMonths, Js.makeDate. cbn. unfold normalDate in Hs. div_lia.
  - intros i option next Hi Hnext.
    destruct (monthOptions_lookup _ _ _ _ Hs He Hi) as [-> _].
    destruct (monthOptions_lookup _ _ _ _ Hs He Hnext) as [-> _].
    cbn [monthOptionAt MonthOption.value].
    rewrite getPreviousMonth_formatted by (apply Hyear || apply addMonths_normal).
    rewrite addMonths_addMonths. do 2 f_equal. lia.
Qed.

Lemma monthOptionsBetween_consecutive_witness :
  let options := getBalanceMonthOptions in
  (∀ more : nat,
     monthOptionsLoop (monthOptionsRounds (Js.newDate 2025 11) (Js.newDate 2026 11) + more)
       (Js.newDate 2025 11) (Js.newDate 2026 11)
     = options)
  ∧ length options = Z.to_nat (monthSpan (Js.newDate 2025 11) (Js.newDate 2026 11) + 1)
  ∧ (∀ i option, options !! i = Some option →
       MonthOption.value option
       = formatMonthKey (addMonths (Js.newDate 2025 11) (Z.of_nat i))
       ∧ monthsElapsed (formatMonthKey (Js.newDate 2025 11)) (MonthOption.value option)
         = Some (Z.of_nat i))
  ∧ (∀ i option next,
       options !! i = Some option → options !! S i = Some next →
       getPreviousMonth (MonthOption.value next) = MonthOption.value option).
Proof.
  apply (monthOptionsBetween_consecutive (Js.newDate 2025 11) (Js.newDate 2026 11));
    vm_compute; try split; congruence.
Defined.

(** The values the two selectors offer. *)
Example getBalanceMonthOptions_values :
  map MonthOption.value getBalanceMonthOptions
  = ["2025-12"; "2026-01"; "2026-02"; "2026-03"; "2026-04"; "2026-05"; "2026-06";
     "2026-07"; "2026-08"; "2026-09"; "2026-10"; "2026-11"; "2026-12"].
Proof. reflexivity. Qed.

Example getMonthOptions_values :
  map MonthOption.value getMonthOptions
  = ["2025-10"; "2025-11"; "2025-12"; "2026-01"; "2026-02"; "2026-03"; "2026-04";
     "2026-05"; "2026-06"; "2026-07"; "2026-08"; "2026-09"; "2026-10"; "2026-11";
     "2026-12"].
Proof. reflexivity. Qed.

Example getMonthOptions_first_label :
  MonthOption.label <$> head getMonthOptions = Some "October 2025".
Proof. reflexivity. Qed.

Lemma formatMonth_formatted (date : Js.Date) :
  100 <= Js.getFullYear date →
  0 <= Js.getMonth date <= 11 →
  formatMonth (formatMonthKey date) = toLocaleMonthYear date.
Proof.
  intros Hy Hm. unfold formatMonth. rewrite split_formatMonthKey by lia.
  rewrite parseInt_toString by lia.
  destruct (padded_month_reads (Js.getMonth date + 1) ltac:(lia)) as (_ & _ & ->).
  unfold Js.newDate.
  destruct (Z.leb_spec (Js.getFullYear date) 99); [lia|]. rewrite andb_false_r.
  replace (Js.getMonth date + 1 - 1) with (Js.getMonth date) by lia.
  rewrite makeDate_normal by lia. destruct date; reflexivity.
Qed.

(** X4.  The label of every option of the month selectors is
    [formatMonth] of its value, for a start month of the year 100 or later:
    the selector and the headings that format the selected key show the
    same text. *)
Theorem formatMonth_of_option (startDate endDate : Js.Date) (option : MonthOption.t) :
  normalDate startDate → normalDate endDate →
  100 <= Js.getFullYear startDate →
  option ∈ monthOptionsBetween startDate endDate →
  formatMonth (MonthOption.value option) = MonthOption.label option.
Proof.
  intros Hs He Hy [i Hi]%list_elem_of_lookup.
  destruct (monthOptions_lookup _ _ _ _ Hs He Hi) as [-> _].
  cbn [monthOptionAt MonthOption.value MonthOption.label].
  apply formatMonth_formatted; [|apply addMonths_normal].
  unfold addMonths, Js.makeDate. cbn. unfold normalDate in Hs. div_lia.
Qed.

Lemma formatMonth_of_option_witness :
  formatMonth
    (MonthOption.value {| MonthOption.value := "2026-03"; MonthOption.label := "March 2026" |})
  = MonthOption.label {| MonthOption.value := "2026-03"; MonthOption.label := "March 2026" |}.
Proof.
  apply (formatMonth_of_option (Js.newDate 2025 9) (Js.newDate 2026 11)).
  - vm_compute. split; congruence.
  - vm_compute. split; congruence.
  - vm_compute. congruence.
  - apply list_elem_of_lookup. exists 5%nat. reflexivity.
Defined.

(** ** The schedule and the payments over time *)

(** X5.  The scheduled balance never rises as the month advances and stays
    between zero and the initial balance, for a deduction that is not
    negative. *)
Theorem calculateCurrentBalance_monotone
    (initialBalance monthlyDeduction : Z) (startMonth m1 m2 : string) (ps p1 p2 : Z * Z) :
  Spec.parse startMonth = Some ps → Spec.parse m1 = Some p1 → Spec.parse m2 = Some p2 →
  100 <= fst ps → 100 <= fst p1 → 100 <= fst p2 →
  0 <= initialBalance → 0 <= monthlyDeduction →
  Spec.leb p1 p2 = true →
  ∃ b1 b2,
    calculateCurrentBalance initialBalance monthlyDeduction startMonth m1 = Some b1
    ∧ calculateCurrentBalance initialBalance monthlyDeduction startMonth m2 = Some b2
    ∧ 0 <= b2 ∧ b2 <= b1 ∧ b1 <= initialBalance.
Proof.
  intros Hs H1 H2 Hys Hy1 Hy2 Hinit Hded Hle.
  unfold calculateCurrentBalance.
  rewrite (monthsElapsed_parsed _ _ _ _ Hs H1), (monthsElapsed_parsed _ _ _ _ Hs H2)
    by assumption.
  destruct ps as [ys ms], p1 as [y1 mo1], p2 as [y2 mo2].
  pose proof (parse_range _ _ _ H1) as [_ ?]. pose proof (parse_range _ _ _ H2) as [_ ?].
  assert (Spec.monthsElapsed (ys, ms) (y1, mo1) <= Spec.monthsElapsed (ys, ms) (y2, mo2))
    as Hmono.
  { unfold Spec.monthsElapsed, Spec.leb in *. cbn [fst snd] in *.
    apply orb_true_iff in Hle as [Hlt|Heq].
    - apply Z.ltb_lt in Hlt. lia.
    - apply andb_true_iff in Heq as [Hy Hm]. apply Z.eqb_eq in Hy. apply Z.leb_le in Hm. lia. }
  set (e1 := Spec.monthsElapsed (ys, ms) (y1, mo1)) in *.
  set (e2 := Spec.monthsElapsed (ys, ms) (y2, mo2)) in *.
  unfold Js.max.
  destruct (Z.ltb_spec e1 0), (Z.ltb_spec e2 0); eexists; eexists;
    (split; [reflexivity|]); (split; [reflexivity|]); nia.
Qed.

Lemma calculateCurrentBalance_monotone_witness :
  ∃ b1 b2,
    calculateCurrentBalance 1200000 100000 "2025-01" "2025-03" = Some b1
    ∧ calculateCurrentBalance 1200000 100000 "2025-01" "2026-06" = Some b2
    ∧ 0 <= b2 ∧ b2 <= b1 ∧ b1 <= 1200000.
Proof.
  apply (calculateCurrentBalance_monotone 1200000 100000 "2025-01" "2025-03" "2026-06"
           (2025, 1) (2025, 3) (2026, 6)); try reflexivity; cbn; lia.
Defined.

(** The order of JavaScript strings: if [c < a] then [c < b] or [b < a]. *)
Lemma string_lt_between (c : string) :
  ∀ a b, Js.string_lt c a = true → Js.string_lt c b = true ∨ Js.string_lt b a = true.
Proof.
  induction c as [|x c IH]; intros a b Hca.
  - destruct a as [|y a]; [discriminate|]. destruct b as [|z b]; [right|left]; reflexivity.
  - destruct a as [|y a]; [discriminate|]. destruct b as [|z b]; [right; reflexivity|].
    cbn [Js.string_lt] in *.
    destruct (Z.ltb_spec (Js.code x) (Js.code y)), (Z.ltb_spec (Js.code y) (Js.code x)),
      (Z.ltb_spec (Js.code x) (Js.code z)), (Z.ltb_spec (Js.code z) (Js.code x)),
      (Z.ltb_spec (Js.code z) (Js.code y)), (Z.ltb_spec (Js.code y) (Js.code z));
      try discriminate; try lia; auto.
Qed.

Lemma string_le_trans (a b c : string) :
  Js.string_le a b = true → Js.string_le b c = true → Js.string_le a c = true.
Proof.
  unfold Js.string_le. rewrite !negb_true_iff. intros Hba Hcb.
  destruct (Js.string_lt c a) eqn:Hca; [|reflexivity].
  destruct (string_lt_between c a b Hca) as [H|H]; congruence.
Qed.

Lemma sumWhere_mono {A} (p q : A → bool) (amount : A → Z) (rows : list A) :
  Forall (λ r, 0 <= amount r) rows →
  (∀ r, p r = true → q r = true) →
  0 <= sumWhere p amount rows <= sumWhere q amount rows.
Proof.
  intros Hpos Hpq. induction Hpos as [|r rows Hr _ IH]; cbn [sumWhere]; [lia|].
  specialize (Hpq r). destruct (p r), (q r); intuition (discriminate || lia).
Qed.

(** X6.  With payments that are not negative, the paid total up to a month
    grows with the month (in the order of JavaScript strings) and never
    exceeds the total paid for the account, so the actual balance never
    rises as the month advances and stays between zero and a non-negative
    initial balance. *)
Theorem getActualBalanceForMonth_monotone
    (paidExpenses : list Expense.t) (account : BalanceAccount.t) (m1 m2 : string) :
  Forall (λ e, 0 <= Expense.amount e) paidExpenses →
  Js.string_le m1 m2 = true →
  getTotalPaidUpToMonth paidExpenses (BalanceAccount.id account) m1
  <= getTotalPaidUpToMonth paidExpenses (BalanceAccount.id account) m2
  ∧ getTotalPaidUpToMonth paidExpenses (BalanceAccount.id account) m2
    <= getTotalPaidForAccount paidExpenses (BalanceAccount.id account)
  ∧ 0 <= getActualBalanceForMonth paidExpenses account m2
  ∧ getActualBalanceForMonth paidExpenses account m2
    <= getActualBalanceForMonth paidExpenses account m1
  ∧ (0 <= BalanceAccount.initial_balance account →
     getActualBalanceForMonth paidExpenses account m1
     <= BalanceAccount.initial_balance account).
Proof.
  intros Hpos Hle.
  unfold getActualBalanceForMonth, getTotalPaidUpToMonth, getTotalPaidForAccount, Js.max.
  rewrite !sumAmounts_filter.
  pose proof (sumWhere_mono
    (λ e, strictEqualsId (Expense.balance_account_id e) (BalanceAccount.id account)
          && Expense.is_paid e && Js.string_le (Expense.month e) m1)
    (λ e, strictEqualsId (Expense.balance_account_id e) (BalanceAccount.id account)
          && Expense.is_paid e && Js.string_le (Expense.month e) m2)
    Expense.amount paidExpenses Hpos) as H12.
  pose proof (sumWhere_mono
    (λ e, strictEqualsId (Expense.balance_account_id e) (BalanceAccount.id account)
          && Expense.is_paid e && Js.string_le (Expense.month e) m2)
    (λ e, strictEqualsId (Expense.balance_account_id e) (BalanceAccount.id account)
          && Expense.is_paid e)
    Expense.amount paidExpenses Hpos) as H2all.
  cbn beta in H12, H2all.
  assert (∀ r : Expense.t,
            strictEqualsId (Expense.balance_account_id r) (BalanceAccount.id account)
            && Expense.is_paid r && Js.string_le (Expense.month r) m1 = true →
            strictEqualsId (Expense.balance_account_id r) (BalanceAccount.id account)
            && Expense.is_paid r && Js.string_le (Expense.month r) m2 = true) as Hstep.
  { intros r [Hlinked Hmonth]%andb_true_iff. rewrite Hlinked. cbn [andb].
    exact (string_le_trans _ _ _ Hmonth Hle). }
  assert (∀ r : Expense.t,
            strictEqualsId (Expense.balance_account_id r) (BalanceAccount.id account)
            && Expense.is_paid r && Js.string_le (Expense.month r) m2 = true →
            strictEqualsId (Expense.balance_account_id r) (BalanceAccount.id account)
            && Expense.is_paid r = true) as Hall.
  { intros r [Hlinked _]%andb_true_iff. exact Hlinked. }
  specialize (H12 Hstep). specialize (H2all Hall). lia.
Qed.

Lemma getActualBalanceForMonth_monotone_witness :
  getTotalPaidUpToMonth [scenario_payment] (BalanceAccount.id scenario_account) "2025-01"
  <= getTotalPaidUpToMonth [scenario_payment] (BalanceAccount.id scenario_account) "2025-03"
  ∧ getTotalPaidUpToMonth [scenario_payment] (BalanceAccount.id scenario_account) "2025-03"
    <= getTotalPaidForAccount [scenario_payment] (BalanceAccount.id scenario_account)
  ∧ 0 <= getActualBalanceForMonth [scenario_payment] scenario_account "2025-03"
  ∧ getActualBalanceForMonth [scenario_payment] scenario_account "2025-03"
    <= getActualBalanceForMonth [scenario_payment] scenario_account "2025-01"
  ∧ (0 <= BalanceAccount.initial_balance scenario_account →
     getActualBalanceForMonth [scenario_payment] scenario_account "2025-01"
     <= BalanceAccount.initial_balance scenario_account).
Proof.
  apply (getActualBalanceForMonth_monotone [scenario_payment] scenario_account
           "2025-01" "2025-03").
  - repeat constructor. cbn. lia.
  - reflexivity.
Defined.

(** ** The financial overview *)

Lemma foldl_sum_bounds {A} (f g : A → Z) (rows : list A) :
  Forall (λ a, 0 <= f a <= g a) rows →
  ∀ s1 s2, 0 <= s1 <= s2 →
  0 <= foldl (λ sum a, sum + f a) s1 rows <= foldl (λ sum a, sum + g a) s2 rows.
Proof.
  induction 1 as [|a rows Ha _ IH]; intros s1 s2 Hs; cbn [foldl]; [lia|].
  apply IH. lia.
Qed.

Lemma actualBalance_bounds (paidExpenses : list Expense.t) (account : BalanceAccount.t)
    (month : string) :
  Forall (λ e, 0 <= Expense.amount e) paidExpenses →
  0 <= BalanceAccount.initial_balance account →
  0 <= SummaryOverview.getActualBalanceForMonth paidExpenses account month
    <= BalanceAccount.initial_balance account.
Proof.
  intros Hpos Hinit. unfold SummaryOverview.getActualBalanceForMonth, Js.max.
  rewrite sumAmounts_filter.
  pose proof (sumWhere_mono
    (λ e, strictEqualsId (Expense.balance_account_id e) (BalanceAccount.id account)
          && Expense.is_paid e && Js.string_le (Expense.month e) month)
    (λ _, true) Expense.amount paidExpenses Hpos (λ _ _, eq_refl)) as H.
  cbn beta in H. lia.
Qed.

Lemma totalCurrentBalance_bounds (accounts : list BalanceAccount.t)
    (paidExpenses : list Expense.t) (currentBalanceMonth : string) :
  Forall (λ a, 0 <= BalanceAccount.initial_balance a) accounts →
  Forall (λ e, 0 <= Expense.amount e) paidExpenses →
  0 <= SummaryOverview.totalCurrentBalance accounts paidExpenses currentBalanceMonth
    <= SummaryOverview.totalInitialBalance accounts.
Proof.
  intros Hacc Hpos.
  unfold SummaryOverview.totalCurrentBalance, SummaryOverview.totalInitialBalance.
  apply foldl_sum_bounds; [|lia].
  eapply Forall_impl; [|exact Hacc]. intros a Ha. cbn beta.
  apply actualBalance_bounds; assumption.
Qed.

Lemma ratio_times_100_range (p i : Z) :
  0 <= p <= i → 0 < i →
  (0 <= Qc_of_Z p / Qc_of_Z i * Qc_of_Z 100 <= Qc_of_Z 100)%Qc.
Proof.
  intros Hp Hi.
  assert (0 < Qc_of_Z i)%Qc as Hi'.
  { rewrite <- Z2Qc_inj_0. apply (proj1 (Z2Qc_inj_lt _ _)). assumption. }
  assert (0 <= Qc_of_Z p)%Qc as Hp'.
  { rewrite <- Z2Qc_inj_0. apply (proj1 (Z2Qc_inj_le _ _)). lia. }
  assert (Qc_of_Z p <= Qc_of_Z i)%Qc as Hpi by (apply (proj1 (Z2Qc_inj_le _ _)); lia).
  assert (0 <= Qc_of_Z 100)%Qc as H100.
  { rewrite <- Z2Qc_inj_0. apply (proj1 (Z2Qc_inj_le _ _)). lia. }
  assert (0 <= / Qc_of_Z i)%Qc as Hinv by (apply Qclt_le_weak, Qcinv_pos; assumption).
  assert (0 <= Qc_of_Z p / Qc_of_Z i <= 1)%Qc as [H0 H1].
  { unfold Qcdiv. split.
    - apply Qcmult_nonneg_nonneg; assumption.
    - rewrite <- (Qcmult_inv_r (Qc_of_Z i)).
      + apply Qcmult_le_mono_nonneg_r; assumption.
      + intros E. rewrite E in Hi'. exact (Qclt_not_eq _ _ Hi' eq_refl). }
  split.
  - apply Qcmult_nonneg_nonneg; assumption.
  - rewrite <- (Qcmult_1_l (Qc_of_Z 100)) at 2.
    apply Qcmult_le_mono_nonneg_r; assumption.
Qed.

(** X7.  The overall progress of the financial overview is always a finite
    number, also when there are no accounts or every initial balance is
    zero; with initial balances and payments that are not negative it lies
    between 0 and 100. *)
Theorem overallProgress_range (accounts : list BalanceAccount.t)
    (paidExpenses : list Expense.t) (currentBalanceMonth : string) :
  Forall (λ a, 0 <= BalanceAccount.initial_balance a) accounts →
  Forall (λ e, 0 <= Expense.amount e) paidExpenses →
  ∃ q : Qc,
    SummaryOverview.overallProgress accounts paidExpenses currentBalanceMonth
    = JsNumber.Finite q
    ∧ (0 <= q <= Qc_of_Z 100)%Qc.
Proof.
  intros Hacc Hpos.
  pose proof (totalCurrentBalance_bounds _ _ currentBalanceMonth Hacc Hpos) as Hcur.
  unfold SummaryOverview.overallProgress, SummaryOverview.totalPaidOff.
  destruct (Z.gtb_spec (SummaryOverview.totalInitialBalance accounts) 0) as [Hgt|Hle].
  - unfold JsNumber.divide.
    destruct (Z.eqb_spec (SummaryOverview.totalInitialBalance accounts) 0); [lia|].
    cbn [JsNumber.times]. eexists. split; [reflexivity|].
    apply ratio_times_100_range; lia.
  - eexists. split; [reflexivity|]. split.
    + rewrite Z2Qc_inj_0. apply Qcle_refl.
    + apply (proj1 (Z2Qc_inj_le _ _)). lia.
Qed.

Lemma overallProgress_range_witness :
  ∃ q : Qc,
    SummaryOverview.overallProgress [scenario_account; zero_balance_account]
      [scenario_payment] "2025-03"
    = JsNumber.Finite q
    ∧ (0 <= q <= Qc_of_Z 100)%Qc.
Proof.
  apply (overallProgress_range [scenario_account; zero_balance_account]
           [scenario_payment] "2025-03").
  - repeat constructor; cbn; lia.
  - repeat constructor; cbn; lia.
Defined.

Lemma foldl_sum_zero {A} (f : A → Z) (rows : list A) :
  Forall (λ a, 0 <= f a) rows →
  ∀ s, 0 <= s →
  s <= foldl (λ sum a, sum + f a) s rows
  ∧ (foldl (λ sum a, sum + f a) s rows = s
     ↔ length (List.filter (λ a, f a <=? 0) rows) = length rows).
Proof.
  induction 1 as [|a rows Ha _ IH]; intros s Hs; cbn [foldl List.filter length].
  - split; [lia|tauto].
  - destruct (IH (s + f a) ltac:(lia)) as [Hge Hiff].
    pose proof (List.filter_length_le (λ a, f a <=? 0) rows) as Hlen.
    split; [lia|].
    destruct (Z.leb_spec (f a) 0) as [Hz|Hz]; cbn [length].
    + assert (f a = 0) as E by lia. rewrite E, Z.add_0_r in *.
      rewrite Hiff. split; intros; lia.
    + split; intros H; exfalso.
      * rewrite H in Hge. lia.
      * lia.
Qed.

(** X8.  When every account counts as paid off in the quick stats and the
    initial balances add up to more than zero, the overview shows an overall
    progress of exactly 100.  (Only this direction: in the program's doubles
    an account whose payments add up to its balance can keep a rounding
    residue and is then not counted.) *)
Theorem overallProgress_all_paid_off (accounts : list BalanceAccount.t)
    (paidExpenses : list Expense.t) (currentBalanceMonth : string) :
  0 < SummaryOverview.totalInitialBalance accounts →
  SummaryOverview.accountsPaidOff accounts paidExpenses currentBalanceMonth
  = length accounts →
  SummaryOverview.overallProgress accounts paidExpenses currentBalanceMonth
  = JsNumber.Finite (Qc_of_Z 100).
Proof.
  intros Hinit Hall.
  unfold SummaryOverview.overallProgress, SummaryOverview.totalPaidOff,
    SummaryOverview.accountsPaidOff in *.
  destruct (Z.gtb_spec (SummaryOverview.totalInitialBalance accounts) 0); [|lia].
  unfold JsNumber.divide.
  destruct (Z.eqb_spec (SummaryOverview.totalInitialBalance accounts) 0); [lia|].
  cbn [JsNumber.times].
  destruct (foldl_sum_zero
              (λ a, SummaryOverview.getActualBalanceForMonth paidExpenses a
                      currentBalanceMonth) accounts) with (s := 0) as [_ Hiff]; [|lia|].
  { apply Forall_forall. intros a _. cbn beta.
    unfold SummaryOverview.getActualBalanceForMonth, Js.max. lia. }
  fold (SummaryOverview.totalCurrentBalance accounts paidExpenses currentBalanceMonth)
    in Hiff.
  apply Hiff in Hall. rewrite Hall, Z.sub_0_r.
  assert (Qc_of_Z (SummaryOverview.totalInitialBalance accounts) ≠ 0%Qc) as Hi.
  { rewrite <- Z2Qc_inj_0. intros E. apply Z2Qc_inj in E. lia. }
  unfold Qcdiv. rewrite Qcmult_inv_r, Qcmult_1_l by assumption. reflexivity.
Qed.

Lemma overallProgress_all_paid_off_witness :
  SummaryOverview.overallProgress [settled_account] [scenario_payment] "2025-03"
  = JsNumber.Finite (Qc_of_Z 100).
Proof.
  apply (overallProgress_all_paid_off [settled_account] [scenario_payment] "2025-03").
  - vm_compute. reflexivity.
  - vm_compute. reflexivity.
Defined.

(** ** Totals of the household and of the categories *)







Lemma orZero_Some (x : Z) : orZero (Some x) = x.
Proof. unfold orZero. destruct (Z.eqb_spec x 0); congruence. Qed.

Lemma get_set (c k : ExpenseCategory) (v : Z) (o : CategoryRecord.t) :
  CategoryRecord.get c (CategoryRecord.set k v o)
  = if bool_decide (k = c) then Some v else CategoryRecord.get c o.
Proof.
  induction o as [|[k' v'] o IH]; cbn [CategoryRecord.get CategoryRecord.set].
  - reflexivity.
  - destruct (bool_decide_reflect (k' = k)) as [->|Hk]; cbn [CategoryRecord.get].
    + destruct (bool_decide (k = c)); reflexivity.
    + rewrite IH. destruct (bool_decide_reflect (k' = c)) as [->|Hc]; [|reflexivity].
      rewrite bool_decide_eq_false_2 by congruence. reflexivity.
Qed.

Lemma get_None_keys (k : ExpenseCategory) (o : CategoryRecord.t) :
  CategoryRecord.get k o = None ↔ k ∉ CategoryRecord.keys o.
Proof.
  unfold CategoryRecord.keys.
  induction o as [|[k' v'] o IH]; cbn [CategoryRecord.get map fst].
  - split; [intros _; apply not_elem_of_nil|reflexivity].
  - rewrite not_elem_of_cons.
    destruct (bool_decide_reflect (k' = k)) as [->|Hk].
    + split; [discriminate|intros [? _]; congruence].
    + rewrite IH. split; [intros ?; split; [congruence|assumption]|intros [_ ?]; assumption].
Qed.

Lemma keys_set (k : ExpenseCategory) (v : Z) (o : CategoryRecord.t) :
  CategoryRecord.keys (CategoryRecord.set k v o)
  = if bool_decide (k ∈ CategoryRecord.keys o) then CategoryRecord.keys o
    else CategoryRecord.keys o ++ [k].
Proof.
  unfold CategoryRecord.keys.
  induction o as [|[k' v'] o IH]; cbn [CategoryRecord.set map fst].
  - rewrite bool_decide_eq_false_2 by apply not_elem_of_nil. reflexivity.
  - destruct (bool_decide_reflect (k' = k)) as [->|Hk]; cbn [map fst].
    + rewrite bool_decide_eq_true_2 by apply list_elem_of_here. reflexivity.
    + rewrite IH. destruct (bool_decide_reflect (k ∈ map fst o)) as [Hin|Hin].
      * rewrite bool_decide_eq_true_2 by (apply list_elem_of_further; assumption).
        reflexivity.
      * rewrite bool_decide_eq_false_2; [reflexivity|].
        rewrite not_elem_of_cons. split; [congruence|assumption].
Qed.

Lemma firstOccurrences_ext (rows : list Expense.t) :
  ∀ seen1 seen2, (∀ c, c ∈ seen1 ↔ c ∈ seen2) →
  firstOccurrences seen1 rows = firstOccurrences seen2 rows.
Proof.
  induction rows as [|e rows IH]; intros seen1 seen2 Hseen; cbn [firstOccurrences].
  - reflexivity.
  - rewrite (bool_decide_ext _ _ (Hseen (Expense.category e))).
    destruct (bool_decide (Expense.category e ∈ seen2)).
    + apply IH. assumption.
    + f_equal. apply IH. intros c. rewrite !elem_of_cons, Hseen. reflexivity.
Qed.

Lemma sumWhere_none {A} (p : A → bool) (amount : A → Z) (rows : list A) :
  existsb p rows = false → sumWhere p amount rows = 0.
Proof.
  induction rows as [|r rows IH]; [reflexivity|].
  cbn [existsb sumWhere]. intros [-> Hex]%orb_false_iff. rewrite (IH Hex). reflexivity.
Qed.

Lemma byCategoryLoop_get (c : ExpenseCategory) (rows : list Expense.t) :
  ∀ o,
  CategoryRecord.get c (byCategoryLoop o rows)
  = if existsb (λ e, bool_decide (Expense.category e = c)) rows
    then Some (orZero (CategoryRecord.get c o)
               + sumWhere (λ e, bool_decide (Expense.category e = c)) Expense.amount rows)
    else CategoryRecord.get c o.
Proof.
  induction rows as [|e rows IH]; intros o; [reflexivity|].
  unfold byCategoryLoop in *. cbn [foldl existsb sumWhere].
  rewrite IH, get_set.
  destruct (bool_decide_reflect (Expense.category e = c)) as [->|Hc]; cbn [orb].
  - rewrite orZero_Some.
    destruct (existsb _ rows) eqn:Hex.
    + f_equal. lia.
    + f_equal. rewrite (sumWhere_none _ _ _ Hex). lia.
  - destruct (existsb _ rows); [f_equal; lia|reflexivity].
Qed.

Lemma byCategoryLoop_keys (rows : list Expense.t) :
  ∀ o,
  CategoryRecord.keys (byCategoryLoop o rows)
  = CategoryRecord.keys o ++ firstOccurrences (CategoryRecord.keys o) rows.
Proof.
  induction rows as [|e rows IH]; intros o.
  - cbn. rewrite app_nil_r. reflexivity.
  - unfold byCategoryLoop in *. cbn [foldl firstOccurrences].
    rewrite IH, keys_set.
    destruct (bool_decide (Expense.category e ∈ CategoryRecord.keys o)); [reflexivity|].
    rewrite <- app_assoc. cbn [app]. do 2 f_equal.
    apply firstOccurrences_ext. intros c.
    rewrite elem_of_app, list_elem_of_singleton, elem_of_cons. tauto.
Qed.

Lemma firstOccurrences_NoDup (rows : list Expense.t) :
  ∀ seen, NoDup (firstOccurrences seen rows)
          ∧ ∀ c, c ∈ firstOccurrences seen rows → c ∉ seen.
Proof.
  induction rows as [|e rows IH]; intros seen; cbn [firstOccurrences].
  - split; [constructor|]. intros c Hc. apply elem_of_nil in Hc. contradiction.
  - destruct (bool_decide_reflect (Expense.category e ∈ seen)) as [Hin|Hin].
    + apply IH.
    + destruct (IH (Expense.category e :: seen)) as [Hnd Hfresh]. split.
      * constructor; [|assumption]. intros Hc. apply Hfresh in Hc.
        apply Hc, list_elem_of_here.
      * intros c [->|Hc]%elem_of_cons; [assumption|].
        apply Hfresh in Hc. intros Hs. apply Hc, list_elem_of_further, Hs.
Qed.

(** X10.  The record of [getExpensesByCategory] has one key for each
    category that occurs among the expenses it reads (those of the member,
    or all without a member), in the order of first occurrence and without
    repetition; the amount under a key is the sum of the amounts of the
    expenses of that category, and a category that does not occur has no
    key. *)
Theorem getExpensesByCategory_record
    (expenses : list Expense.t) (member : option FamilyMember) :
  let byCategory := getExpensesByCategory expenses member in
  let filtered := expensesOf member expenses in
  CategoryRecord.keys byCategory = firstOccurrences [] filtered
  ∧ NoDup (CategoryRecord.keys byCategory)
  ∧ ∀ c : ExpenseCategory,
      CategoryRecord.get c byCategory
      = if existsb (λ e, bool_decide (Expense.category e = c)) filtered
        then Some (sumWhere (λ e, bool_decide (Expense.category e = c))
                     Expense.amount filtered)
        else None.
Proof.
  cbn zeta.
  change (getExpensesByCategory expenses member)
    with (byCategoryLoop CategoryRecord.empty (expensesOf member expenses)).
  rewrite byCategoryLoop_keys. cbn [CategoryRecord.keys CategoryRecord.empty map app].
  repeat split.
  - apply firstOccurrences_NoDup.
  - intros c. rewrite byCategoryLoop_get. cbn [CategoryRecord.get CategoryRecord.empty orZero].
    destruct (existsb _ _); [f_equal; lia|reflexivity].
Qed.

Lemma concat_map_app {A B} (g f : A → list B) (ks : list A) :
  concat (map (λ c, g c ++ f c) ks) ≡ₚ concat (map g ks) ++ concat (map f ks).
Proof.
  induction ks as [|k ks IH]; [reflexivity|].
  cbn [map concat]. rewrite IH, <- !app_assoc. apply Permutation_app_head.
  rewrite !app_assoc. apply Permutation_app_tail, Permutation_app_comm.
Qed.

Lemma concat_single_key {B} (k : ExpenseCategory) (e : B) (ks : list ExpenseCategory) :
  NoDup ks → k ∈ ks →
  concat (map (λ c, if bool_decide (k = c) then [e] else []) ks) = [e].
Proof.
  induction 1 as [|c ks Hc Hnd IH]; intros Hin.
  - apply elem_of_nil in Hin. contradiction.
  - cbn [map concat]. destruct (bool_decide_reflect (k = c)) as [->|Hne].
    + cbn [app]. f_equal. clear IH Hin.
      induction ks as [|c' ks IH']; [reflexivity|].
      apply not_elem_of_cons in Hc as [Hne Hc]. inversion_clear Hnd as [|? ? _ Hnd'].
      cbn [map concat]. rewrite bool_decide_eq_false_2 by assumption.
      apply IH'; assumption.
    + apply elem_of_cons in Hin as [?|Hin]; [contradiction|]. apply IH, Hin.
Qed.

(** The rows of a list, taken category by category over keys that are
    distinct and include every category of the list, are a rearrangement of
    the list. *)
Lemma rows_by_category (ks : list ExpenseCategory) (rows : list Expense.t) :
  NoDup ks →
  Forall (λ e, Expense.category e ∈ ks) rows →
  concat (map (λ c, List.filter (λ e, bool_decide (Expense.category e = c)) rows) ks)
  ≡ₚ rows.
Proof.
  intros Hnd. induction 1 as [|e rows He _ IH].
  - cbn [List.filter]. induction ks as [|k ks IHk]; [reflexivity|].
    cbn [map concat app]. apply IHk. inversion_clear Hnd. assumption.
  - assert (map (λ c, List.filter (λ e0, bool_decide (Expense.category e0 = c)) (e :: rows))
              ks
            = map (λ c, (if bool_decide (Expense.category e = c) then [e] else [])
                        ++ List.filter (λ e0, bool_decide (Expense.category e0 = c)) rows)
                ks) as ->.
    { apply map_ext. intros c. cbn [List.filter].
      destruct (bool_decide (Expense.category e = c)); reflexivity. }
    rewrite concat_map_app, (concat_single_key _ _ _ Hnd He), IH. reflexivity.
Qed.

Lemma firstOccurrences_complete (rows : list Expense.t) :
  ∀ seen,
    Forall (λ e, Expense.category e ∈ seen
                 ∨ Expense.category e ∈ firstOccurrences seen rows) rows.
Proof.
  induction rows as [|e rows IH]; intros seen; [constructor|].
  cbn [firstOccurrences].
  destruct (bool_decide_reflect (Expense.category e ∈ seen)) as [Hin|Hin].
  - constructor; [left; exact Hin|apply IH].
  - constructor; [right; apply list_elem_of_here|].
    eapply Forall_impl; [|apply (IH (Expense.category e :: seen))].
    intros r [[->|Hr]%elem_of_cons|Hr].
    + right. apply list_elem_of_here.
    + left. exact Hr.
    + right. apply list_elem_of_further, Hr.
Qed.

(** X11.  Every expense that [getExpensesByCategory] reads is counted under
    exactly one key of its record: the expenses taken key by key, each key
    with the expenses of its category, are a rearrangement of the expenses
    read (those of the member, or all without a member). *)
Theorem getExpensesByCategory_partition
    (expenses : list Expense.t) (member : option FamilyMember) :
  let byCategory := getExpensesByCategory expenses member in
  let filtered := expensesOf member expenses in
  concat
    (map (λ c, List.filter (λ e, bool_decide (Expense.category e = c)) filtered)
       (CategoryRecord.keys byCategory))
  ≡ₚ filtered.
Proof.
  cbn zeta.
  change (getExpensesByCategory expenses member)
    with (byCategoryLoop CategoryRecord.empty (expensesOf member expenses)).
  rewrite byCategoryLoop_keys. cbn [CategoryRecord.keys CategoryRecord.empty map app].
  apply rows_by_category.
  - apply firstOccurrences_NoDup.
  - eapply Forall_impl; [|apply firstOccurrences_complete].
    intros e [Hin|Hin]; [|exact Hin]. apply elem_of_nil in Hin. contradiction.
Qed.

(** ** The hook's operations *)


(** X12.  Selecting a month that has an income, tax or expense row, or
    that the session has already tried to fill, never writes to the store:
    [fetchData] returns after four requests with the store and the guard set
    unchanged and loading switched off, whichever requests fail; when none
    fails, the hook's state holds the rows of the month, newest first, and
    no error. *)
Theorem fetchData_reads_only faults selectedMonth (w : World) :
  Store.select_incomes selectedMonth false (store w) ≠ []
  ∨ Store.select_taxes selectedMonth false (store w) ≠ []
  ∨ Store.select_expenses selectedMonth false (store w) ≠ []
  ∨ selectedMonth ∈ carriedOverMonths w →
  ∃ w', fetchData faults selectedMonth w = (Returned tt, w')
        ∧ store w' = store w
        ∧ carriedOverMonths w' = carriedOverMonths w
        ∧ calls w' = (calls w + 4)%nat
        ∧ HookState.loading (state w') = false
        ∧ ((∀ j, (j < 4)%nat → faults (calls w + j)%nat = None) →
           HookState.incomes (state w') = Store.select_incomes selectedMonth false (store w)
           ∧ HookState.taxes (state w') = Store.select_taxes selectedMonth false (store w)
           ∧ HookState.expenses (state w')
             = Store.select_expenses selectedMonth false (store w)
           ∧ HookState.unnecessaryExpenses (state w')
             = Store.select_unnecessary_expenses selectedMonth false (store w)
           ∧ HookState.error (state w') = None).
Proof.
  intros Hcond.
  destruct (fetchData_no_carry faults selectedMonth w Hcond)
    as (w' & Hrun & Hstore & Hguard & Hcalls & Hloading).
  exists w'. do 5 (split; [assumption|]). intros Hok.
  destruct (fetchData_loads faults selectedMonth w Hcond Hok)
    as (w'' & Hrun' & Hloaded).
  rewrite Hrun in Hrun'. injection Hrun' as <-. exact Hloaded.
Qed.

Lemma fetchData_reads_only_witness :
  ∃ w', fetchData tax_insert_fails "2025-01" new_session = (Returned tt, w')
        ∧ store w' = store new_session
        ∧ carriedOverMonths w' = carriedOverMonths new_session
        ∧ calls w' = (calls new_session + 4)%nat
        ∧ HookState.loading (state w') = false
        ∧ ((∀ j, (j < 4)%nat → tax_insert_fails (calls new_session + j)%nat = None) →
           HookState.incomes (state w')
           = Store.select_incomes "2025-01" false (store new_session)
           ∧ HookState.taxes (state w')
             = Store.select_taxes "2025-01" false (store new_session)
           ∧ HookState.expenses (state w')
             = Store.select_expenses "2025-01" false (store new_session)
           ∧ HookState.unnecessaryExpenses (state w')
             = Store.select_unnecessary_expenses "2025-01" false (store new_session)
           ∧ HookState.error (state w') = None).
Proof.
  apply (fetchData_reads_only tax_insert_fails "2025-01" new_session).
  left. vm_compute. discriminate.
Defined.

Lemma select_incomes_after_insert selectedMonth (data : IncomeFormData.t) (db : Store.t) :
  Store.select_incomes selectedMonth false
    (Store.insert_incomes [incomeOfForm selectedMonth data] db) ≠ [].
Proof.
  unfold Store.select_incomes, Store.insert_incomes, Store.order.
  cbn [Store.incomes imap]. rewrite List.filter_app. cbn [List.filter].
  cbn [Store.new_income incomeOfForm IncomeInsert.month Income.month].
  rewrite bool_decide_eq_true_2 by reflexivity.
  rewrite rev_app_distr. cbn [rev app]. discriminate.
Qed.

(** X13.  [addIncome] adds exactly one row or none.  When the insert fails
    it returns false after that one request, with the store, the hook's
    state and the guard set untouched.  When the insert goes through it
    returns true whether or not the refresh that follows succeeds, the
    store is the old one with the new row of the selected month, and the
    refresh never starts a carry-forward, since the month is not empty. *)
Theorem addIncome_adds_one_row faults selectedMonth (data : IncomeFormData.t) (w : World) :
  match faults (calls w) with
  | Some _ =>
      addIncome faults selectedMonth data w = (Returned false, afterRequest w)
  | None =>
      ∃ w', addIncome faults selectedMonth data w = (Returned true, w')
            ∧ store w' = Store.insert_incomes [incomeOfForm selectedMonth data] (store w)
            ∧ carriedOverMonths w' = carriedOverMonths w
            ∧ calls w' = (calls w + 5)%nat
  end.
Proof.
  destruct (faults (calls w)) as [message|] eqn:F.
  - unfold addIncome, tryCatch, insertIncomes.
    rewrite run_bind, (request_fails _ _ _ _ F). reflexivity.
  - unfold addIncome, tryCatch, insertIncomes.
    rewrite run_bind, (request_resolves _ _ _ F).
    cbn [fst snd throwIfError error]. rewrite run_bind. cbn [mret M_ret].
    rewrite run_bind.
    match goal with
    | |- context [fetchData faults selectedMonth ?w1] =>
        destruct (fetchData_no_carry faults selectedMonth w1)
          as (w' & Hrun & Hstore & Hguard & Hcalls & _)
    end.
    { left. apply select_incomes_after_insert. }
    rewrite Hrun. exists w'. split; [reflexivity|].
    rewrite Hstore, Hguard, Hcalls. cbn [store carriedOverMonths calls].
    repeat split. lia.
Qed.

(** ** Carrying rows over by hand *)

(** X14.  When the insert of a manual carry-over fails, [carryOverIncomes],
    [carryOverTaxes] and [carryOverExpenses] return false after that one
    request: no row is added, and the hook's state and the guard set are as
    before. *)
Theorem carryOver_failure faults selectedMonth (w : World) (message : string)
    (incomesToCarry : list Income.t) (taxesToCarry : list Tax.t)
    (expensesToCarry : list Expense.t) :
  faults (calls w) = Some message →
  carryOverIncomes faults selectedMonth incomesToCarry w = (Returned false, afterRequest w)
  ∧ carryOverTaxes faults selectedMonth taxesToCarry w = (Returned false, afterRequest w)
  ∧ carryOverExpenses faults selectedMonth expensesToCarry w
    = (Returned false, afterRequest w).
Proof.
  intros F. repeat split.
  - unfold carryOverIncomes, tryCatch, insertIncomes.
    rewrite run_bind, (request_fails _ _ _ _ F). reflexivity.
  - unfold carryOverTaxes, tryCatch, insertTaxes.
    rewrite run_bind, (request_fails _ _ _ _ F). reflexivity.
  - unfold carryOverExpenses, tryCatch, insertExpenses.
    rewrite run_bind, (request_fails _ _ _ _ F). reflexivity.
Qed.

Lemma carryOver_failure_witness :
  carryOverIncomes (λ _, Some "connection lost") "2025-02" [scenario_income] new_session
  = (Returned false, afterRequest new_session)
  ∧ carryOverTaxes (λ _, Some "connection lost") "2025-02" [scenario_tax] new_session
    = (Returned false, afterRequest new_session)
  ∧ carryOverExpenses (λ _, Some "connection lost") "2025-02" [rent] new_session
    = (Returned false, afterRequest new_session).
Proof.
  apply (carryOver_failure (λ _, Some "connection lost") "2025-02" new_session
           "connection lost" [scenario_income] [scenario_tax] [rent]).
  reflexivity.
Defined.

Lemma Forall2_imap {A B C} (R : A → C → Prop) (c : A → B) (f : nat → B → C)
    (rows : list A) :
  (∀ i x, R x (f i (c x))) →
  Forall2 R rows (imap f (map c rows)).
Proof.
  revert f. induction rows as [|x rows IH]; intros f Hf; cbn [map imap].
  - constructor.
  - constructor; [apply Hf|]. apply IH. intros i y. apply Hf.
Qed.

(** X15.  When its insert goes through, the manual carry-over of incomes
    and of taxes returns true and appends one row per carried row, each a
    copy of its original in every column but id, month and creation time,
    with the selected month as its month; the other tables are as
    before. *)
Theorem carryOverIncomes_copies faults selectedMonth (w : World)
    (incomesToCarry : list Income.t) (taxesToCarry : list Tax.t) :
  faults (calls w) = None →
  (∃ w' newIncomes,
     carryOverIncomes faults selectedMonth incomesToCarry w = (Returned true, w')
     ∧ Store.incomes (store w') = Store.incomes (store w) ++ newIncomes
     ∧ Forall2 (incomeCopyOf selectedMonth) incomesToCarry newIncomes
     ∧ Store.taxes (store w') = Store.taxes (store w)
     ∧ Store.expenses (store w') = Store.expenses (store w)
     ∧ Store.unnecessary_expenses (store w') = Store.unnecessary_expenses (store w))
  ∧ (∃ w' newTaxes,
       carryOverTaxes faults selectedMonth taxesToCarry w = (Returned true, w')
       ∧ Store.taxes (store w') = Store.taxes (store w) ++ newTaxes
       ∧ Forall2 (taxCopyOf selectedMonth) taxesToCarry newTaxes
       ∧ Store.incomes (store w') = Store.incomes (store w)
       ∧ Store.expenses (store w') = Store.expenses (store w)
       ∧ Store.unnecessary_expenses (store w') = Store.unnecessary_expenses (store w)).
Proof.
  intros F. split.
  - unfold carryOverIncomes, tryCatch, insertIncomes.
    rewrite run_bind, (request_resolves _ _ _ F).
    cbn [fst snd throwIfError error]. rewrite run_bind. cbn [mret M_ret].
    rewrite run_bind.
    match goal with
    | |- context [fetchDataWithoutAutoCarry faults selectedMonth ?w1] =>
        destruct (fetchDataWithoutAutoCarry_frame faults selectedMonth w1)
          as (w' & Hrun & Hstore & _)
    end.
    rewrite Hrun. eexists w', _. split; [reflexivity|]. rewrite Hstore.
    cbn [store Store.insert_incomes Store.incomes Store.taxes Store.expenses
         Store.unnecessary_expenses].
    split; [reflexivity|]. split; [|repeat split].
    apply Forall2_imap. intros i x. reflexivity.
  - unfold carryOverTaxes, tryCatch, insertTaxes.
    rewrite run_bind, (request_resolves _ _ _ F).
    cbn [fst snd throwIfError error]. rewrite run_bind. cbn [mret M_ret].
    rewrite run_bind.
    match goal with
    | |- context [fetchDataWithoutAutoCarry faults selectedMonth ?w1] =>
        destruct (fetchDataWithoutAutoCarry_frame faults selectedMonth w1)
          as (w' & Hrun & Hstore & _)
    end.
    rewrite Hrun. eexists w', _. split; [reflexivity|]. rewrite Hstore.
    cbn [store Store.insert_taxes Store.incomes Store.taxes Store.expenses
         Store.unnecessary_expenses].
    split; [reflexivity|]. split; [|repeat split].
    apply Forall2_imap. intros i x. reflexivity.
Qed.

Lemma carryOverIncomes_copies_witness :
  (∃ w' newIncomes,
     carryOverIncomes no_faults "2025-02" [scenario_income] new_session = (Returned true, w')
     ∧ Store.incomes (store w') = Store.incomes (store new_session) ++ newIncomes
     ∧ Forall2 (incomeCopyOf "2025-02") [scenario_income] newIncomes
     ∧ Store.taxes (store w') = Store.taxes (store new_session)
     ∧ Store.expenses (store w') = Store.expenses (store new_session)
     ∧ Store.unnecessary_expenses (store w') = Store.unnecessary_expenses (store new_session))
  ∧ (∃ w' newTaxes,
       carryOverTaxes no_faults "2025-02" [scenario_tax] new_session = (Returned true, w')
       ∧ Store.taxes (store w') = Store.taxes (store new_session) ++ newTaxes
       ∧ Forall2 (taxCopyOf "2025-02") [scenario_tax] newTaxes
       ∧ Store.incomes (store w') = Store.incomes (store new_session)
       ∧ Store.expenses (store w') = Store.expenses (store new_session)
       ∧ Store.unnecessary_expenses (store w')
         = Store.unnecessary_expenses (store new_session)).
Proof.
  apply (carryOverIncomes_copies no_faults "2025-02" new_session
           [scenario_income] [scenario_tax]).
  reflexivity.
Defined.

(** X16.  The fetches of the previous month never throw and never change
    the store, the hook's state or the guard set: each returns the rows of
    the month before the selected one, oldest first, and the empty list
    when its request fails. *)
Theorem fetchPreviousMonth_rows faults selectedMonth (w : World) :
  fetchPreviousMonthIncomes faults selectedMonth w
  = (Returned (match faults (calls w) with
              | Some _ => []
              | None => Store.select_incomes (getPreviousMonth selectedMonth) true (store w)
              end),
     afterRequest w)
  ∧ fetchPreviousMonthTaxes faults selectedMonth w
    = (Returned (match faults (calls w) with
                | Some _ => []
                | None => Store.select_taxes (getPreviousMonth selectedMonth) true (store w)
                end),
       afterRequest w)
  ∧ fetchPreviousMonthExpenses faults selectedMonth w
    = (Returned (match faults (calls w) with
                | Some _ => []
                | None =>
                    Store.select_expenses (getPreviousMonth selectedMonth) true (store w)
                end),
       afterRequest w).
Proof.
  unfold fetchPreviousMonthIncomes, fetchPreviousMonthTaxes, fetchPreviousMonthExpenses,
    tryCatch, selectIncomes, selectTaxes, selectExpenses.
  rewrite !run_bind.
  destruct (faults (calls w)) as [message|] eqn:F.
  - rewrite !(request_fails _ _ _ _ F). repeat split.
  - rewrite !(request_resolves _ _ _ F). repeat split.
Qed.

(** ** Filling an empty month *)

Section FillEmptyMonth.

#[local] Arguments Store.select_incomes : simpl never.
#[local] Arguments Store.select_taxes : simpl never.
#[local] Arguments Store.select_expenses : simpl never.
#[local] Arguments getPreviousMonth : simpl never.

(** The store after all the inserts of a plan: each table has, after its
    old rows, one copy of every row of the previous month. *)
Lemma afterInserts_all selectedMonth (db : Store.t) :
  let plan := plannedInserts selectedMonth db in
  let db' := afterInserts (length plan) plan db in
  ∃ newIncomes newTaxes newExpenses,
    Store.incomes db' = Store.incomes db ++ newIncomes
    ∧ Store.taxes db' = Store.taxes db ++ newTaxes
    ∧ Store.expenses db' = Store.expenses db ++ newExpenses
    ∧ Store.unnecessary_expenses db' = Store.unnecessary_expenses db
    ∧ Forall2 (incomeCopyOf selectedMonth)
        (Store.select_incomes (getPreviousMonth selectedMonth) true db) newIncomes
    ∧ Forall2 (taxCopyOf selectedMonth)
        (Store.select_taxes (getPreviousMonth selectedMonth) true db) newTaxes
    ∧ Forall2 (expenseCopyOf selectedMonth)
        (Store.select_expenses (getPreviousMonth selectedMonth) true db) newExpenses.
Proof.
  cbn zeta. unfold afterInserts, plannedInserts.
  destruct (Store.select_incomes (getPreviousMonth selectedMonth) true db)
    as [|income prevIncomes];
    destruct (Store.select_taxes (getPreviousMonth selectedMonth) true db)
      as [|tax prevTaxes];
    destruct (Store.select_expenses (getPreviousMonth selectedMonth) true db)
      as [|expense prevExpenses];
    cbn [bool_decide decide_rel app length take foldl];
    cbn;
    eexists _, _, _;
    (split; [first [reflexivity | symmetry; apply app_nil_r]|]);
    (split; [first [reflexivity | symmetry; apply app_nil_r]|]);
    (split; [first [reflexivity | symmetry; apply app_nil_r]|]);
    (split; [reflexivity|]);
    repeat split;
    first [ constructor; fail
          | constructor; [reflexivity|];
            apply Forall2_imap; intros i x; reflexivity ].
Qed.

End FillEmptyMonth.

(** When every request goes through, [fetchData] of an empty month that is
    not in the guard set puts the month there and leaves the store with all
    the inserts of the plan. *)
Lemma fetchData_carries faults selectedMonth (w : World) :
  Store.select_incomes selectedMonth false (store w) = [] →
  Store.select_taxes selectedMonth false (store w) = [] →
  Store.select_expenses selectedMonth false (store w) = [] →
  selectedMonth ∉ carriedOverMonths w →
  (∀ j, (j < 7 + length (plannedInserts selectedMonth (store w)))%nat →
        faults (calls w + j)%nat = None) →
  ∃ w', fetchData faults selectedMonth w = (Returned tt, w')
        ∧ selectedMonth ∈ carriedOverMonths w'
        ∧ store w'
          = afterInserts (length (plannedInserts selectedMonth (store w)))
              (plannedInserts selectedMonth (store w)) (store w).
Proof.
  intros HI HT HE Hguard Hok.
  assert (faults (calls w) = None) as F0
    by (replace (calls w) with (calls w + 0)%nat by lia; apply Hok; lia).
  assert (faults (S (calls w)) = None) as F1
    by (replace (S (calls w)) with (calls w + 1)%nat by lia; apply Hok; lia).
  assert (faults (S (S (calls w))) = None) as F2
    by (replace (S (S (calls w))) with (calls w + 2)%nat by lia; apply Hok; lia).
  assert (faults (S (S (S (calls w)))) = None) as F3
    by (replace (S (S (S (calls w)))) with (calls w + 3)%nat by lia; apply Hok; lia).
  destruct (fetchData_starts_carry faults selectedMonth w F0 F1 F2) as
    (w1 & Hin & Hstore & Hcalls & Hrun); try assumption.
  { rewrite F3. exact I. }
  destruct (autoCarryForward_completes faults selectedMonth w1) as (w2 & Hcopy & Hkeep & Hrows).
  { intros j Hj. rewrite Hcalls, Hstore in *. rewrite <- Nat.add_assoc. apply Hok. lia. }
  exists (setLoading false w2). rewrite Hrun, Hcopy. split; [reflexivity|].
  cbn [setLoading withState carriedOverMonths store].
  rewrite Hkeep, Hrows, Hstore. split; [assumption|reflexivity].
Qed.

Lemma copies_in_month_incomes selectedMonth (originals copies : list Income.t) :
  Forall2 (incomeCopyOf selectedMonth) originals copies →
  List.filter (λ r, bool_decide (Income.month r = selectedMonth)) copies = copies.
Proof.
  induction 1 as [|o c os cs Hc _ IH]; [reflexivity|].
  assert (Income.month c = selectedMonth) as Hm
    by (unfold incomeCopyOf in Hc; rewrite Hc; reflexivity).
  cbn [List.filter]. rewrite (bool_decide_eq_true_2 _ Hm), IH. reflexivity.
Qed.

Lemma copies_in_month_taxes selectedMonth (originals copies : list Tax.t) :
  Forall2 (taxCopyOf selectedMonth) originals copies →
  List.filter (λ r, bool_decide (Tax.month r = selectedMonth)) copies = copies.
Proof.
  induction 1 as [|o c os cs Hc _ IH]; [reflexivity|].
  assert (Tax.month c = selectedMonth) as Hm
    by (unfold taxCopyOf in Hc; rewrite Hc; reflexivity).
  cbn [List.filter]. rewrite (bool_decide_eq_true_2 _ Hm), IH. reflexivity.
Qed.

Lemma copies_in_month_expenses selectedMonth (originals copies : list Expense.t) :
  Forall2 (expenseCopyOf selectedMonth) originals copies →
  List.filter (λ r, bool_decide (Expense.month r = selectedMonth)) copies = copies.
Proof.
  induction 1 as [|o c os cs Hc _ IH]; [reflexivity|].
  assert (Expense.month c = selectedMonth) as Hm
    by (unfold expenseCopyOf in Hc; rewrite Hc; reflexivity).
  cbn [List.filter]. rewrite (bool_decide_eq_true_2 _ Hm), IH. reflexivity.
Qed.

Lemma rev_nil_inv {A} (l : list A) : rev l = [] → l = [].
Proof.
  intros H. apply (f_equal (@rev A)) in H. rewrite rev_involutive in H. exact H.
Qed.

(** The rows of a month that was empty, after all the inserts of the plan:
    the copies, newest first. *)
Lemma month_after_inserts selectedMonth (db : Store.t) :
  Store.select_incomes selectedMonth false db = [] →
  Store.select_taxes selectedMonth false db = [] →
  Store.select_expenses selectedMonth false db = [] →
  let plan := plannedInserts selectedMonth db in
  let db' := afterInserts (length plan) plan db in
  ∃ newIncomes newTaxes newExpenses,
    Store.select_incomes selectedMonth false db' = rev newIncomes
    ∧ Store.select_taxes selectedMonth false db' = rev newTaxes
    ∧ Store.select_expenses selectedMonth false db' = rev newExpenses
    ∧ Forall2 (incomeCopyOf selectedMonth)
        (Store.select_incomes (getPreviousMonth selectedMonth) true db) newIncomes
    ∧ Forall2 (taxCopyOf selectedMonth)
        (Store.select_taxes (getPreviousMonth selectedMonth) true db) newTaxes
    ∧ Forall2 (expenseCopyOf selectedMonth)
        (Store.select_expenses (getPreviousMonth selectedMonth) true db) newExpenses.
Proof.
  intros HI HT HE. cbn zeta.
  destruct (afterInserts_all selectedMonth db)
    as (newIncomes & newTaxes & newExpenses & Hi & Ht & He & _ & Ci & Ct & Ce).
  exists newIncomes, newTaxes, newExpenses.
  unfold Store.select_incomes, Store.select_taxes, Store.select_expenses, Store.order
    in HI, HT, HE |- *.
  apply rev_nil_inv in HI, HT, HE.
  rewrite Hi, Ht, He, !List.filter_app, HI, HT, HE. cbn [app].
  rewrite (copies_in_month_incomes _ _ _ Ci), (copies_in_month_taxes _ _ _ Ct),
    (copies_in_month_expenses _ _ _ Ce).
  repeat split; assumption.
Qed.

(** X17.  Selecting an empty month for the first time in a session, with
    every request going through: [fetchData] puts the month into the guard
    set and fills it from the month before.  Afterwards the month has one
    income, tax and expense for each one of the previous month, each a copy
    in every column but id, month and creation time (for an expense this
    includes the shared, recurring and paid flags, the note and the account
    link). *)
Theorem fetchData_fills_empty_month faults selectedMonth (w : World) :
  Store.select_incomes selectedMonth false (store w) = [] →
  Store.select_taxes selectedMonth false (store w) = [] →
  Store.select_expenses selectedMonth false (store w) = [] →
  selectedMonth ∉ carriedOverMonths w →
  (∀ j, (j < 7 + length (plannedInserts selectedMonth (store w)))%nat →
        faults (calls w + j)%nat = None) →
  ∃ w' newIncomes newTaxes newExpenses,
    fetchData faults selectedMonth w = (Returned tt, w')
    ∧ selectedMonth ∈ carriedOverMonths w'
    ∧ Store.select_incomes selectedMonth false (store w') = rev newIncomes
    ∧ Store.select_taxes selectedMonth false (store w') = rev newTaxes
    ∧ Store.select_expenses selectedMonth false (store w') = rev newExpenses
    ∧ Forall2 (incomeCopyOf selectedMonth)
        (Store.select_incomes (getPreviousMonth selectedMonth) true (store w)) newIncomes
    ∧ Forall2 (taxCopyOf selectedMonth)
        (Store.select_taxes (getPreviousMonth selectedMonth) true (store w)) newTaxes
    ∧ Forall2 (expenseCopyOf selectedMonth)
        (Store.select_expenses (getPreviousMonth selectedMonth) true (store w)) newExpenses.
Proof.
  intros HI HT HE Hguard Hok.
  destruct (fetchData_carries faults selectedMonth w HI HT HE Hguard Hok)
    as (w' & Hrun & Hin & Hstore).
  destruct (month_after_inserts selectedMonth (store w) HI HT HE)
    as (newIncomes & newTaxes & newExpenses & Hrows).
  exists w', newIncomes, newTaxes, newExpenses.
  rewrite Hstore. split; [assumption|]. split; assumption.
Qed.

Lemma fetchData_fills_empty_month_witness :
  ∃ w' newIncomes newTaxes newExpenses,
    fetchData no_faults "2025-02" new_session = (Returned tt, w')
    ∧ "2025-02" ∈ carriedOverMonths w'
    ∧ Store.select_incomes "2025-02" false (store w') = rev newIncomes
    ∧ Store.select_taxes "2025-02" false (store w') = rev newTaxes
    ∧ Store.select_expenses "2025-02" false (store w') = rev newExpenses
    ∧ Forall2 (incomeCopyOf "2025-02")
        (Store.select_incomes (getPreviousMonth "2025-02") true (store new_session))
        newIncomes
    ∧ Forall2 (taxCopyOf "2025-02")
        (Store.select_taxes (getPreviousMonth "2025-02") true (store new_session)) newTaxes
    ∧ Forall2 (expenseCopyOf "2025-02")
        (Store.select_expenses (getPreviousMonth "2025-02") true (store new_session))
        newExpenses.
Proof.
  apply (fetchData_fills_empty_month no_faults "2025-02" new_session).
  - reflexivity.
  - reflexivity.
  - reflexivity.
  - apply not_elem_of_empty.
  - intros j _. reflexivity.
Defined.

(** X18.  Deleting the last row of a month fills the month again.  When
    [deleteExpense] leaves the selected month without incomes, taxes and
    expenses, the month is not in the guard set and every request goes
    through, the refresh after the delete carries the previous month
    forward: [deleteExpense] returns true, and the month then holds a copy
    of every expense of the previous month. *)
Theorem deleteExpense_refills_month faults selectedMonth (id : Uuid) (w : World) :
  let db := StoreWrite.delete_expense id (store w) in
  Store.select_incomes selectedMonth false db = [] →
  Store.select_taxes selectedMonth false db = [] →
  Store.select_expenses selectedMonth false db = [] →
  selectedMonth ∉ carriedOverMonths w →
  (∀ j, (j < 8 + length (plannedInserts selectedMonth db))%nat →
        faults (calls w + j)%nat = None) →
  ∃ w' newExpenses,
    deleteExpense faults selectedMonth id w = (Returned true, w')
    ∧ selectedMonth ∈ carriedOverMonths w'
    ∧ Store.select_expenses selectedMonth false (store w') = rev newExpenses
    ∧ Forall2 (expenseCopyOf selectedMonth)
        (Store.select_expenses (getPreviousMonth selectedMonth) true db) newExpenses.
Proof.
  cbn zeta. intros HI HT HE Hguard Hok.
  assert (faults (calls w) = None) as F0
    by (replace (calls w) with (calls w + 0)%nat by lia; apply Hok; lia).
  unfold deleteExpense, tryCatch.
  rewrite run_bind, (request_resolves _ _ _ F0).
  cbn [fst snd throwIfError error]. rewrite run_bind. cbn [mret M_ret].
  rewrite run_bind.
  match goal with
  | |- context [fetchData faults selectedMonth ?w1] =>
      destruct (fetchData_carries faults selectedMonth w1) as (w' & Hrun & Hin & Hstore);
        try assumption
  end.
  { cbn [store calls]. intros j Hj.
    replace (S (calls w) + j)%nat with (calls w + S j)%nat by lia. apply Hok. lia. }
  cbn [store] in Hstore.
  destruct (month_after_inserts selectedMonth _ HI HT HE)
    as (newIncomes & newTaxes & newExpenses & _ & _ & Hrows & _ & _ & Hcopies).
  exists w', newExpenses. rewrite Hrun, Hstore.
  split; [reflexivity|]. split; [assumption|]. split; assumption.
Qed.

Lemma deleteExpense_refills_month_witness :
  ∃ w' newExpenses,
    deleteExpense no_faults "2025-02" 11%nat
      {| store :=
           {| Store.incomes := []; Store.taxes := []; Store.expenses := [rent; carried_rent];
              Store.unnecessary_expenses := []; Store.next_id := 12%nat;
              Store.clock := 3%nat |};
         calls := 0%nat; state := HookState.initial; carriedOverMonths := ∅ |}
    = (Returned true, w')
    ∧ "2025-02" ∈ carriedOverMonths w'
    ∧ Store.select_expenses "2025-02" false (store w') = rev newExpenses
    ∧ Forall2 (expenseCopyOf "2025-02")
        (Store.select_expenses (getPreviousMonth "2025-02") true
           (StoreWrite.delete_expense 11%nat
              {| Store.incomes := []; Store.taxes := [];
                 Store.expenses := [rent; carried_rent];
                 Store.unnecessary_expenses := []; Store.next_id := 12%nat;
                 Store.clock := 3%nat |}))
        newExpenses.
Proof.
  apply (deleteExpense_refills_month no_faults "2025-02" 11%nat
           {| store :=
                {| Store.incomes := []; Store.taxes := [];
                   Store.expenses := [rent; carried_rent];
                   Store.unnecessary_expenses := []; Store.next_id := 12%nat;
                   Store.clock := 3%nat |};
              calls := 0%nat; state := HookState.initial; carriedOverMonths := ∅ |}).
  - reflexivity.
  - reflexivity.
  - reflexivity.
  - apply not_elem_of_empty.
  - intros j _. reflexivity.
Defined.
